(** * Scheduling core of the class-schedule generator

    A shallow embedding of [solver_service/scheduler.py] and of the data
    model of [data_service/models.py], followed by the properties of the
    specification that were checked against it.

    Conventions of the embedding.
    - Python [int] is [Z]; [str] is [string] (a sequence of UTF-8 bytes, so
      that Python's code-point order on strings is the byte-wise
      lexicographic order of [String.leb] and [String.ltb]).
    - A [dict] that the code only reads by key is a [gmap]; a [set] is a
      [gset].  A [dict] whose iteration order the code observes
      ([slots_by_day], [all_schedules] and the per-group schedules) is an
      insertion-ordered association list, see [Odict].
    - Mutable objects shared by the functions of the scheduler (the
      tracker, [data.room_usage], [all_schedules]) are the fields of one
      [State] record threaded through the calls.
    - An hour identifier ["G{g}_C{c}_B{b}_H{j}"] is the record of its four
      numbers.  The decimal rendering of an integer contains no underscore,
      so the f-string is injective on such records and [split('_')] gives
      back exactly the four parts; the block key made of the first three
      parts is the triple [(g, c, b)]. *)

From stdpp Require Import gmap strings list fin_maps.
From Stdlib Require Import ZArith Lia Sorted.

Open Scope Z_scope.

(** ** Data model ([data_service/models.py]) *)

Module TimeSlot.
Record t := mk { id : Z; day : string; start_time : string; end_time : string }.
End TimeSlot.

Module Course.
Record t := mk {
  id : Z;
  name : string;
  weekly_hours : Z;
  min_block_duration : Z;
  max_block_duration : Z;
  required_room_type : string;
  professor_id : option Z }.
End Course.

Module Room.
Record t := mk {
  id : Z; name : string; capacity : Z; type : string;
  building_name : option string }.
End Room.

Module Professor.
Record t := mk { id : Z; name : string; availability : list Z; max_load : Z }.
End Professor.

Module Assignment.
Record t := mk {
  id : Z; professor_id : Z; course_id : Z; group_id : Z;
  professor_asignatura_id : Z }.
End Assignment.

Module Group.
Record t := mk { id : Z; name : string; tutor : option string }.
End Group.

#[global] Instance course_eq_dec : EqDecision Course.t.
Proof. solve_decision. Defined.

(** ** Insertion-ordered dictionaries

    Python dictionaries iterate in insertion order; assigning to an existing
    key keeps its place, deleting a key and inserting it again moves it to
    the end. *)

Module Odict.
Section Odict.
Context {K V : Type} `{EqDecision K}.

Definition t := list (K * V).

Fixpoint get (k : K) (d : list (K * V)) : option V :=
  match d with
  | [] => None
  | (k', v) :: d' => if decide (k = k') then Some v else get k d'
  end.

Fixpoint set (k : K) (v : V) (d : list (K * V)) : list (K * V) :=
  match d with
  | [] => [(k, v)]
  | (k', v') :: d' =>
      if decide (k = k') then (k, v) :: d' else (k', v') :: set k v d'
  end.

Fixpoint del (k : K) (d : list (K * V)) : list (K * V) :=
  match d with
  | [] => []
  | (k', v') :: d' => if decide (k = k') then d' else (k', v') :: del k d'
  end.

Definition mem (k : K) (d : list (K * V)) : bool :=
  match get k d with Some _ => true | None => false end.

Definition keys (d : list (K * V)) : list K := map fst d.

End Odict.
End Odict.

(** ** Truthiness of the values the code tests with [if x] / [if not x] *)

Definition truthy_int (o : option Z) : bool :=
  match o with Some n => negb (n =? 0) | None => false end.

Definition truthy_str (o : option string) : bool :=
  match o with Some s => negb (String.eqb s "") | None => false end.

(** ** The input index: [SchedulingData.__init__] *)

Record SchedulingData := mkData {
  courses : gmap Z Course.t;
  rooms : gmap Z Room.t;
  professors : gmap Z Professor.t;
  slots : gmap Z TimeSlot.t;
  professor_rooms : gmap Z Z;
  professor_available_slots : gmap Z (gset Z);
  group_course_professor : gmap (Z * Z) Z;
  valid_slots : list TimeSlot.t;
  slots_by_day : list (string * list TimeSlot.t) }.

(** [{x.id: x for x in xs}]: a later element replaces an earlier one. *)
Definition dict_by {A} (key : A → Z) (xs : list A) : gmap Z A :=
  foldl (λ m x, <[key x := x]> m) ∅ xs.

(** [all_slot_ids = set(s.id for s in timeslots)] *)
Definition all_slot_ids (timeslots : list TimeSlot.t) : gset Z :=
  list_to_set (map TimeSlot.id timeslots).

(** The loop of lines 20-23. *)
Definition build_available (timeslots : list TimeSlot.t)
    (profs : list Professor.t) : gmap Z (gset Z) :=
  foldl (λ m prof,
           let unavailable : gset Z := list_to_set (Professor.availability prof) in
           let available := all_slot_ids timeslots ∖ unavailable in
           <[Professor.id prof := available]> m) ∅ profs.

Definition build_group_course_professor (assignments : list Assignment.t)
    : gmap (Z * Z) Z :=
  foldl (λ m a,
           <[(Assignment.group_id a, Assignment.course_id a)
             := Assignment.professor_id a]> m) ∅ assignments.

(** ["17:00" <= s.start_time < "22:00"], a comparison of strings. *)
Definition in_window (s : TimeSlot.t) : bool :=
  String.leb "17:00" (TimeSlot.start_time s)
  && String.ltb (TimeSlot.start_time s) "22:00".

(** [list.sort(key=lambda slot: slot.id)]: a stable sort, written as the
    insertion of each element after those whose key is not larger. *)
Fixpoint insert_by_id (s : TimeSlot.t) (l : list TimeSlot.t) : list TimeSlot.t :=
  match l with
  | [] => [s]
  | x :: l' =>
      if TimeSlot.id s <? TimeSlot.id x then s :: x :: l'
      else x :: insert_by_id s l'
  end.

Definition sort_by_id (l : list TimeSlot.t) : list TimeSlot.t :=
  foldl (λ acc s, insert_by_id s acc) [] l.

(** Lines 37-41: append each valid slot to the list of its day. *)
Definition group_by_day (vs : list TimeSlot.t) : list (string * list TimeSlot.t) :=
  foldl (λ d s,
           let cur := default [] (Odict.get (TimeSlot.day s) d) in
           Odict.set (TimeSlot.day s) (cur ++ [s]) d) [] vs.

Definition SchedulingData_init
    (cs : list Course.t) (rs : list Room.t) (timeslots : list TimeSlot.t)
    (profs : list Professor.t) (assignments : list Assignment.t)
    (prof_rooms : gmap Z Z) : SchedulingData :=
  let vs := filter (λ s, in_window s = true) timeslots in
  {| courses := dict_by Course.id cs;
     rooms := dict_by Room.id rs;
     professors := dict_by Professor.id profs;
     slots := dict_by TimeSlot.id timeslots;
     professor_rooms := prof_rooms;
     professor_available_slots := build_available timeslots profs;
     group_course_professor := build_group_course_professor assignments;
     valid_slots := vs;
     slots_by_day := map (λ p, (p.1, sort_by_id p.2)) (group_by_day vs) |}.

Definition is_professor_available_at_slots (data : SchedulingData)
    (professor_id : Z) (slot_ids : list Z) : bool :=
  match professor_available_slots data !! professor_id with
  | None => true
  | Some available_slots =>
      forallb (λ slot_id, bool_decide (slot_id ∈ available_slots)) slot_ids
  end.

Definition get_professor_for_group_course (data : SchedulingData)
    (group_id course_id : Z) : option Z :=
  group_course_professor data !! (group_id, course_id).

Definition get_professor_room (data : SchedulingData) (professor_id : Z)
    : option Z :=
  professor_rooms data !! professor_id.

(** [data.room_usage] is the one mutable field of [SchedulingData]; it is
    kept in the mutable state below and the three methods take it as an
    argument. *)
Definition is_room_available (room_usage : gmap Z (gset Z)) (room_id : Z)
    (slot_ids : list Z) : bool :=
  match room_usage !! room_id with
  | None => true
  | Some used => forallb (λ slot_id, bool_decide (slot_id ∉ used)) slot_ids
  end.

Definition mark_room_used (room_usage : gmap Z (gset Z)) (room_id : Z)
    (slot_ids : list Z) : gmap Z (gset Z) :=
  let used := default ∅ (room_usage !! room_id) in
  <[room_id := used ∪ list_to_set slot_ids]> room_usage.

Definition unmark_room_used (room_usage : gmap Z (gset Z)) (room_id : Z)
    (slot_ids : list Z) : gmap Z (gset Z) :=
  match room_usage !! room_id with
  | None => room_usage
  | Some used => <[room_id := used ∖ list_to_set slot_ids]> room_usage
  end.

(** ** [GroupScheduleTracker] *)

Record GroupScheduleTracker := mkTracker {
  prof_schedule : gmap Z (gmap Z Z);
  group_schedule : gmap Z (gmap Z Z);
  course_fixed_hour : gmap (Z * Z) string;
  group_course_days : gmap (Z * Z) (gset string) }.

Definition tracker_init : GroupScheduleTracker :=
  {| prof_schedule := ∅; group_schedule := ∅;
     course_fixed_hour := ∅; group_course_days := ∅ |}.

Definition slots_free (sched : gmap Z (gmap Z Z)) (k : Z) (slot_ids : list Z)
    : bool :=
  match sched !! k with
  | None => true
  | Some m => forallb (λ slot_id, bool_decide (m !! slot_id = None)) slot_ids
  end.

Definition can_assign_professor (t : GroupScheduleTracker) (prof_id : Z)
    (slot_ids : list Z) : bool :=
  slots_free (prof_schedule t) prof_id slot_ids.

Definition can_assign_group (t : GroupScheduleTracker) (group_id : Z)
    (slot_ids : list Z) : bool :=
  slots_free (group_schedule t) group_id slot_ids.

Definition get_used_days_for_course (t : GroupScheduleTracker)
    (group_id course_id : Z) : gset string :=
  default ∅ (group_course_days t !! (group_id, course_id)).

Definition add_day_for_course (t : GroupScheduleTracker)
    (group_id course_id : Z) (day : string) : GroupScheduleTracker :=
  let key := (group_id, course_id) in
  let cur := default ∅ (group_course_days t !! key) in
  {| prof_schedule := prof_schedule t;
     group_schedule := group_schedule t;
     course_fixed_hour := course_fixed_hour t;
     group_course_days := <[key := cur ∪ {[day]}]> (group_course_days t) |}.

Definition remove_day_for_course (t : GroupScheduleTracker)
    (group_id course_id : Z) (day : string) : GroupScheduleTracker :=
  let key := (group_id, course_id) in
  {| prof_schedule := prof_schedule t;
     group_schedule := group_schedule t;
     course_fixed_hour := course_fixed_hour t;
     group_course_days :=
       match group_course_days t !! key with
       | None => group_course_days t
       | Some cur => <[key := cur ∖ {[day]}]> (group_course_days t)
       end |}.

Definition get_fixed_hour_for_course (t : GroupScheduleTracker)
    (group_id course_id : Z) : option string :=
  course_fixed_hour t !! (group_id, course_id).

Definition set_fixed_hour_for_course (t : GroupScheduleTracker)
    (group_id course_id : Z) (hour : string) : GroupScheduleTracker :=
  {| prof_schedule := prof_schedule t;
     group_schedule := group_schedule t;
     course_fixed_hour := <[(group_id, course_id) := hour]> (course_fixed_hour t);
     group_course_days := group_course_days t |}.

(** [if k not in d: d[k] = {}] *)
Definition ensure_key (sched : gmap Z (gmap Z Z)) (k : Z) : gmap Z (gmap Z Z) :=
  match sched !! k with
  | None => <[k := ∅]> sched
  | Some _ => sched
  end.

(** [for slot_id in slot_ids: d[k][slot_id] = v] *)
Definition write_slots (sched : gmap Z (gmap Z Z)) (k : Z) (slot_ids : list Z)
    (v : Z) : gmap Z (gmap Z Z) :=
  foldl (λ m slot_id, alter (λ inner, <[slot_id := v]> inner) k m) sched slot_ids.

(** [if k in d: for slot_id in slot_ids: d[k].pop(slot_id, None)] *)
Definition pop_slots (sched : gmap Z (gmap Z Z)) (k : Z) (slot_ids : list Z)
    : gmap Z (gmap Z Z) :=
  foldl (λ m slot_id, alter (λ inner, delete slot_id inner) k m) sched slot_ids.

(** The two dictionaries are distinct objects, so the interleaved writes of
    the loop of [assign] are two independent sequences of writes. *)
Definition assign (t : GroupScheduleTracker) (prof_id group_id : Z)
    (slot_ids : list Z) (course_id : Z) : GroupScheduleTracker :=
  {| prof_schedule :=
       write_slots (ensure_key (prof_schedule t) prof_id) prof_id slot_ids group_id;
     group_schedule :=
       write_slots (ensure_key (group_schedule t) group_id) group_id slot_ids course_id;
     course_fixed_hour := course_fixed_hour t;
     group_course_days := group_course_days t |}.

Definition unassign (t : GroupScheduleTracker) (prof_id group_id : Z)
    (slot_ids : list Z) : GroupScheduleTracker :=
  {| prof_schedule := pop_slots (prof_schedule t) prof_id slot_ids;
     group_schedule := pop_slots (group_schedule t) group_id slot_ids;
     course_fixed_hour := course_fixed_hour t;
     group_course_days := group_course_days t |}.

(** ** [calculate_course_blocks]

    The [while remaining > 0] loop, with a bound on the number of
    iterations; [None] stands for a loop that has not finished within the
    bound.  [calculate_course_blocks] runs it with [weekly_hours]
    iterations, which is enough for every course whose three numbers are
    positive (lemma [blocks_loop_total]), as [models.py] requires. *)

Fixpoint blocks_loop (fuel : nat) (remaining mn mx : Z) : option (list Z) :=
  if remaining <=? 0 then Some []
  else
    match fuel with
    | O => None
    | S fuel' =>
        let block_dur := Z.min remaining mx in
        let block_dur :=
          if (block_dur <? mn) && (mn <=? remaining) then mn else block_dur in
        match blocks_loop fuel' (remaining - block_dur) mn mx with
        | Some blocks => Some (block_dur :: blocks)
        | None => None
        end
    end.

Definition calculate_course_blocks (course : Course.t) : option (list Z) :=
  blocks_loop (Z.to_nat (Course.weekly_hours course))
    (Course.weekly_hours course)
    (Course.min_block_duration course)
    (Course.max_block_duration course).

Definition sum_list (l : list Z) : Z := foldr Z.add 0 l.

(** ** Concrete inputs used by the examples below *)

Definition course_4_2_3 : Course.t :=
  Course.mk 1 "Calculo" 4 2 3 "tronco_comun" None.


(** The tracker with the entries of a professor and of a group
    initialised, as the first two statements of [assign] leave it. *)
Definition touch (t : GroupScheduleTracker) (prof_id group_id : Z)
    : GroupScheduleTracker :=
  {| prof_schedule := ensure_key (prof_schedule t) prof_id;
     group_schedule := ensure_key (group_schedule t) group_id;
     course_fixed_hour := course_fixed_hour t;
     group_course_days := group_course_days t |}.

Definition tracker_one_block : GroupScheduleTracker :=
  assign tracker_init 7 3 [1017] 9.

Definition slot_morning : TimeSlot.t :=
  TimeSlot.mk 1008 "Lunes" "08:00:00" "9:00:00".

Definition slot_evening : TimeSlot.t :=
  TimeSlot.mk 1017 "Lunes" "17:00:00" "18:00:00".

Definition prof_free : Professor.t := Professor.mk 7 "Ana" [] 10.

Definition data_morning : SchedulingData :=
  SchedulingData_init [] [] [slot_morning; slot_evening] [prof_free] [] ∅.

(** ** What the scheduler takes from the Python runtime

    The process-wide generator of the [random] module, the iteration order
    of a [set] (which for strings depends on the hash seed of the process),
    [str.lower] and [int] are not part of the repository.  They are the
    fields of [Runtime]; the scheduler is written over an arbitrary
    instance.
    - [randbelow n r] is a draw of [random]'s [_randbelow(n)] in generator
      state [r], with the next state.
    - [iter_str_set l] and [iter_int_set l] give the order in which a set
      built by adding the elements of [l] one after the other is iterated.
    - [parse_hour s] is [int(s.split(':')[0])]; [None] when [int] raises
      [ValueError]. *)

Class Runtime := {
  Rng : Type;
  randbelow : nat → Rng → nat * Rng;
  iter_str_set : list string → list string;
  iter_int_set : list Z → list Z;
  lower : string → string;
  parse_hour : string → option Z }.

(** ** Exceptions *)

Inductive exn := KeyError | ValueError | IndexError | Unmodelled | Diverges.

Inductive result (A : Type) :=
  | Ok (a : A)
  | Raise (e : exn).
Arguments Ok {A} a.
Arguments Raise {A} e.

#[global] Instance result_bind : MBind result :=
  λ A B f x, match x with Ok a => f a | Raise e => Raise e end.

(** ** Hour identifiers, schedules and the mutable state *)

Record HourId := mkHourId {
  h_group : Z; h_course : Z; h_block : Z; h_index : nat }.

#[global] Instance hour_id_eq_dec : EqDecision HourId.
Proof. solve_decision. Defined.

(** [f"{parts[0]}_{parts[1]}_{parts[2]}"] *)
Definition block_key_of (h : HourId) : Z * Z * Z :=
  (h_group h, h_course h, h_block h).

(** A schedule entry [(timeslot id, room id, course id)]. *)
Record Entry := mkEntry { e_slot : Z; e_room : Z; e_course : Z }.

Record State := mkState {
  room_usage : gmap Z (gset Z);
  tracker : GroupScheduleTracker;
  all_schedules : list (Z * list (HourId * Entry)) }.

Definition with_tracker (st : State) (t : GroupScheduleTracker) : State :=
  {| room_usage := room_usage st; tracker := t;
     all_schedules := all_schedules st |}.

Definition with_room_usage (st : State) (ru : gmap Z (gset Z)) : State :=
  {| room_usage := ru; tracker := tracker st;
     all_schedules := all_schedules st |}.

Definition with_schedules (st : State)
    (a : list (Z * list (HourId * Entry))) : State :=
  {| room_usage := room_usage st; tracker := tracker st; all_schedules := a |}.

(** [all_schedules[group_id][hour_id] = entry] *)
Definition write_entry (st : State) (group_id : Z) (hour_id : HourId)
    (e : Entry) : result State :=
  match Odict.get group_id (all_schedules st) with
  | None => Raise KeyError
  | Some sched =>
      Ok (with_schedules st
            (Odict.set group_id (Odict.set hour_id e sched) (all_schedules st)))
  end.

(** [if hour_id in all_schedules[group_id]: del all_schedules[group_id][hour_id]] *)
Definition delete_entry (st : State) (group_id : Z) (hour_id : HourId)
    : result State :=
  match Odict.get group_id (all_schedules st) with
  | None => Raise KeyError
  | Some sched =>
      Ok (with_schedules st
            (Odict.set group_id (Odict.del hour_id sched) (all_schedules st)))
  end.

(** ** Language courses *)

Fixpoint contains (p s : string) : bool :=
  String.prefix p s
  || match s with
     | EmptyString => false
     | String _ s' => contains p s'
     end.

(** ['inglés' in name.lower() or 'ingles' in name.lower()] *)
Definition is_english_name `{Runtime} (name : string) : bool :=
  contains "inglés" (lower name) || contains "ingles" (lower name).

(** ** Slices and positions *)

(** [l[a:b]] for [a >= 0]; a negative [b] counts from the end. *)
Definition py_slice {A} (l : list A) (a b : Z) : list A :=
  let n := Z.of_nat (length l) in
  let b' := if b <? 0 then Z.max (n + b) 0 else Z.min b n in
  let a' := Z.min a n in
  take (Z.to_nat (b' - a')) (drop (Z.to_nat a') l).

(** [range(n)] as the list of its indices. *)
Definition py_range (n : Z) : list Z := map Z.of_nat (seq 0 (Z.to_nat n)).

Record Position := mkPosition {
  pos_day : string;
  pos_start_idx : Z;
  pos_slots : list TimeSlot.t;
  pos_slot_ids : list Z;
  pos_first_hour : string;
  pos_room_id : Z;
  pos_prof_id : Z }.

(** The continuity loop of lines 168-174; hours are parsed pair by pair and
    the loop stops at the first gap. *)
Fixpoint is_continuous `{Runtime} (consecutive : list TimeSlot.t) : result bool :=
  match consecutive with
  | a :: ((b :: _) as rest) =>
      match parse_hour (TimeSlot.start_time a) with
      | None => Raise ValueError
      | Some h1 =>
          match parse_hour (TimeSlot.start_time b) with
          | None => Raise ValueError
          | Some h2 =>
              if bool_decide (h2 - h1 ≠ 1) then Ok false else is_continuous rest
          end
      end
  | _ => Ok true
  end.

(** One iteration of the loop over [start_idx] of [find_all_valid_positions]:
    [None] for a window that is skipped. *)
Definition window_position `{Runtime} (data : SchedulingData) (st : State)
    (group_id : Z) (duration : Z) (day : string)
    (day_slots : list TimeSlot.t) (prof_id room_id : Z)
    (is_english : bool) (fixed_hour : option string) (start_idx : Z)
    : result (option Position) :=
  let consecutive := py_slice day_slots start_idx (start_idx + duration) in
  cont ← is_continuous consecutive;
  if negb cont then Ok None
  else
    match consecutive with
    | [] => Raise IndexError
    | first :: _ =>
        let first_hour := TimeSlot.start_time first in
        let slot_ids := map TimeSlot.id consecutive in
        if negb (is_professor_available_at_slots data prof_id slot_ids)
        then Ok None
        else if is_english && truthy_str fixed_hour
                && negb (bool_decide (Some first_hour = fixed_hour))
        then Ok None
        else if negb (can_assign_professor (tracker st) prof_id slot_ids)
        then Ok None
        else if negb (can_assign_group (tracker st) group_id slot_ids)
        then Ok None
        else if negb (is_room_available (room_usage st) room_id slot_ids)
        then Ok None
        else Ok (Some {| pos_day := day; pos_start_idx := start_idx;
                         pos_slots := consecutive; pos_slot_ids := slot_ids;
                         pos_first_hour := first_hour;
                         pos_room_id := room_id; pos_prof_id := prof_id |})
    end.

Fixpoint collect_positions {A} (f : Z → result (option A)) (idxs : list Z)
    : result (list A) :=
  match idxs with
  | [] => Ok []
  | i :: rest =>
      o ← f i;
      ps ← collect_positions f rest;
      Ok (match o with Some p => p :: ps | None => ps end)
  end.

Definition find_all_valid_positions `{Runtime} (course : Course.t)
    (group_id : Z) (duration : Z) (day : string) (data : SchedulingData)
    (st : State) (is_english : bool) (fixed_hour : option string)
    : result (list Position) :=
  let prof := get_professor_for_group_course data group_id (Course.id course) in
  if negb (truthy_int prof) then Ok []
  else
    let prof_id := default 0 prof in
    let room := get_professor_room data prof_id in
    if negb (truthy_int room) then Ok []
    else
      let room_id := default 0 room in
      match Odict.get day (slots_by_day data) with
      | None => Ok []
      | Some day_slots =>
          collect_positions
            (window_position data st group_id duration day day_slots
               prof_id room_id is_english fixed_hour)
            (py_range (Z.of_nat (length day_slots) - duration + 1))
      end.

(** ** [get_conflicting_blocks] *)

Record Hour := mkHour { hour_id : HourId; slot_id : Z; room_id : Z }.

Record Conflict := mkConflict {
  block_key : Z * Z * Z;
  c_group_id : Z;
  c_course_id : Z;
  c_course : option Course.t;
  c_is_english : bool;
  hours : list Hour;
  c_all_slot_ids : list Z }.

(** The loop of lines 217-232 over the entries of one group: the hours that
    fall in [slot_ids], gathered under their block key, in the order in
    which the keys are first met. *)
Definition blocks_in_group (slot_ids : list Z)
    (schedule : list (HourId * Entry))
    : list (Z * Z * Z * (Z * list Hour)) :=
  foldl (λ blocks '(hid, e),
           if bool_decide (e_slot e ∈ slot_ids) then
             let key := block_key_of hid in
             let h := {| hour_id := hid; slot_id := e_slot e;
                         room_id := e_room e |} in
             match Odict.get key blocks with
             | None => Odict.set key (e_course e, [h]) blocks
             | Some (cid, hs) => Odict.set key (cid, hs ++ [h]) blocks
             end
           else blocks) [] schedule.

Definition conflict_of `{Runtime} (data : SchedulingData) (other_group_id : Z)
    (b : Z * Z * Z * (Z * list Hour)) : Conflict :=
  let '(key, (cid, hs)) := b in
  let course := courses data !! cid in
  {| block_key := key;
     c_group_id := other_group_id;
     c_course_id := cid;
     c_course := course;
     c_is_english :=
       match course with
       | Some c => is_english_name (Course.name c)
       | None => false
       end;
     hours := hs;
     c_all_slot_ids := map slot_id hs |}.

Definition get_conflicting_blocks `{Runtime} (slot_ids : list Z)
    (group_id : Z) (all : list (Z * list (HourId * Entry)))
    (data : SchedulingData) : list Conflict :=
  flat_map (λ '(other_group_id, schedule),
              map (conflict_of data other_group_id)
                  (blocks_in_group slot_ids schedule)) all.

(** ** The [random] module

    [shuffle], [choice] and [randint] as CPython writes them over
    [_randbelow]; a draw is reduced modulo its bound, so that it is below
    the bound for every instance of [Runtime]. *)

Definition below `{Runtime} (n : nat) (r : Rng) : nat * Rng :=
  let '(k, r') := randbelow n r in (k mod n, r')%nat.

(** [x[i], x[j] = x[j], x[i]] *)
Definition swap {A} (x : list A) (i j : nat) : list A :=
  match x !! i, x !! j with
  | Some a, Some b => <[j := a]> (<[i := b]> x)
  | _, _ => x
  end.

(** [for i in reversed(range(1, len(x))): j = randbelow(i + 1); swap] *)
Fixpoint shuffle_from `{Runtime} {A} (i : nat) (x : list A) (r : Rng)
    : list A * Rng :=
  match i with
  | O => (x, r)
  | S i' =>
      let '(j, r') := below (S i) r in
      shuffle_from i' (swap x i j) r'
  end.

Definition shuffle `{Runtime} {A} (x : list A) (r : Rng) : list A * Rng :=
  shuffle_from (length x - 1) x r.

(** [seq[randbelow(len(seq))]] *)
Definition choice `{Runtime} {A} (x : list A) (r : Rng) : result (A * Rng) :=
  let '(k, r') := below (length x) r in
  match x !! k with
  | Some a => Ok (a, r')
  | None => Raise IndexError
  end.

(** [randint(a, b) = a + randbelow(b - a + 1)] *)
Definition randint `{Runtime} (a b : Z) (r : Rng) : Z * Rng :=
  let '(k, r') := below (Z.to_nat (b - a + 1)) r in (a + Z.of_nat k, r').

(** ** Committing a position

    The statements that follow the choice of a position, the same in
    [try_relocate_block] (lines 305-313) and in the two places of
    [force_assign_with_displacement] (lines 607-615 and 677-685). *)

Fixpoint write_block (st : State) (group_id : Z) (g c b : Z) (j : nat)
    (slot_ids : list Z) (room course_id : Z) : result State :=
  match slot_ids with
  | [] => Ok st
  | slot :: rest =>
      st' ← write_entry st group_id (mkHourId g c b j)
              (mkEntry slot room course_id);
      write_block st' group_id g c b (S j) rest room course_id
  end.

Definition place_block (st : State) (group_id : Z) (course : Course.t)
    (block : Z) (pos : Position) (day : string) : result State :=
  let cid := Course.id course in
  st1 ← write_block st group_id group_id cid block 0 (pos_slot_ids pos)
          (pos_room_id pos) cid;
  let t1 := assign (tracker st1) (pos_prof_id pos) group_id (pos_slot_ids pos) cid in
  let ru := mark_room_used (room_usage st1) (pos_room_id pos) (pos_slot_ids pos) in
  let t2 := if bool_decide (Course.max_block_duration course = 1)
            then add_day_for_course t1 group_id cid day else t1 in
  Ok {| room_usage := ru; tracker := t2; all_schedules := all_schedules st1 |}.

(** ** [try_relocate_block] *)

(** Lines 269-273: the day of the first valid slot whose id is that of the
    first hour of the block. *)
Definition find_old_day (data : SchedulingData) (slot : Z) : option string :=
  TimeSlot.day <$> List.find (λ s, bool_decide (TimeSlot.id s = slot))
                     (valid_slots data).

Fixpoint delete_hours (st : State) (group_id : Z) (hs : list Hour)
    : result State :=
  match hs with
  | [] => Ok st
  | h :: rest =>
      st' ← delete_entry st group_id (hour_id h);
      delete_hours st' group_id rest
  end.

Fixpoint restore_hours (st : State) (group_id : Z) (hs : list Hour)
    (course_id : Z) : result State :=
  match hs with
  | [] => Ok st
  | h :: rest =>
      st' ← write_entry st group_id (hour_id h)
              (mkEntry (slot_id h) (room_id h) course_id);
      restore_hours st' group_id rest course_id
  end.

(** The loop over the shuffled days of lines 291-315; [None] when no day
    has a position. *)
Fixpoint relocate_on_days `{Runtime} (data : SchedulingData)
    (course : Course.t) (group_id course_id : Z) (duration : Z)
    (is_english : bool) (fixed_hour : option string)
    (days : list string) (r : Rng) (st : State)
    : result (option (Rng * State)) :=
  match days with
  | [] => Ok None
  | day :: rest =>
      if bool_decide (Course.max_block_duration course = 1)
         && bool_decide (day ∈ get_used_days_for_course (tracker st)
                                 group_id course_id)
      then relocate_on_days data course group_id course_id duration
             is_english fixed_hour rest r st
      else
        positions ← find_all_valid_positions course group_id duration day
                      data st is_english fixed_hour;
        match positions with
        | [] => relocate_on_days data course group_id course_id duration
                  is_english fixed_hour rest r st
        | _ :: _ =>
            '(pos, r1) ← choice positions r;
            let '(suffix, r2) := randint 1000 9999 r1 in
            st1 ← write_block st group_id group_id course_id suffix 0
                    (pos_slot_ids pos) (pos_room_id pos) course_id;
            let t1 := assign (tracker st1) (pos_prof_id pos) group_id
                        (pos_slot_ids pos) course_id in
            let ru := mark_room_used (room_usage st1) (pos_room_id pos)
                        (pos_slot_ids pos) in
            let t2 := if bool_decide (Course.max_block_duration course = 1)
                      then add_day_for_course t1 group_id course_id day
                      else t1 in
            Ok (Some (r2, {| room_usage := ru; tracker := t2;
                             all_schedules := all_schedules st1 |}))
        end
  end.

Definition try_relocate_block `{Runtime} (conflict : Conflict)
    (data : SchedulingData) (r : Rng) (st : State)
    : result (bool * Rng * State) :=
  let group_id := c_group_id conflict in
  let course_id := c_course_id conflict in
  let duration := Z.of_nat (length (hours conflict)) in
  match c_course conflict with
  | None => Ok (false, r, st)
  | Some course =>
      let prof := get_professor_for_group_course data group_id course_id in
      if negb (truthy_int prof) then Ok (false, r, st)
      else
        let prof_id := default 0 prof in
        match hours conflict with
        | [] => Raise IndexError
        | h0 :: _ =>
            let old_slot_ids := map slot_id (hours conflict) in
            let old_day := find_old_day data (slot_id h0) in
            st1 ← delete_hours st group_id (hours conflict);
            let t1 := unassign (tracker st1) prof_id group_id old_slot_ids in
            let ru1 := unmark_room_used (room_usage st1) (room_id h0) old_slot_ids in
            let day_tracked :=
              truthy_str old_day
              && bool_decide (Course.max_block_duration course = 1) in
            let t2 := if day_tracked
                      then remove_day_for_course t1 group_id course_id
                             (default "" old_day)
                      else t1 in
            let st2 := {| room_usage := ru1; tracker := t2;
                          all_schedules := all_schedules st1 |} in
            let is_english := c_is_english conflict in
            let fixed_hour :=
              if is_english
              then get_fixed_hour_for_course t2 group_id course_id
              else None in
            let '(days, r1) := shuffle (Odict.keys (slots_by_day data)) r in
            found ← relocate_on_days data course group_id course_id duration
                      is_english fixed_hour days r1 st2;
            match found with
            | Some (r2, st3) => Ok (true, r2, st3)
            | None =>
                st3 ← restore_hours st2 group_id (hours conflict) course_id;
                let t3 := assign (tracker st3) prof_id group_id old_slot_ids
                            course_id in
                let ru3 := mark_room_used (room_usage st3) (room_id h0)
                             old_slot_ids in
                let t4 := if day_tracked
                          then add_day_for_course t3 group_id course_id
                                 (default "" old_day)
                          else t3 in
                Ok (false, r1, {| room_usage := ru3; tracker := t4;
                                  all_schedules := all_schedules st3 |})
            end
        end
  end.

(** The movable-conflict loops of lines 486-491 and 661-666: relocate the
    blocks one after the other and stop at the first failure. *)
Fixpoint relocate_all `{Runtime} (data : SchedulingData)
    (conflicts : list Conflict) (r : Rng) (st : State)
    : result (bool * Rng * State) :=
  match conflicts with
  | [] => Ok (true, r, st)
  | c :: rest =>
      '(moved, r', st') ← try_relocate_block c data r st;
      if (moved : bool) then relocate_all data rest r' st'
      else Ok (false, r', st')
  end.

(** ** [get_consecutive_day_sequences] *)

Definition day_order : list string :=
  ["Lunes"; "Martes"; "Miércoles"; "Jueves"; "Viernes"; "Sábado"; "Domingo"].

(** [day_order.index(d)] for a day of [day_order]. *)
Fixpoint index_of (d : string) (l : list string) : nat :=
  match l with
  | [] => O
  | x :: l' => if decide (d = x) then O else S (index_of d l')
  end.

(** [all(indices[j+1] - indices[j] == 1 for j in range(len(indices)-1))] *)
Fixpoint steps_of_one (indices : list nat) : bool :=
  match indices with
  | a :: ((b :: _) as rest) =>
      bool_decide (Z.of_nat b - Z.of_nat a = 1) && steps_of_one rest
  | _ => true
  end.

Definition get_consecutive_day_sequences (days_list : list string)
    (num_days : nat) : list (list string) :=
  let available_days :=
    filter (λ d, d ∈ days_list) day_order in
  flat_map (λ i,
              let seq_ := take num_days (drop i available_days) in
              let indices := map (λ d, index_of d day_order) seq_ in
              if steps_of_one indices then [seq_] else [])
           (seq 0 (S (length available_days) - num_days)).

(** ** [assign_english_consecutive_days] *)

(** [for slot in day_slots: if slot.start_time == hour: ... break] *)
Definition slot_at_hour (day_slots : list TimeSlot.t) (hour : string)
    : option TimeSlot.t :=
  List.find (λ slot, bool_decide (TimeSlot.start_time slot = hour)) day_slots.

(** The loops over the days of a sequence of lines 390-426 (with the
    availability check) and 497-527 (without it): [None] when [all_valid]
    ends [False]. *)
Fixpoint english_positions (data : SchedulingData) (st : State)
    (check_available : bool) (prof_id room group_id : Z)
    (days : list string) (hour : string)
    : result (option (list (string * TimeSlot.t))) :=
  match days with
  | [] => Ok (Some [])
  | day :: rest =>
      match Odict.get day (slots_by_day data) with
      | None => Raise KeyError
      | Some day_slots =>
          match slot_at_hour day_slots hour with
          | None => Ok None
          | Some slot =>
              let slot_ids := [TimeSlot.id slot] in
              if check_available
                 && negb (is_professor_available_at_slots data prof_id slot_ids)
              then Ok None
              else if negb (can_assign_professor (tracker st) prof_id slot_ids)
              then Ok None
              else if negb (can_assign_group (tracker st) group_id slot_ids)
              then Ok None
              else if negb (is_room_available (room_usage st) room slot_ids)
              then Ok None
              else
                ps ← english_positions data st check_available prof_id room
                       group_id rest hour;
                Ok (option_map (cons (day, slot)) ps)
          end
      end
  end.

(** The commit loop of lines 429-436 and 530-537, from block number
    [block_num]. *)
Fixpoint commit_english (st : State) (group_id : Z) (course : Course.t)
    (prof_id room : Z) (block_num : Z)
    (positions : list (string * TimeSlot.t)) : result State :=
  match positions with
  | [] => Ok st
  | (day, slot) :: rest =>
      let cid := Course.id course in
      st1 ← write_entry st group_id (mkHourId group_id cid block_num 0)
              (mkEntry (TimeSlot.id slot) room cid);
      let t1 := assign (tracker st1) prof_id group_id [TimeSlot.id slot] cid in
      let ru := mark_room_used (room_usage st1) room [TimeSlot.id slot] in
      let t2 := add_day_for_course t1 group_id cid day in
      commit_english {| room_usage := ru; tracker := t2;
                        all_schedules := all_schedules st1 |}
        group_id course prof_id room (block_num + 1) rest
  end.

(** Lines 428-442 and 529-543: commit when every day has a position. *)
Definition commit_if_complete (st : State) (group_id : Z) (course : Course.t)
    (prof_id room : Z) (num_blocks : nat) (fixed_hour : option string)
    (hour : string) (found : option (list (string * TimeSlot.t)))
    : result (option State) :=
  match found with
  | Some positions =>
      if bool_decide (length positions = num_blocks) then
        st1 ← commit_english st group_id course prof_id room 1 positions;
        Ok (Some (if negb (truthy_str fixed_hour)
                  then with_tracker st1
                         (set_fixed_hour_for_course (tracker st1) group_id
                            (Course.id course) hour)
                  else st1))
      else Ok None
  | None => Ok None
  end.

(** The loop over [hours_to_try] of lines 386-442. *)
Fixpoint english_try_hours (data : SchedulingData) (st : State)
    (course : Course.t) (prof_id room group_id : Z) (num_blocks : nat)
    (fixed_hour : option string) (days : list string)
    (hours_to_try : list string) : result (option State) :=
  match hours_to_try with
  | [] => Ok None
  | hour :: rest =>
      found ← english_positions data st true prof_id room group_id days hour;
      done_ ← commit_if_complete st group_id course prof_id room num_blocks
                fixed_hour hour found;
      match done_ with
      | Some st' => Ok (Some st')
      | None => english_try_hours data st course prof_id room group_id
                  num_blocks fixed_hour days rest
      end
  end.

(** Lines 374-378: the start hours of the slots of the days of a sequence,
    in the order in which they are added to the set. *)
Fixpoint hours_of_days (data : SchedulingData) (days : list string)
    : result (list string) :=
  match days with
  | [] => Ok []
  | day :: rest =>
      match Odict.get day (slots_by_day data) with
      | None => Raise KeyError
      | Some day_slots =>
          hs ← hours_of_days data rest;
          Ok (map TimeSlot.start_time day_slots ++ hs)
      end
  end.

(** The first loop over the sequences (lines 373-442).  The result carries
    the value that [hours_to_try] has when the loop ends, which the second
    loop reads. *)
Fixpoint english_direct `{Runtime} (data : SchedulingData)
    (course : Course.t) (prof_id room group_id : Z) (num_blocks : nat)
    (fixed_hour : option string) (sequences : list (list string))
    (hours_prev : list string) (r : Rng) (st : State)
    : result (option State * list string * Rng) :=
  match sequences with
  | [] => Ok (None, hours_prev, r)
  | days :: rest =>
      added ← hours_of_days data days;
      let '(shuffled, r1) := shuffle (iter_str_set added) r in
      let hours_to_try :=
        if truthy_str fixed_hour then [default "" fixed_hour] else shuffled in
      done_ ← english_try_hours data st course prof_id room group_id
                num_blocks fixed_hour days hours_to_try;
      match done_ with
      | Some st' => Ok (Some st', hours_to_try, r1)
      | None => english_direct data course prof_id room group_id num_blocks
                  fixed_hour rest hours_to_try r1 st
      end
  end.

(** Lines 449-480: the conflicts to move for a sequence and an hour;
    [None] when [can_potentially_work] ends [False]. *)
Fixpoint english_conflicts `{Runtime} (data : SchedulingData) (st : State)
    (prof_id group_id : Z) (days : list string) (hour : string)
    : result (option (list Conflict)) :=
  match days with
  | [] => Ok (Some [])
  | day :: rest =>
      match Odict.get day (slots_by_day data) with
      | None => Raise KeyError
      | Some day_slots =>
          match slot_at_hour day_slots hour with
          | None => Ok None
          | Some slot =>
              if negb (is_professor_available_at_slots data prof_id
                         [TimeSlot.id slot])
              then Ok None
              else
                let conflicts :=
                  get_conflicting_blocks [TimeSlot.id slot] group_id
                    (all_schedules st) data in
                if existsb c_is_english conflicts then Ok None
                else
                  cs ← english_conflicts data st prof_id group_id rest hour;
                  Ok (option_map (app conflicts) cs)
          end
      end
  end.

(** The body of the loop over [target_hours] (lines 449-543) for one
    sequence and one hour: the flag tells whether the course was placed. *)
Definition english_displace_step `{Runtime} (data : SchedulingData)
    (course : Course.t) (prof_id room group_id : Z) (num_blocks : nat)
    (fixed_hour : option string) (days : list string) (hour : string)
    (r : Rng) (st : State) : result (bool * Rng * State) :=
  to_move ← english_conflicts data st prof_id group_id days hour;
  match to_move with
  | None | Some [] => Ok (false, r, st)
  | Some ((_ :: _) as conflicts_to_move) =>
      '(all_moved, r1, st1) ← relocate_all data conflicts_to_move r st;
      if (all_moved : bool) then
        found ← english_positions data st1 false prof_id room group_id
                  days hour;
        done_ ← commit_if_complete st1 group_id course prof_id room
                  num_blocks fixed_hour hour found;
        match done_ with
        | Some st2 => Ok (true, r1, st2)
        | None => Ok (false, r1, st1)
        end
      else Ok (false, r1, st1)
  end.

Fixpoint english_displace_hours `{Runtime} (data : SchedulingData)
    (course : Course.t) (prof_id room group_id : Z) (num_blocks : nat)
    (fixed_hour : option string) (days : list string)
    (target_hours : list string) (r : Rng) (st : State)
    : result (bool * Rng * State) :=
  match target_hours with
  | [] => Ok (false, r, st)
  | hour :: rest =>
      '(placed, r1, st1) ← english_displace_step data course prof_id room
                             group_id num_blocks fixed_hour days hour r st;
      if (placed : bool) then Ok (true, r1, st1)
      else english_displace_hours data course prof_id room group_id
             num_blocks fixed_hour days rest r1 st1
  end.

(** The second loop over the sequences (lines 445-543). *)
Fixpoint english_displace `{Runtime} (data : SchedulingData)
    (course : Course.t) (prof_id room group_id : Z) (num_blocks : nat)
    (fixed_hour : option string) (sequences : list (list string))
    (hours_to_try : list string) (r : Rng) (st : State)
    : result (bool * Rng * State) :=
  match sequences with
  | [] => Ok (false, r, st)
  | days :: rest =>
      let target_hours :=
        if truthy_str fixed_hour then [default "" fixed_hour]
        else hours_to_try in
      '(placed, r1, st1) ← english_displace_hours data course prof_id room
                             group_id num_blocks fixed_hour days target_hours
                             r st;
      if (placed : bool) then Ok (true, r1, st1)
      else english_displace data course prof_id room group_id num_blocks
             fixed_hour rest hours_to_try r1 st1
  end.

(** [for attempt in range(max_attempts)] *)
Fixpoint english_attempts `{Runtime} (data : SchedulingData)
    (course : Course.t) (prof_id room group_id : Z) (num_blocks : nat)
    (fixed_hour : option string) (sequences : list (list string))
    (max_attempts : nat) (r : Rng) (st : State)
    : result (bool * Rng * State) :=
  match max_attempts with
  | O => Ok (false, r, st)
  | S n =>
      '(direct, hours_to_try, r1) ←
        english_direct data course prof_id room group_id num_blocks
          fixed_hour sequences [] r st;
      match direct with
      | Some st' => Ok (true, r1, st')
      | None =>
          '(placed, r2, st2) ←
            english_displace data course prof_id room group_id num_blocks
              fixed_hour sequences hours_to_try r1 st;
          if (placed : bool) then Ok (true, r2, st2)
          else english_attempts data course prof_id room group_id num_blocks
                 fixed_hour sequences n r2 st2
      end
  end.

(** The only caller returns before the call when the pair has no professor
    or the professor has no room, so lines 357-358 always find both; the
    embedding leaves the other case out ([Unmodelled]). *)
Definition assign_english_consecutive_days `{Runtime} (course : Course.t)
    (group_id : Z) (data : SchedulingData) (block_durations : list Z)
    (fixed_hour : option string) (max_attempts : nat) (r : Rng) (st : State)
    : result (bool * Rng * State) :=
  match get_professor_for_group_course data group_id (Course.id course) with
  | None => Raise Unmodelled
  | Some prof_id =>
      match get_professor_room data prof_id with
      | None => Raise Unmodelled
      | Some room =>
          let num_blocks := length block_durations in
          let available_days := Odict.keys (slots_by_day data) in
          let sequences :=
            get_consecutive_day_sequences available_days num_blocks in
          match sequences with
          | [] => Ok (false, r, st)
          | _ :: _ =>
              let '(sequences, r1) := shuffle sequences r in
              english_attempts data course prof_id room group_id num_blocks
                fixed_hour sequences max_attempts r1 st
          end
      end
  end.

(** ** [force_assign_with_displacement] *)

(** The test of lines 594-597 and 630-633. *)
Definition day_is_used (course : Course.t) (group_id : Z) (st : State)
    (day : string) : bool :=
  bool_decide (Course.max_block_duration course = 1)
  && bool_decide (day ∈ get_used_days_for_course (tracker st) group_id
                          (Course.id course)).

(** Lines 617-619 and 687-689. *)
Definition record_fixed_hour (is_english : bool) (fixed_hour : option string)
    (group_id : Z) (course : Course.t) (pos : Position) (st : State)
    : option string * State :=
  if is_english && negb (truthy_str fixed_hour)
  then (Some (pos_first_hour pos),
        with_tracker st
          (set_fixed_hour_for_course (tracker st) group_id (Course.id course)
             (pos_first_hour pos)))
  else (fixed_hour, st).

(** The first loop over the shuffled days (lines 590-623); [None] when the
    block is not placed. *)
Fixpoint direct_days `{Runtime} (data : SchedulingData) (course : Course.t)
    (group_id : Z) (is_english : bool) (block_num : Z) (duration : Z)
    (days : list string) (fixed_hour : option string) (r : Rng) (st : State)
    : result (option (option string * Rng * State)) :=
  match days with
  | [] => Ok None
  | day :: rest =>
      if day_is_used course group_id st day
      then direct_days data course group_id is_english block_num duration
             rest fixed_hour r st
      else
        positions ← find_all_valid_positions course group_id duration day
                      data st is_english fixed_hour;
        match positions with
        | [] => direct_days data course group_id is_english block_num
                  duration rest fixed_hour r st
        | _ :: _ =>
            '(pos, r1) ← choice positions r;
            st1 ← place_block st group_id course block_num pos day;
            let '(fh, st2) :=
              record_fixed_hour is_english fixed_hour group_id course pos st1 in
            Ok (Some (fh, r1, st2))
        end
  end.

(** The body of the loop over [start_idx] of lines 641-693. *)
Definition displace_window `{Runtime} (data : SchedulingData)
    (course : Course.t) (group_id : Z) (is_english : bool) (prof_id : Z)
    (block_num : Z) (duration : Z) (day : string)
    (day_slots : list TimeSlot.t) (fixed_hour : option string)
    (start_idx : Z) (r : Rng) (st : State)
    : result (bool * option string * Rng * State) :=
  let consecutive := py_slice day_slots start_idx (start_idx + duration) in
  let slot_ids := map TimeSlot.id consecutive in
  match consecutive with
  | [] => Raise IndexError
  | first :: _ =>
      let first_hour := TimeSlot.start_time first in
      if negb (is_professor_available_at_slots data prof_id slot_ids)
      then Ok (false, fixed_hour, r, st)
      else if is_english && truthy_str fixed_hour
              && negb (bool_decide (Some first_hour = fixed_hour))
      then Ok (false, fixed_hour, r, st)
      else
        let conflicts :=
          get_conflicting_blocks slot_ids group_id (all_schedules st) data in
        let movable := filter (λ c, c_is_english c = false) conflicts in
        match movable with
        | [] => Ok (false, fixed_hour, r, st)
        | _ :: _ =>
            '(all_moved, r1, st1) ← relocate_all data movable r st;
            if (all_moved : bool) then
              positions ← find_all_valid_positions course group_id duration
                            day data st1 is_english fixed_hour;
              match positions with
              | [] => Ok (false, fixed_hour, r1, st1)
              | pos :: _ =>
                  st2 ← place_block st1 group_id course block_num pos day;
                  let '(fh, st3) :=
                    record_fixed_hour is_english fixed_hour group_id course
                      pos st2 in
                  Ok (true, fh, r1, st3)
              end
            else Ok (false, fixed_hour, r1, st1)
        end
  end.

Fixpoint displace_windows `{Runtime} (data : SchedulingData)
    (course : Course.t) (group_id : Z) (is_english : bool) (prof_id : Z)
    (block_num : Z) (duration : Z) (day : string)
    (day_slots : list TimeSlot.t) (fixed_hour : option string)
    (idxs : list Z) (r : Rng) (st : State)
    : result (bool * option string * Rng * State) :=
  match idxs with
  | [] => Ok (false, fixed_hour, r, st)
  | start_idx :: rest =>
      '(assigned, fh, r1, st1) ←
        displace_window data course group_id is_english prof_id block_num
          duration day day_slots fixed_hour start_idx r st;
      if (assigned : bool) then Ok (true, fh, r1, st1)
      else displace_windows data course group_id is_english prof_id
             block_num duration day day_slots fh rest r1 st1
  end.

(** The second loop over the days (lines 626-693). *)
Fixpoint displace_days `{Runtime} (data : SchedulingData)
    (course : Course.t) (group_id : Z) (is_english : bool) (prof_id : Z)
    (block_num : Z) (duration : Z) (days : list string)
    (fixed_hour : option string) (r : Rng) (st : State)
    : result (bool * option string * Rng * State) :=
  match days with
  | [] => Ok (false, fixed_hour, r, st)
  | day :: rest =>
      if day_is_used course group_id st day
      then displace_days data course group_id is_english prof_id block_num
             duration rest fixed_hour r st
      else
        let day_slots := default [] (Odict.get day (slots_by_day data)) in
        '(assigned, fh, r1, st1) ←
          displace_windows data course group_id is_english prof_id block_num
            duration day day_slots fixed_hour
            (py_range (Z.of_nat (length day_slots) - duration + 1)) r st;
        if (assigned : bool) then Ok (true, fh, r1, st1)
        else displace_days data course group_id is_english prof_id block_num
               duration rest fh r1 st1
  end.

(** [while not assigned and attempts < max_attempts], with the number of
    attempts that are left. *)
Fixpoint attempt_block `{Runtime} (data : SchedulingData) (course : Course.t)
    (group_id : Z) (is_english : bool) (prof_id : Z) (block_num : Z)
    (duration : Z) (attempts_left : nat) (fixed_hour : option string)
    (r : Rng) (st : State) : result (bool * option string * Rng * State) :=
  match attempts_left with
  | O => Ok (false, fixed_hour, r, st)
  | S n =>
      let '(days, r1) := shuffle (Odict.keys (slots_by_day data)) r in
      direct ← direct_days data course group_id is_english block_num
                 duration days fixed_hour r1 st;
      match direct with
      | Some (fh, r2, st2) => Ok (true, fh, r2, st2)
      | None =>
          '(assigned, fh, r2, st2) ←
            displace_days data course group_id is_english prof_id block_num
              duration days fixed_hour r1 st;
          if (assigned : bool) then Ok (true, fh, r2, st2)
          else attempt_block data course group_id is_english prof_id
                 block_num duration n fh r2 st2
      end
  end.

(** [for block_idx, duration in enumerate(block_durations)]; the result
    counts the blocks that were placed. *)
Fixpoint assign_blocks `{Runtime} (data : SchedulingData) (course : Course.t)
    (group_id : Z) (is_english : bool) (prof_id : Z) (max_attempts : nat)
    (block_num : Z) (block_durations : list Z) (fixed_hour : option string)
    (blocks_assigned : nat) (r : Rng) (st : State)
    : result (nat * Rng * State) :=
  match block_durations with
  | [] => Ok (blocks_assigned, r, st)
  | duration :: rest =>
      '(assigned, fh, r1, st1) ←
        attempt_block data course group_id is_english prof_id block_num
          duration max_attempts fixed_hour r st;
      assign_blocks data course group_id is_english prof_id max_attempts
        (block_num + 1) rest fh
        (if (assigned : bool) then S blocks_assigned else blocks_assigned)
        r1 st1
  end.

Definition force_assign_with_displacement `{Runtime} (course : Course.t)
    (group_id : Z) (data : SchedulingData) (is_english : bool)
    (block_durations : list Z) (max_attempts : nat) (r : Rng) (st : State)
    : result (bool * Rng * State) :=
  let prof := get_professor_for_group_course data group_id (Course.id course) in
  if negb (truthy_int prof) then Ok (false, r, st)
  else
    let prof_id := default 0 prof in
    let room := get_professor_room data prof_id in
    if negb (truthy_int room) then Ok (false, r, st)
    else
      let fixed_hour :=
        if is_english
        then get_fixed_hour_for_course (tracker st) group_id (Course.id course)
        else None in
      if is_english && bool_decide (Course.max_block_duration course = 1)
      then assign_english_consecutive_days course group_id data
             block_durations fixed_hour max_attempts r st
      else
        '(blocks_assigned, r1, st1) ←
          assign_blocks data course group_id is_english prof_id max_attempts
            1 block_durations fixed_hour 0 r st;
        Ok (bool_decide (blocks_assigned = length block_durations), r1, st1).

(** ** [generate_schedule_for_all_groups] *)

(** [others.sort(key=lambda c: c.weekly_hours, reverse=True)]: stable, so a
    course goes after those whose key is not smaller. *)
Fixpoint insert_by_hours (c : Course.t) (l : list Course.t) : list Course.t :=
  match l with
  | [] => [c]
  | x :: l' =>
      if Course.weekly_hours x <? Course.weekly_hours c then c :: x :: l'
      else x :: insert_by_hours c l'
  end.

Definition sort_by_hours_desc (l : list Course.t) : list Course.t :=
  foldl (λ acc c, insert_by_hours c acc) [] l.

(** Lines 730-737. *)
Definition unique_courses (data : SchedulingData)
    (assignments : list Assignment.t) : list Course.t :=
  map snd
    (foldl (λ (u : list (Z * Course.t)) a,
              let cid := Assignment.course_id a in
              if Odict.mem cid u then u
              else match courses data !! cid with
                   | Some course => Odict.set cid course u
                   | None => u
                   end) [] assignments).

Definition initial_state (groups : list Group.t) : State :=
  {| room_usage := ∅;
     tracker := tracker_init;
     all_schedules := foldl (λ d g, Odict.set (Group.id g) [] d) [] groups |}.

(** The loop over the groups of a course (lines 753-759). *)
Fixpoint place_course_groups `{Runtime} (data : SchedulingData)
    (course : Course.t) (is_english : bool) (block_durations : list Z)
    (group_ids : list Z) (r : Rng) (st : State) : result (Rng * State) :=
  match group_ids with
  | [] => Ok (r, st)
  | group_id :: rest =>
      '(_, r1, st1) ← force_assign_with_displacement course group_id data
                        is_english block_durations 50 r st;
      place_course_groups data course is_english block_durations rest r1 st1
  end.

(** The first pass (lines 745-759). *)
Fixpoint first_pass `{Runtime} (data : SchedulingData)
    (assignments : list Assignment.t) (english : list Course.t)
    (sorted_courses : list Course.t) (r : Rng) (st : State)
    : result (Rng * State) :=
  match sorted_courses with
  | [] => Ok (r, st)
  | course :: rest =>
      let is_english := bool_decide (course ∈ english) in
      let groups_with_course :=
        iter_int_set
          (map Assignment.group_id
             (filter (λ a, Assignment.course_id a = Course.id course)
                assignments)) in
      match calculate_course_blocks course with
      | None => Raise Diverges
      | Some block_durations =>
          '(r1, st1) ← place_course_groups data course is_english
                         block_durations groups_with_course r st;
          first_pass data assignments english rest r1 st1
      end
  end.

(** [courses_assigned.get(course_id, 0)] for the dictionary of lines
    767-771. *)
Definition hours_assigned (schedule : list (HourId * Entry)) (course_id : Z)
    : Z :=
  Z.of_nat (length (filter (λ p, e_course p.2 = course_id) schedule)).

(** The loop over the assignments of a group (lines 773-788); [schedule] is
    the schedule of the group as it was when its turn began. *)
Fixpoint verify_group `{Runtime} (data : SchedulingData) (group : Group.t)
    (schedule : list (HourId * Entry)) (assignments : list Assignment.t)
    (r : Rng) (st : State) : result (Rng * State) :=
  match assignments with
  | [] => Ok (r, st)
  | a :: rest =>
      if bool_decide (Assignment.group_id a = Group.id group) then
        match courses data !! Assignment.course_id a with
        | Some course =>
            let assigned := hours_assigned schedule (Course.id course) in
            if assigned <? Course.weekly_hours course then
              let missing := Course.weekly_hours course - assigned in
              let is_english := is_english_name (Course.name course) in
              let extra_blocks := repeat 1 (Z.to_nat missing) in
              '(_, r1, st1) ← force_assign_with_displacement course
                                (Group.id group) data is_english extra_blocks
                                100 r st;
              verify_group data group schedule rest r1 st1
            else verify_group data group schedule rest r st
        | None => verify_group data group schedule rest r st
        end
      else verify_group data group schedule rest r st
  end.

(** The second pass (lines 766-788). *)
Fixpoint second_pass `{Runtime} (data : SchedulingData)
    (assignments : list Assignment.t) (groups : list Group.t)
    (r : Rng) (st : State) : result (Rng * State) :=
  match groups with
  | [] => Ok (r, st)
  | group :: rest =>
      match Odict.get (Group.id group) (all_schedules st) with
      | None => Raise KeyError
      | Some schedule =>
          '(r1, st1) ← verify_group data group schedule assignments r st;
          second_pass data assignments rest r1 st1
      end
  end.

(** The two passes, with the generator and the whole state at the end. *)
Definition run_all_groups `{Runtime}
    (cs : list Course.t) (rs : list Room.t) (timeslots : list TimeSlot.t)
    (profs : list Professor.t) (assignments : list Assignment.t)
    (prof_rooms : gmap Z Z) (groups : list Group.t) (r : Rng)
    : result (Rng * State) :=
  let data := SchedulingData_init cs rs timeslots profs assignments prof_rooms in
  let courses_list := unique_courses data assignments in
  let english :=
    filter (λ c, is_english_name (Course.name c) = true) courses_list in
  let others :=
    sort_by_hours_desc (filter (λ c, c ∉ english) courses_list) in
  let sorted_courses := english ++ others in
  '(r1, st1) ← first_pass data assignments english sorted_courses r
                 (initial_state groups);
  second_pass data assignments groups r1 st1.

Definition generate_schedule_for_all_groups `{Runtime}
    (cs : list Course.t) (rs : list Room.t) (timeslots : list TimeSlot.t)
    (profs : list Professor.t) (assignments : list Assignment.t)
    (prof_rooms : gmap Z Z) (groups : list Group.t) (r : Rng)
    : result (list (Z * list (HourId * Entry))) :=
  '(_, st) ← run_all_groups cs rs timeslots profs assignments prof_rooms
               groups r;
  Ok (all_schedules st).

(** ** A runtime for the examples

    The generator is a tape of draws (an exhausted tape gives [0]); a set
    is iterated in the order of first insertion; [lower] acts on the ASCII
    letters; hours are written with decimal digits. *)

Definition ascii_lower (c : Ascii.ascii) : Ascii.ascii :=
  let n := Ascii.nat_of_ascii c in
  if ((65 <=? n) && (n <=? 90))%nat then Ascii.ascii_of_nat (n + 32) else c.

Fixpoint lower_ascii (s : string) : string :=
  match s with
  | EmptyString => EmptyString
  | String c s' => String (ascii_lower c) (lower_ascii s')
  end.

Fixpoint decimal_prefix (s : string) (acc : option Z) : option Z :=
  match s with
  | EmptyString => acc
  | String c s' =>
      let n := Ascii.nat_of_ascii c in
      if (n =? 58)%nat then acc
      else if ((48 <=? n) && (n <=? 57))%nat
      then decimal_prefix s' (Some (10 * default 0 acc + Z.of_nat (n - 48)))
      else None
  end.

Definition tape_randbelow (n : nat) (r : list nat) : nat * list nat :=
  match r with
  | [] => (O, [])
  | k :: r' => (k, r')
  end.

Definition tape_runtime : Runtime :=
  {| Rng := list nat;
     randbelow := tape_randbelow;
     iter_str_set := remove_dups;
     iter_int_set := remove_dups;
     lower := lower_ascii;
     parse_hour := λ s, decimal_prefix s None |}.

(** The same runtime in a process whose hash seed makes sets of strings
    iterate in the opposite order. *)
Definition tape_runtime_rev : Runtime :=
  {| Rng := list nat;
     randbelow := tape_randbelow;
     iter_str_set := λ l, reverse (remove_dups l);
     iter_int_set := remove_dups;
     lower := lower_ascii;
     parse_hour := λ s, decimal_prefix s None |}.

(** Five evening slots on each of the first [n] days of the week; the id of
    a slot is [day_id * 1000 + hour]. *)
Definition hour_label (h : Z) : string :=
  match h with
  | 17 => "17:00:00" | 18 => "18:00:00" | 19 => "19:00:00"
  | 20 => "20:00:00" | 21 => "21:00:00" | 22 => "22:00:00"
  | _ => "08:00:00"
  end.

Definition day_slots_of (day_id : Z) (day : string) : list TimeSlot.t :=
  map (λ h, TimeSlot.mk (day_id * 1000 + h) day (hour_label h)
              (hour_label (h + 1)))
      [17; 18; 19; 20; 21].

Definition week_slots (n : nat) : list TimeSlot.t :=
  flat_map (λ '(i, d), day_slots_of i d)
    (take n [(1, "Lunes"); (2, "Martes"); (3, "Miércoles"); (4, "Jueves");
             (5, "Viernes")]).

(** ** States reached during a run

    The state changes in three kinds of transactions: the relocation of a
    conflicting block that is not a language-course block, the commit of a
    position returned by the Position Finder (with the recording of the
    fixed hour), and the commit of the positions of a language course.
    [reachable] closes the initial state under them.  A conflict may have
    been computed in an earlier state than the one in which it is
    relocated, as in the loops that relocate a list of conflicts. *)

Definition fixed_hour_of (is_english : bool) (group_id : Z)
    (course : Course.t) (st : State) : option string :=
  if is_english
  then get_fixed_hour_for_course (tracker st) group_id (Course.id course)
  else None.

(** The course is the one the index holds under its id, and the flag is
    the language-course test on its name: what every call of the
    orchestrator passes. *)
Definition known_course `{Runtime} (data : SchedulingData)
    (course : Course.t) (is_english : bool) : Prop :=
  courses data !! Course.id course = Some course
  ∧ is_english = is_english_name (Course.name course).

Inductive reachable `{Runtime} (data : SchedulingData) : State → Prop :=
  | reach_init groups :
      reachable data (initial_state groups)
  | reach_relocate st0 slot_ids g c st r moved r' st' :
      reachable data st0 →
      c ∈ get_conflicting_blocks slot_ids g (all_schedules st0) data →
      c_is_english c = false →
      reachable data st →
      try_relocate_block c data r st = Ok (moved, r', st') →
      reachable data st'
  | reach_place course g is_english duration day st positions pos block_num
        st1 fh st2 :
      known_course data course is_english →
      is_english && bool_decide (Course.max_block_duration course = 1) = false →
      reachable data st →
      find_all_valid_positions course g duration day data st is_english
        (fixed_hour_of is_english g course st) = Ok positions →
      pos ∈ positions →
      place_block st g course block_num pos day = Ok st1 →
      record_fixed_hour is_english (fixed_hour_of is_english g course st)
        g course pos st1 = (fh, st2) →
      reachable data st2
  | reach_commit course g st check prof_id room days hour found n st' :
      known_course data course true →
      Course.max_block_duration course = 1 →
      reachable data st →
      (truthy_str (get_fixed_hour_for_course (tracker st) g (Course.id course))
       = true →
       get_fixed_hour_for_course (tracker st) g (Course.id course) = Some hour) →
      english_positions data st check prof_id room g days hour = Ok found →
      commit_if_complete st g course prof_id room n
        (get_fixed_hour_for_course (tracker st) g (Course.id course))
        hour found = Ok (Some st') →
      reachable data st'.

(** Every timeslot id of a schedule map is the id of an input timeslot
    whose start time is at least ["17:00"] and below ["22:00"]. *)
Definition slots_in_window (timeslots : list TimeSlot.t)
    (all : list (Z * list (HourId * Entry))) : Prop :=
  ∀ g sched hid e,
    (g, sched) ∈ all → (hid, e) ∈ sched →
    ∃ s, s ∈ timeslots ∧ TimeSlot.id s = e_slot e
         ∧ String.leb "17:00" (TimeSlot.start_time s) = true
         ∧ String.ltb (TimeSlot.start_time s) "22:00" = true.

(** An entry of the schedule of a group. *)
Definition entry_in (all : list (Z * list (HourId * Entry))) (g : Z)
    (hid : HourId) (e : Entry) : Prop :=
  ∃ sched, (g, sched) ∈ all ∧ (hid, e) ∈ sched.

(** What the Position Finder guarantees of each position it returns. *)
Record valid_position (data : SchedulingData) (st : State) (group_id : Z)
    (course : Course.t) (duration : Z) (day : string) (is_english : bool)
    (fixed_hour : option string) (pos : Position) : Prop := {
  vp_prof :
    get_professor_for_group_course data group_id (Course.id course)
    = Some (pos_prof_id pos) ∧ pos_prof_id pos ≠ 0;
  vp_room :
    get_professor_room data (pos_prof_id pos) = Some (pos_room_id pos)
    ∧ pos_room_id pos ≠ 0;
  vp_day : pos_day pos = day;
  vp_slots :
    ∃ day_slots,
      Odict.get day (slots_by_day data) = Some day_slots
      ∧ pos_slots pos
        = py_slice day_slots (pos_start_idx pos) (pos_start_idx pos + duration);
  vp_first :
    ∃ first rest,
      pos_slots pos = first :: rest
      ∧ pos_first_hour pos = TimeSlot.start_time first;
  vp_ids : pos_slot_ids pos = map TimeSlot.id (pos_slots pos);
  vp_available :
    is_professor_available_at_slots data (pos_prof_id pos) (pos_slot_ids pos)
    = true;
  vp_fixed :
    is_english = true → truthy_str fixed_hour = true →
    fixed_hour = Some (pos_first_hour pos);
  vp_prof_free :
    can_assign_professor (tracker st) (pos_prof_id pos) (pos_slot_ids pos)
    = true;
  vp_group_free :
    can_assign_group (tracker st) group_id (pos_slot_ids pos) = true;
  vp_room_free :
    is_room_available (room_usage st) (pos_room_id pos) (pos_slot_ids pos)
    = true }.

(** The slots of the index are input timeslots of the window, filed under
    their day. *)
Definition index_ok (timeslots : list TimeSlot.t) (data : SchedulingData)
    : Prop :=
  ∀ day day_slots s,
    Odict.get day (slots_by_day data) = Some day_slots → s ∈ day_slots →
    s ∈ timeslots ∧ in_window s = true ∧ TimeSlot.day s = day.

(** The language-course test on the course that the index holds under an
    id ([False] when it holds none). *)
Definition english_id `{Runtime} (data : SchedulingData) (course_id : Z)
    : bool :=
  match courses data !! course_id with
  | Some c => is_english_name (Course.name c)
  | None => false
  end.

(** A position of the language-course placer: the slot of a day at the
    hour that is tried, free for the professor, the group and the room. *)
Definition english_position (data : SchedulingData) (st : State)
    (prof_id room group_id : Z) (hour : string) (day : string)
    (p : string * TimeSlot.t) : Prop :=
  p.1 = day
  ∧ (∃ day_slots,
       Odict.get day (slots_by_day data) = Some day_slots
       ∧ slot_at_hour day_slots hour = Some p.2)
  ∧ can_assign_professor (tracker st) prof_id [TimeSlot.id p.2] = true
  ∧ can_assign_group (tracker st) group_id [TimeSlot.id p.2] = true
  ∧ is_room_available (room_usage st) room [TimeSlot.id p.2] = true.

(** A conflict found in some reachable state that does not belong to a
    language course. *)
Definition movable_conflict `{Runtime} (data : SchedulingData)
    (c : Conflict) : Prop :=
  c_is_english c = false
  ∧ ∃ st0 slot_ids g,
      reachable data st0
      ∧ c ∈ get_conflicting_blocks slot_ids g (all_schedules st0) data.

(** The fixed hour that the language-course placer was given is the one
    the tracker holds. *)
Definition in_sync (fixed_hour : option string) (group_id : Z)
    (course : Course.t) (st : State) : Prop :=
  fixed_hour
  = get_fixed_hour_for_course (tracker st) group_id (Course.id course).

(** The hours that are tried are the fixed hour alone when there is one. *)
Definition hours_ok (fixed_hour : option string) (hours : list string)
    : Prop :=
  truthy_str fixed_hour = true →
  ∀ hour, hour ∈ hours → fixed_hour = Some hour.

(** One group with a language course of four one-hour sessions and a
    five-hour course in blocks of two to three hours. *)
Definition ex_courses : list Course.t :=
  [Course.mk 1 "Inglés" 4 1 1 "tronco_comun" None;
   Course.mk 2 "Calculo" 5 2 3 "tronco_comun" None].

Definition ex_professors : list Professor.t :=
  [Professor.mk 7 "Ana" [] 10; Professor.mk 8 "Luis" [1017] 10].

Definition ex_assignments : list Assignment.t :=
  [Assignment.mk 1 7 1 1 1; Assignment.mk 2 8 2 1 2].

Definition ex_professor_rooms : gmap Z Z := {[ 7 := 100; 8 := 101 ]}.

Definition ex_groups : list Group.t := [Group.mk 1 "1A" None].

Definition ex_tape : list nat := [1; 2; 3; 0; 1]%nat.

Definition ex_schedules : list (Z * list (HourId * Entry)) :=
  [(1, [(mkHourId 1 1 1 0, mkEntry 1021 100 1);
        (mkHourId 1 1 2 0, mkEntry 2021 100 1);
        (mkHourId 1 1 3 0, mkEntry 3021 100 1);
        (mkHourId 1 1 4 0, mkEntry 4021 100 1);
        (mkHourId 1 2 1 0, mkEntry 2017 101 2);
        (mkHourId 1 2 1 1, mkEntry 2018 101 2);
        (mkHourId 1 2 1 2, mkEntry 2019 101 2);
        (mkHourId 1 2 2 0, mkEntry 3017 101 2);
        (mkHourId 1 2 2 1, mkEntry 3018 101 2)])].

(** The first hour of every block of a language course starts at the hour
    that the tracker holds for the pair, and the blocks of a language
    course with [max_block_duration = 1] have one hour. *)
Definition fixed_hour_honored `{Runtime} (timeslots : list TimeSlot.t)
    (data : SchedulingData) (st : State) : Prop :=
  ∀ g hid e,
    entry_in (all_schedules st) g hid e →
    english_id data (e_course e) = true →
    (∀ c, courses data !! e_course e = Some c →
          Course.max_block_duration c = 1 → h_index hid = O)
    ∧ (h_index hid = O →
       ∃ hour s,
         get_fixed_hour_for_course (tracker st) g (e_course e) = Some hour
         ∧ s ∈ timeslots ∧ TimeSlot.id s = e_slot e ∧ in_window s = true
         ∧ TimeSlot.start_time s = hour).

(** In a schedule map, the first hours of the blocks of a group and a
    language course start at one hour, and so do all the hours when the
    course has [max_block_duration = 1]. *)
Definition same_start_hour `{Runtime} (timeslots : list TimeSlot.t)
    (data : SchedulingData) (all : list (Z * list (HourId * Entry))) : Prop :=
  ∀ g hid1 e1 hid2 e2 c,
    entry_in all g hid1 e1 → entry_in all g hid2 e2 →
    e_course e1 = e_course e2 →
    courses data !! e_course e1 = Some c →
    is_english_name (Course.name c) = true →
    (h_index hid1 = O ∧ h_index hid2 = O)
    ∨ Course.max_block_duration c = 1 →
    ∃ s1 s2,
      s1 ∈ timeslots ∧ s2 ∈ timeslots
      ∧ TimeSlot.id s1 = e_slot e1 ∧ TimeSlot.id s2 = e_slot e2
      ∧ TimeSlot.start_time s1 = TimeSlot.start_time s2.

(** C6 as the specification states it: all the placed hours of a group and
    a course start at one clock hour. *)
Definition all_hours_at_one_hour (timeslots : list TimeSlot.t)
    (all : list (Z * list (HourId * Entry))) (g course_id : Z) : Prop :=
  ∃ hour,
    ∀ hid e s,
      entry_in all g hid e → e_course e = course_id →
      s ∈ timeslots → TimeSlot.id s = e_slot e →
      TimeSlot.start_time s = hour.

(** A language course of two weekly hours that may be given in one block. *)
Definition ex_long_english : list Course.t :=
  [Course.mk 1 "Inglés" 2 1 2 "tronco_comun" None].

Definition ex_long_assignments : list Assignment.t :=
  [Assignment.mk 1 7 1 1 1].

Definition ex_long_schedules : list (Z * list (HourId * Entry)) :=
  [(1, [(mkHourId 1 1 1 0, mkEntry 2017 100 1);
        (mkHourId 1 1 1 1, mkEntry 2018 100 1)])].

(** [n] days that follow one another in the canonical order of the week. *)
Definition consecutive_days (days : list string) (n : nat) : Prop :=
  ∃ i, days = take n (drop i day_order) ∧ length days = n.

(** The language-course placer ended with the commit of the positions
    found for one of the sequences at one hour. *)
Definition english_committed (data : SchedulingData) (course : Course.t)
    (prof_id room group_id : Z) (num_blocks : nat)
    (fixed_hour : option string) (sequences : list (list string))
    (st' : State) : Prop :=
  ∃ st_mid check days hour found,
    days ∈ sequences
    ∧ english_positions data st_mid check prof_id room group_id days hour
      = Ok found
    ∧ commit_if_complete st_mid group_id course prof_id room num_blocks
        fixed_hour hour found = Ok (Some st').

(** Three groups: group 2 takes a language course, group 3 takes Calculo
    and group 1 takes Fisica; the professors of Calculo and Fisica share
    room 101, and the professor of Fisica can teach on Monday at 17:00
    only. *)
Definition c1_courses : list Course.t :=
  [Course.mk 1 "Inglés" 1 1 1 "tronco_comun" None;
   Course.mk 2 "Calculo" 1 1 1 "tronco_comun" None;
   Course.mk 3 "Fisica" 1 1 1 "tronco_comun" None].

Definition c1_professors : list Professor.t :=
  [Professor.mk 7 "Ana" [] 10;
   Professor.mk 8 "Luis" [] 10;
   Professor.mk 9 "Eva"
     [1018; 1019; 1020; 1021; 2017; 2018; 2019; 2020; 2021] 10].

Definition c1_assignments : list Assignment.t :=
  [Assignment.mk 1 7 1 2 1; Assignment.mk 2 8 2 3 2; Assignment.mk 3 9 3 1 3].

Definition c1_professor_rooms : gmap Z Z := {[ 7 := 100; 8 := 101; 9 := 101 ]}.

Definition c1_groups : list Group.t :=
  [Group.mk 1 "1A" None; Group.mk 2 "2A" None; Group.mk 3 "3A" None].

Definition c1_data : SchedulingData :=
  SchedulingData_init c1_courses [] (week_slots 2) c1_professors
    c1_assignments c1_professor_rooms.

Definition c1_ingles : Course.t := Course.mk 1 "Inglés" 1 1 1 "tronco_comun" None.
Definition c1_calculo : Course.t := Course.mk 2 "Calculo" 1 1 1 "tronco_comun" None.
Definition c1_fisica : Course.t := Course.mk 3 "Fisica" 1 1 1 "tronco_comun" None.

(** The schedules once the language course and Calculo are placed on
    Monday at 17:00, and once Fisica has been forced there. *)
Definition c1_before : list (Z * list (HourId * Entry)) :=
  [(1, []);
   (2, [(mkHourId 2 1 1 0, mkEntry 1017 100 1)]);
   (3, [(mkHourId 3 2 1 0, mkEntry 1017 101 2)])].

Definition c1_after : list (Z * list (HourId * Entry)) :=
  [(1, [(mkHourId 1 3 1 0, mkEntry 1017 101 3)]);
   (2, [(mkHourId 2 1 1 0, mkEntry 1017 100 1)]);
   (3, [(mkHourId 3 2 1000 0, mkEntry 2017 101 2)])].

(** The state once the language course of group 2 is placed. *)
Definition c1_state_english : State :=
  match force_assign_with_displacement (H := tape_runtime) c1_ingles 2 c1_data
          true [1] 50 [1; 4; 3; 2; 1]%nat (initial_state c1_groups) with
  | Ok (_, _, st) => st
  | Raise _ => initial_state c1_groups
  end.



(** A block that cannot move.  Calculo of group 3 (professor 8, room 101,
    not available from 20:00 on) has a two-hour block on Monday at 18:00
    and 19:00 and then a one-hour block with the same block number at
    17:00, as a verification-pass fill writes it: the hour identifier of
    the first hour is reused, so the block of the schedule is made of the
    hours of 17:00 and 19:00 while 18:00 stays held in the tracker. *)
Definition c2_calculo : Course.t :=
  Course.mk 2 "Calculo" 3 1 2 "tronco_comun" None.

Definition c2_data : SchedulingData :=
  SchedulingData_init [c2_calculo] [] (week_slots 1)
    [Professor.mk 8 "Luis" [1020; 1021] 10]
    [Assignment.mk 2 8 2 3 2] {[ 8 := 101 ]}.

Definition c2_slot (h : Z) : TimeSlot.t :=
  TimeSlot.mk (1000 + h) "Lunes" (hour_label h) (hour_label (h + 1)).

Definition c2_state : State :=
  let two_hours :=
    mkPosition "Lunes" 1 [c2_slot 18; c2_slot 19] [1018; 1019] "18:00:00"
      101 8 in
  let one_hour :=
    mkPosition "Lunes" 0 [c2_slot 17] [1017] "17:00:00" 101 8 in
  match place_block (initial_state [Group.mk 3 "3A" None]) 3 c2_calculo 1
          two_hours "Lunes" with
  | Ok st1 =>
      match place_block st1 3 c2_calculo 1 one_hour "Lunes" with
      | Ok st2 => st2
      | Raise _ => st1
      end
  | Raise _ => initial_state []
  end.

(** The state once Calculo of group 3 is placed too, and the state after
    the displacement attempt of Fisica on the window of Monday 17:00. *)
Definition c1_state_before : State :=
  match force_assign_with_displacement (H := tape_runtime) c1_calculo 3
          c1_data false [1] 50 [1; 0]%nat c1_state_english with
  | Ok (_, _, st) => st
  | Raise _ => c1_state_english
  end.

Definition c1_state_after : State :=
  match displace_window (H := tape_runtime) c1_data c1_fisica 1 false 9 1 1
          "Lunes" (day_slots_of 1 "Lunes") None 0 [0; 0; 0]%nat
          c1_state_before with
  | Ok (_, _, _, st) => st
  | Raise _ => c1_state_before
  end.

(** ** Two runs of the orchestrator

    A run is determined by the inputs, the state of the generator and the
    runtime.  [with_str_order R f] is the runtime [R] in a process where a
    set of strings is iterated in the order [f]; [window_hours timeslots l]
    says that [l] holds start hours of slots of the input that lie in the
    window, which are the only strings that the scheduler puts in a set. *)
Definition with_str_order (R : Runtime) (f : list string → list string)
    : Runtime :=
  {| Rng := @Rng R;
     randbelow := @randbelow R;
     iter_str_set := f;
     iter_int_set := @iter_int_set R;
     lower := @lower R;
     parse_hour := @parse_hour R |}.

Definition window_hours (timeslots : list TimeSlot.t) (l : list string)
    : Prop :=
  ∀ x, x ∈ l →
    ∃ s, s ∈ timeslots ∧ in_window s = true ∧ TimeSlot.start_time s = x.

(** The schedule of the example when sets of strings are iterated in the
    opposite order. *)
Definition ex_schedules_rev : list (Z * list (HourId * Entry)) :=
  [(1, [(mkHourId 1 1 1 0, mkEntry 1017 100 1);
        (mkHourId 1 1 2 0, mkEntry 2017 100 1);
        (mkHourId 1 1 3 0, mkEntry 3017 100 1);
        (mkHourId 1 1 4 0, mkEntry 4017 100 1);
        (mkHourId 1 2 1 0, mkEntry 2018 101 2);
        (mkHourId 1 2 1 1, mkEntry 2019 101 2);
        (mkHourId 1 2 1 2, mkEntry 2020 101 2);
        (mkHourId 1 2 2 0, mkEntry 3018 101 2);
        (mkHourId 1 2 2 1, mkEntry 3019 101 2)])].

(** An order of iteration that is that of [tape_runtime] on the sets of
    start hours of the slots of [week_slots 5] and the opposite one on
    every other set. *)
Definition ex_str_order (l : list string) : list string :=
  if forallb (λ x, bool_decide
                     (x ∈ map TimeSlot.start_time (week_slots 5))) l
  then remove_dups l
  else reverse (remove_dups l).

(** ** Definitions for the further properties *)

(** The hour record that [get_conflicting_blocks] makes of a schedule
    entry (lines 228-232). *)
Definition hour_of (p : HourId * Entry) : Hour :=
  {| hour_id := p.1; slot_id := e_slot p.2; room_id := e_room p.2 |}.

(** The entries of a schedule whose slot is among [slot_ids] and whose hour
    identifier belongs to the block [key]. *)
Definition block_entries (slot_ids : list Z) (key : Z * Z * Z)
    (schedule : list (HourId * Entry)) : list (HourId * Entry) :=
  filter (λ p, e_slot p.2 ∈ slot_ids ∧ block_key_of p.1 = key) schedule.

(** What [find_all_valid_positions] asks of the slots of a window (lines
    168-195). *)
Definition window_ok `{Runtime} (data : SchedulingData) (st : State)
    (group_id prof_id room_id : Z) (is_english : bool)
    (fixed_hour : option string) (consecutive : list TimeSlot.t) : Prop :=
  is_continuous consecutive = Ok true
  ∧ is_professor_available_at_slots data prof_id
      (map TimeSlot.id consecutive) = true
  ∧ (is_english = true → truthy_str fixed_hour = true →
     TimeSlot.start_time <$> head consecutive = fixed_hour)
  ∧ can_assign_professor (tracker st) prof_id (map TimeSlot.id consecutive)
    = true
  ∧ can_assign_group (tracker st) group_id (map TimeSlot.id consecutive)
    = true
  ∧ is_room_available (room_usage st) room_id (map TimeSlot.id consecutive)
    = true.

(** The positions of a two-hour block of Calculo on Monday in the state of
    the example. *)
Definition c2_positions : list Position :=
  match find_all_valid_positions (H := tape_runtime) c2_calculo 3 2 "Lunes"
          c2_data (initial_state [Group.mk 3 "3A" None]) false None with
  | Ok l => l
  | Raise _ => []
  end.

(** ** Consistency of the schedule with the tracker

    [has_entry st g hid e] reads the schedule map as the dictionary it is:
    [all_schedules[g][hid] == e].  The three [holds] predicates read the
    tracker and the room usage. *)

Definition has_entry (st : State) (g : Z) (hid : HourId) (e : Entry) : Prop :=
  ∃ sched,
    Odict.get g (all_schedules st) = Some sched
    ∧ Odict.get hid sched = Some e.

Definition group_holds (st : State) (g s : Z) : Prop :=
  ∃ m, group_schedule (tracker st) !! g = Some m ∧ is_Some (m !! s).

Definition prof_holds (st : State) (p s g : Z) : Prop :=
  ∃ m, prof_schedule (tracker st) !! p = Some m ∧ m !! s = Some g.

Definition room_holds (st : State) (room s : Z) : Prop :=
  ∃ used, room_usage st !! room = Some used ∧ s ∈ used.

(** No key occurs twice in the association lists that stand for the
    dictionaries. *)
Definition keys_ok (st : State) : Prop :=
  NoDup (Odict.keys (all_schedules st))
  ∧ ∀ g sched,
      Odict.get g (all_schedules st) = Some sched → NoDup (Odict.keys sched).

(** The pair of a group and a course has professor [p], whose room is
    [room]; an id of [0] counts as none, as in the tests [if not prof_id]
    and [if not room_id]. *)
Definition teaches (data : SchedulingData) (g cid p room : Z) : Prop :=
  get_professor_for_group_course data g cid = Some p ∧ p ≠ 0
  ∧ get_professor_room data p = Some room ∧ room ≠ 0.

(** Every entry of the schedule map is backed by the tracker and the room
    usage, and its slots are exclusive: the course of the entry is taught to
    the group by a professor who is available at the slot and whose room is
    the room of the entry; the group, the professor and the room hold the
    slot; the group has no other entry at the slot, and no other group has
    an entry in the room at the slot. *)
Record consistent (data : SchedulingData) (st : State) : Prop := {
  cs_keys : keys_ok st;
  cs_entry :
    ∀ g hid e, has_entry st g hid e →
      h_course hid = e_course e
      ∧ ∃ p,
          teaches data g (e_course e) p (e_room e)
          ∧ is_professor_available_at_slots data p [e_slot e] = true
          ∧ group_holds st g (e_slot e)
          ∧ prof_holds st p (e_slot e) g
          ∧ room_holds st (e_room e) (e_slot e);
  cs_group :
    ∀ g hid1 e1 hid2 e2,
      has_entry st g hid1 e1 → has_entry st g hid2 e2 →
      e_slot e1 = e_slot e2 → hid1 = hid2;
  cs_room :
    ∀ g1 hid1 e1 g2 hid2 e2,
      has_entry st g1 hid1 e1 → has_entry st g2 hid2 e2 →
      e_room e1 = e_room e2 → e_slot e1 = e_slot e2 → g1 = g2 }.

(** What the relocation of a conflict needs of the state in which it runs:
    the slots of its hours are held by its group, its professor and its
    room, and an entry at one of these slots, of the group or in the room,
    is stored under the identifier of one of its hours.  The hours
    themselves need not be entries any more. *)
Record relocatable (data : SchedulingData) (st : State) (c : Conflict)
    (p room : Z) : Prop := {
  rl_teaches : teaches data (c_group_id c) (c_course_id c) p room;
  rl_course : c_course c = courses data !! c_course_id c;
  rl_hours :
    ∀ h, h ∈ hours c →
      room_id h = room ∧ h_course (hour_id h) = c_course_id c
      ∧ is_professor_available_at_slots data p [slot_id h] = true;
  rl_ids : NoDup (map hour_id (hours c));
  rl_slots : NoDup (map slot_id (hours c));
  rl_own :
    ∀ hid e, has_entry st (c_group_id c) hid e →
      e_slot e ∈ map slot_id (hours c) → hid ∈ map hour_id (hours c);
  rl_room :
    ∀ g hid e, has_entry st g hid e → e_room e = room →
      e_slot e ∈ map slot_id (hours c) → g = c_group_id c;
  rl_held :
    ∀ s, s ∈ map slot_id (hours c) →
      group_holds st (c_group_id c) s ∧ prof_holds st p s (c_group_id c)
      ∧ room_holds st room s }.

(** Two conflicts that have the group, the professor or the room in common
    share no slot. *)
Definition separate (c : Conflict) (p room : Z) (c' : Conflict)
    (p' room' : Z) : Prop :=
  c_group_id c = c_group_id c' ∨ p = p' ∨ room = room' →
  ∀ s, s ∈ map slot_id (hours c) → s ∉ map slot_id (hours c').

(** The timeslot ids of the index are pairwise distinct. *)
Definition distinct_slots (data : SchedulingData) : Prop :=
  (∀ day day_slots,
     Odict.get day (slots_by_day data) = Some day_slots →
     NoDup (map TimeSlot.id day_slots))
  ∧ ∀ day1 day2 l1 l2 s1 s2,
      Odict.get day1 (slots_by_day data) = Some l1 →
      Odict.get day2 (slots_by_day data) = Some l2 →
      s1 ∈ l1 → s2 ∈ l2 → TimeSlot.id s1 = TimeSlot.id s2 → day1 = day2.

(** The state [st'] is [st] with entries for course [cid] of group [g]
    added, the identifier [hid] at the slot [s] for the pairs [(hid, s)] of
    [N], and the slots taken by the group, the professor [p] and the room;
    an entry that was stored under one of the identifiers is replaced. *)
Record adds (st st' : State) (g p room cid : Z) (N : list (HourId * Z))
    : Prop := {
  ad_keys : keys_ok st';
  ad_groups :
    Odict.keys (all_schedules st') = Odict.keys (all_schedules st);
  ad_entry :
    ∀ g' hid e, has_entry st' g' hid e →
      (g' = g ∧ ∃ s, (hid, s) ∈ N ∧ e = mkEntry s room cid)
      ∨ has_entry st g' hid e;
  ad_group :
    ∀ g' s, group_holds st' g' s
            ↔ group_holds st g' s ∨ (g' = g ∧ s ∈ map snd N);
  ad_prof :
    ∀ p' s g', prof_holds st' p' s g'
               ↔ (p' = p ∧ s ∈ map snd N ∧ g' = g)
                 ∨ (¬ (p' = p ∧ s ∈ map snd N) ∧ prof_holds st p' s g');
  ad_room :
    ∀ r s, room_holds st' r s
           ↔ room_holds st r s ∨ (r = room ∧ s ∈ map snd N) }.

(** Nobody holds the slots of [N] in [st], and the professor is available
    at each of them. *)
Definition fresh (data : SchedulingData) (st : State) (g p room cid : Z)
    (N : list (HourId * Z)) : Prop :=
  NoDup (map snd N)
  ∧ ∀ hid s, (hid, s) ∈ N →
      h_course hid = cid
      ∧ is_professor_available_at_slots data p [s] = true
      ∧ ¬ group_holds st g s ∧ (∀ g', ¬ prof_holds st p s g')
      ∧ ¬ room_holds st room s.

(** The state [st'] is [st] with the entries of group [g] under the
    identifiers [K] removed and the slots [S] released by the group, the
    professor [p] and the room. *)
Record removes (st st' : State) (g p room : Z) (K : list HourId)
    (S : list Z) : Prop := {
  rm_keys : keys_ok st';
  rm_groups :
    Odict.keys (all_schedules st') = Odict.keys (all_schedules st);
  rm_entry :
    ∀ g' hid e, has_entry st' g' hid e
                ↔ ¬ (g' = g ∧ hid ∈ K) ∧ has_entry st g' hid e;
  rm_group :
    ∀ g' s, group_holds st' g' s
            ↔ group_holds st g' s ∧ ¬ (g' = g ∧ s ∈ S);
  rm_prof :
    ∀ p' s g', prof_holds st' p' s g'
               ↔ prof_holds st p' s g' ∧ ¬ (p' = p ∧ s ∈ S);
  rm_room :
    ∀ r s, room_holds st' r s
           ↔ room_holds st r s ∧ ¬ (r = room ∧ s ∈ S) }.

(** A conflict as [get_conflicting_blocks] has just computed it from the
    schedule map of [st]: its hours are entries of its group, stored under
    identifiers of its block, and its course is the course of the first of
    them. *)
Record intact (data : SchedulingData) (st : State) (c : Conflict) : Prop := {
  in_course : c_course c = courses data !! c_course_id c;
  in_ids : NoDup (map hour_id (hours c));
  in_first :
    ∃ h0 e0,
      head (hours c) = Some h0
      ∧ has_entry st (c_group_id c) (hour_id h0) e0
      ∧ e_course e0 = c_course_id c;
  in_hours :
    ∀ h, h ∈ hours c →
      block_key_of (hour_id h) = block_key c
      ∧ ∃ e, has_entry st (c_group_id c) (hour_id h) e
             ∧ e_slot e = slot_id h ∧ e_room e = room_id h }.

(** Every conflict of a list can be relocated in [st], and each is separate
    from those that follow it. *)
Definition all_relocatable (data : SchedulingData) (st : State)
    (cs : list Conflict) : Prop :=
  ∀ c, c ∈ cs → ∃ p room, relocatable data st c p room.

Fixpoint all_separate (data : SchedulingData) (cs : list Conflict) : Prop :=
  match cs with
  | [] => True
  | c :: rest =>
      (∀ c' p room p' room',
         c' ∈ rest →
         teaches data (c_group_id c) (c_course_id c) p room →
         teaches data (c_group_id c') (c_course_id c') p' room' →
         separate c p room c' p' room')
      ∧ all_separate data rest
  end.

(** A language course of four weekly hours in blocks of two hours at most,
    whose professor can teach on Monday at 17:00 and 18:00 and on Tuesday
    and Wednesday at 17:00 only. *)
Definition ex_fill_english : list Course.t :=
  [Course.mk 1 "Inglés" 4 1 2 "tronco_comun" None].

Definition ex_fill_professors : list Professor.t :=
  [Professor.mk 7 "Ana"
     [1019; 1020; 1021; 2018; 2019; 2020; 2021; 3018; 3019; 3020; 3021] 10].

Definition ex_fill_schedules : list (Z * list (HourId * Entry)) :=
  [(1, [(mkHourId 1 1 1 0, mkEntry 2017 100 1);
        (mkHourId 1 1 1 1, mkEntry 1018 100 1);
        (mkHourId 1 1 2 0, mkEntry 3017 100 1)])].




















(** * Properties *)

(** ** Block decomposition *)

Lemma blocks_loop_total fuel remaining mn mx :
  0 < mn → 0 < mx → (Z.to_nat remaining ≤ fuel)%nat →
  is_Some (blocks_loop fuel remaining mn mx).
Proof.
  intros Hmn Hmx. revert remaining.
  induction fuel as [|fuel IH]; intros remaining Hf; simpl.
  - destruct (remaining <=? 0) eqn:E; [eauto|]. apply Z.leb_gt in E. lia.
  - destruct (remaining <=? 0) eqn:E; [eauto|]. apply Z.leb_gt in E.
    set (b := if _ && _ then mn else Z.min remaining mx).
    assert (1 ≤ b) as Hb.
    { unfold b. destruct (_ && _); lia. }
    destruct (IH (remaining - b)) as [bs Hbs]; [lia|]. rewrite Hbs. eauto.
Qed.

(** With [min_block_duration <= max_block_duration] the raising branch of
    the loop is never taken, and the result has a closed form. *)
Lemma blocks_loop_exact fuel remaining mn mx :
  0 < mn → mn ≤ mx → 0 ≤ remaining → (Z.to_nat remaining ≤ fuel)%nat →
  blocks_loop fuel remaining mn mx =
    Some (repeat mx (Z.to_nat (remaining / mx))
          ++ (if remaining mod mx =? 0 then [] else [remaining mod mx])).
Proof.
  intros Hmn Hle. revert remaining.
  assert (blocks_loop_0 : ∀ f, blocks_loop f 0 mn mx = Some []).
  { by intros []. }
  induction fuel as [|fuel IH]; intros remaining H0 Hf.
  - assert (remaining = 0) as -> by lia.
    rewrite Z.div_0_l, Zmod_0_l by lia. reflexivity.
  - destruct (Z.eq_dec remaining 0) as [->|Hne].
    { rewrite Z.div_0_l, Zmod_0_l by lia. reflexivity. }
    cbn [blocks_loop]. destruct (Z.leb_spec remaining 0); [lia|].
    assert ((Z.min remaining mx <? mn) && (mn <=? remaining) = false) as ->.
    { apply andb_false_iff.
      destruct (Z.ltb_spec (Z.min remaining mx) mn); [|by left].
      right. apply Z.leb_gt. lia. }
    destruct (Z.le_gt_cases mx remaining) as [Hge|Hlt].
    + rewrite Z.min_r by lia. rewrite IH by lia.
      assert (remaining / mx = (remaining - mx) / mx + 1) as Hq.
      { replace remaining with ((remaining - mx) + 1 * mx) at 1 by lia.
        apply Z.div_add. lia. }
      assert (remaining mod mx = (remaining - mx) mod mx) as Hr.
      { replace remaining with ((remaining - mx) + 1 * mx) at 1 by lia.
        apply Z.mod_add. lia. }
      assert (0 ≤ (remaining - mx) / mx) by (apply Z.div_pos; lia).
      rewrite Hq, Hr.
      replace (Z.to_nat ((remaining - mx) / mx + 1))
        with (S (Z.to_nat ((remaining - mx) / mx))) by lia.
      reflexivity.
    + rewrite Z.min_l by lia. rewrite Z.sub_diag, blocks_loop_0.
      rewrite Z.div_small, Z.mod_small by lia.
      destruct (Z.eqb_spec remaining 0); [lia|]. reflexivity.
Qed.

Lemma sum_list_app l1 l2 : sum_list (l1 ++ l2) = sum_list l1 + sum_list l2.
Proof. induction l1 as [|x l1 IH]; simpl; [reflexivity|]. rewrite IH. lia. Qed.

Lemma sum_list_repeat x n : sum_list (repeat x n) = Z.of_nat n * x.
Proof. induction n as [|n IH]; simpl; [reflexivity|]. rewrite IH. lia. Qed.

(** C3, as amended.  For a course with [weekly_hours > 0] and
    [0 < min_block_duration <= max_block_duration] the decomposer returns a
    sequence that sums to [weekly_hours]; every element lies in
    [[1, max_block_duration]], every element but the last equals
    [max_block_duration] (so lies in [[min, max]]), and the last one reaches
    [min_block_duration] exactly when [weekly_hours mod max] is [0] or at
    least [min].  A course with [weekly_hours = max_block_duration]
    decomposes to exactly one block. *)
Theorem calculate_course_blocks_spec (course : Course.t) :
  let w := Course.weekly_hours course in
  let mn := Course.min_block_duration course in
  let mx := Course.max_block_duration course in
  0 < w → 0 < mn → mn ≤ mx →
  ∃ blocks,
    calculate_course_blocks course = Some blocks
    ∧ sum_list blocks = w
    ∧ Forall (λ b, 1 ≤ b ≤ mx) blocks
    ∧ (∀ i b, blocks !! i = Some b → (S i < length blocks)%nat → b = mx)
    ∧ (∀ b, last blocks = Some b → (mn ≤ b ↔ w mod mx = 0 ∨ mn ≤ w mod mx))
    ∧ (w = mx → blocks = [mx]).
Proof.
  intros w mn mx Hw Hmn Hle. unfold calculate_course_blocks.
  fold w mn mx. rewrite blocks_loop_exact by lia.
  set (q := Z.to_nat (w / mx)). set (r := w mod mx).
  assert (0 ≤ w / mx) as Hq0 by (apply Z.div_pos; lia).
  assert (0 ≤ r < mx) as Hr by (apply Z.mod_pos_bound; lia).
  assert (w = mx * (w / mx) + r) as Hdiv by (apply Z.div_mod; lia).
  eexists; split; [reflexivity|].
  split; [|split; [|split; [|split]]].
  - rewrite sum_list_app, sum_list_repeat. unfold q.
    rewrite Z2Nat.id by done. clearbody r. revert Hdiv.
    generalize (w / mx). intros k ->.
    destruct (Z.eqb_spec r 0); simpl; lia.
  - apply Forall_app; split.
    + apply Forall_forall. intros b Hb%list_elem_of_In%repeat_spec. lia.
    + destruct (Z.eqb_spec r 0); constructor; [lia|constructor].
  - intros i b Hi Hlen. rewrite length_app, repeat_length in Hlen.
    destruct (decide (i < q)%nat) as [Hlt|Hge].
    + rewrite lookup_app_l in Hi by (rewrite repeat_length; lia).
      apply list_elem_of_lookup_2, list_elem_of_In, repeat_spec in Hi. done.
    + destruct (Z.eqb_spec r 0); simpl in Hlen; lia.
  - intros b Hlast. destruct (Z.eqb_spec r 0) as [E|E].
    + rewrite app_nil_r in Hlast.
      assert (b = mx) as ->; [|split; [by left|lia]].
      destruct q as [|q'] eqn:Eq; [done|].
      replace (S q') with (q' + 1)%nat in Hlast by lia.
      rewrite repeat_app in Hlast. simpl in Hlast.
      rewrite last_snoc in Hlast. congruence.
    + rewrite last_snoc in Hlast. injection Hlast as <-.
      split; [by right|]. intros [?|?]; [done|lia].
  - intros Heq. unfold q, r. rewrite Heq, Z.div_same, Z.mod_same by lia.
    reflexivity.
Qed.

Lemma calculate_course_blocks_spec_witness :
  ∃ blocks,
    calculate_course_blocks course_4_2_3 = Some blocks
    ∧ sum_list blocks = 4
    ∧ Forall (λ b, 1 ≤ b ≤ 3) blocks
    ∧ (∀ i b, blocks !! i = Some b → (S i < length blocks)%nat → b = 3)
    ∧ (∀ b, last blocks = Some b → (2 ≤ b ↔ 4 mod 3 = 0 ∨ 2 ≤ 4 mod 3))
    ∧ (4 = 3 → blocks = [3]).
Proof.
  apply (calculate_course_blocks_spec course_4_2_3); simpl; lia.
Defined.

(** C3 as stated fails: 4 weekly hours with blocks of 2 to 3 hours are
    split into [3; 1], and the last block is shorter than the minimum. *)
Lemma calculate_course_blocks_below_min :
  calculate_course_blocks course_4_2_3 = Some [3; 1]
  ∧ ¬ (∃ blocks,
         calculate_course_blocks course_4_2_3 = Some blocks
         ∧ sum_list blocks = Course.weekly_hours course_4_2_3
         ∧ Forall (λ b, Course.min_block_duration course_4_2_3 ≤ b
                        ≤ Course.max_block_duration course_4_2_3) blocks).
Proof.
  split; [reflexivity|].
  intros (blocks & Hb & _ & Hall).
  vm_compute in Hb. injection Hb as <-.
  apply Forall_cons in Hall as [_ Hall].
  apply Forall_cons in Hall as [H1 _]. simpl in H1. lia.
Qed.

(** ** Tracker: [assign] and [unassign] *)

Lemma write_slots_present sched k slot_ids v m :
  sched !! k = Some m →
  write_slots sched k slot_ids v
  = <[k := foldl (λ inner s, <[s := v]> inner) m slot_ids]> sched.
Proof.
  unfold write_slots. revert sched m.
  induction slot_ids as [|s l IH]; intros sched m Hk; simpl.
  - by rewrite insert_id.
  - rewrite (IH _ (<[s := v]> m)).
    + apply map_eq. intros i. destruct (decide (i = k)) as [->|Hne].
      * by rewrite !lookup_insert_eq.
      * by rewrite !lookup_insert_ne, lookup_alter_ne.
    + by rewrite lookup_alter_eq, Hk.
Qed.

Lemma pop_slots_present sched k slot_ids m :
  sched !! k = Some m →
  pop_slots sched k slot_ids
  = <[k := foldl (λ inner s, delete s inner) m slot_ids]> sched.
Proof.
  unfold pop_slots. revert sched m.
  induction slot_ids as [|s l IH]; intros sched m Hk; simpl.
  - by rewrite insert_id.
  - rewrite (IH _ (delete s m)).
    + apply map_eq. intros i. destruct (decide (i = k)) as [->|Hne].
      * by rewrite !lookup_insert_eq.
      * by rewrite !lookup_insert_ne, lookup_alter_ne.
    + by rewrite lookup_alter_eq, Hk.
Qed.

Lemma pop_slots_absent sched k slot_ids :
  sched !! k = None → pop_slots sched k slot_ids = sched.
Proof.
  unfold pop_slots. revert sched.
  induction slot_ids as [|s l IH]; intros sched Hk; simpl; [done|].
  assert (alter (λ inner : gmap Z Z, delete s inner) k sched = sched) as ->.
  { apply map_eq. intros i. destruct (decide (i = k)) as [->|Hne].
    - by rewrite lookup_alter_eq, Hk.
    - by rewrite lookup_alter_ne. }
  by apply IH.
Qed.

Lemma lookup_foldl_insert (m : gmap Z Z) slot_ids v s :
  foldl (λ inner s, <[s := v]> inner) m slot_ids !! s
  = if decide (s ∈ slot_ids) then Some v else m !! s.
Proof.
  revert m. induction slot_ids as [|x l IH]; intros m; cbn [foldl].
  - rewrite decide_False; [done|]. by intros ?%elem_of_nil.
  - rewrite IH. destruct (decide (s ∈ l)) as [Hin|Hnin].
    + rewrite decide_True; [done|]. by right.
    + destruct (decide (s = x)) as [->|Hne].
      * rewrite decide_True by left. by rewrite lookup_insert_eq.
      * rewrite decide_False by (by intros [?|?]%elem_of_cons).
        by rewrite lookup_insert_ne.
Qed.

Lemma lookup_foldl_delete (m : gmap Z Z) slot_ids s :
  foldl (λ inner s, delete s inner) m slot_ids !! s
  = if decide (s ∈ slot_ids) then None else m !! s.
Proof.
  revert m. induction slot_ids as [|x l IH]; intros m; cbn [foldl].
  - rewrite decide_False; [done|]. by intros ?%elem_of_nil.
  - rewrite IH. destruct (decide (s ∈ l)) as [Hin|Hnin].
    + rewrite decide_True; [done|]. by right.
    + destruct (decide (s = x)) as [->|Hne].
      * rewrite decide_True by left. by rewrite lookup_delete_eq.
      * rewrite decide_False by (by intros [?|?]%elem_of_cons).
        by rewrite lookup_delete_ne.
Qed.

Lemma slots_free_spec sched k slot_ids :
  slots_free sched k slot_ids = true ↔
  ∀ m, sched !! k = Some m → ∀ s, s ∈ slot_ids → m !! s = None.
Proof.
  unfold slots_free. destruct (sched !! k) as [m|]; [|by split].
  rewrite forallb_forall. split.
  - intros H m' [= <-] s Hs. apply list_elem_of_In, H in Hs.
    by apply bool_decide_eq_true in Hs.
  - intros H s Hs. apply bool_decide_eq_true, (H m eq_refl).
    by apply list_elem_of_In.
Qed.

(** Writing free slots and popping them again gives back the inner map. *)
Lemma pop_write_slots sched k slot_ids v :
  slots_free sched k slot_ids = true →
  pop_slots (write_slots (ensure_key sched k) k slot_ids v) k slot_ids
  = ensure_key sched k.
Proof.
  intros Hfree. rewrite slots_free_spec in Hfree.
  assert (∃ m, ensure_key sched k !! k = Some m
               ∧ ∀ s, s ∈ slot_ids → m !! s = None) as (m & Hm & Hf).
  { unfold ensure_key. destruct (sched !! k) as [m|] eqn:E.
    - exists m. split; [done|]. by apply Hfree.
    - exists ∅. split; [by rewrite lookup_insert_eq|]. intros. apply lookup_empty. }
  rewrite (write_slots_present _ _ _ _ m Hm).
  erewrite pop_slots_present by apply lookup_insert_eq.
  rewrite insert_insert_eq. apply insert_id. rewrite Hm. f_equal.
  apply map_eq. intros s. rewrite lookup_foldl_delete, lookup_foldl_insert.
  destruct (decide (s ∈ slot_ids)) as [Hin|]; [|done]. by rewrite Hf.
Qed.

Lemma ensure_key_present sched k :
  is_Some (sched !! k) → ensure_key sched k = sched.
Proof. intros [m Hm]. unfold ensure_key. by rewrite Hm. Qed.

(** C4, as amended.  When the slots are free for the professor and for the
    group (what [can_assign_professor] and [can_assign_group] check before
    every placement), [unassign] after [assign] gives back the tracker up to
    the two entries that [assign] initialises; when the professor and the
    group already have an entry, it gives back the tracker itself. *)
Theorem assign_unassign_inverse (t : GroupScheduleTracker)
    (prof_id group_id : Z) (slot_ids : list Z) (course_id : Z) :
  can_assign_professor t prof_id slot_ids = true →
  can_assign_group t group_id slot_ids = true →
  unassign (assign t prof_id group_id slot_ids course_id)
           prof_id group_id slot_ids = touch t prof_id group_id
  ∧ (is_Some (prof_schedule t !! prof_id) →
     is_Some (group_schedule t !! group_id) →
     unassign (assign t prof_id group_id slot_ids course_id)
              prof_id group_id slot_ids = t).
Proof.
  intros Hp Hg.
  assert (unassign (assign t prof_id group_id slot_ids course_id)
            prof_id group_id slot_ids = touch t prof_id group_id) as Heq.
  { unfold unassign, assign, touch; simpl.
    by rewrite !pop_write_slots. }
  split; [done|]. intros Hsp Hsg. rewrite Heq. unfold touch.
  rewrite !ensure_key_present by done. by destruct t.
Qed.

Lemma assign_unassign_inverse_witness :
  unassign (assign tracker_one_block 7 3 [2018] 9) 7 3 [2018]
  = touch tracker_one_block 7 3
  ∧ (is_Some (prof_schedule tracker_one_block !! 7) →
     is_Some (group_schedule tracker_one_block !! 3) →
     unassign (assign tracker_one_block 7 3 [2018] 9) 7 3 [2018]
     = tracker_one_block).
Proof.
  apply (assign_unassign_inverse tracker_one_block 7 3 [2018] 9);
    vm_compute; reflexivity.
Defined.

(** C4 as stated fails: a block of a professor and a group that the tracker
    has not seen leaves two empty entries behind, and a block written over
    an occupied slot erases the earlier occupant. *)
Lemma assign_unassign_leaves_entries :
  unassign (assign tracker_one_block 8 4 [2018] 9) 8 4 [2018]
  ≠ tracker_one_block
  ∧ unassign (assign tracker_one_block 7 4 [1017] 9) 7 4 [1017]
    ≠ tracker_one_block.
Proof.
  split; intros H.
  - apply (f_equal (λ t, prof_schedule t !! 8)) in H.
    vm_compute in H. discriminate.
  - apply (f_equal (λ t, (prof_schedule t !! 7) ≫= (.!! 1017))) in H.
    vm_compute in H. discriminate.
Qed.

(** ** The input index *)

Lemma foldl_insert_notin {A K V} `{Countable K} (key : A → K) (f : A → V)
    (l : list A) (m0 : gmap K V) (k : K) :
  k ∉ map key l →
  foldl (λ m x, <[key x := f x]> m) m0 l !! k = m0 !! k.
Proof.
  revert m0. induction l as [|x l IH]; intros m0 Hk; simpl; [done|].
  rewrite IH.
  - apply lookup_insert_ne. intros Heq. apply Hk. simpl. rewrite Heq. left.
  - intros Hin. apply Hk. simpl. by right.
Qed.

Lemma foldl_insert_last {A K V} `{Countable K} (key : A → K) (f : A → V)
    (l1 l2 : list A) (x : A) (m0 : gmap K V) :
  key x ∉ map key l2 →
  foldl (λ m x, <[key x := f x]> m) m0 (l1 ++ x :: l2) !! key x = Some (f x).
Proof.
  intros Hk. rewrite foldl_app. simpl.
  rewrite foldl_insert_notin by done. apply lookup_insert_eq.
Qed.

(** C8, as amended.  The available-slot set of a professor is the set of
    the ids of all the input timeslots, whether their start hour lies in the
    window or not, minus the professor's unavailability set (when two
    professors share an id, the later one is recorded). *)
Theorem professor_available_slots_spec
    cs rs timeslots (l1 l2 : list Professor.t) (prof : Professor.t)
    assignments prof_rooms :
  Professor.id prof ∉ map Professor.id l2 →
  professor_available_slots
    (SchedulingData_init cs rs timeslots (l1 ++ prof :: l2) assignments prof_rooms)
    !! Professor.id prof
  = Some (all_slot_ids timeslots ∖ list_to_set (Professor.availability prof)).
Proof.
  intros Hlast. simpl. unfold build_available.
  apply (foldl_insert_last Professor.id
           (λ p, all_slot_ids timeslots ∖ list_to_set (Professor.availability p))).
  done.
Qed.

Lemma professor_available_slots_spec_witness :
  professor_available_slots data_morning !! 7
  = Some (all_slot_ids [slot_morning; slot_evening] ∖ list_to_set []).
Proof.
  apply (professor_available_slots_spec [] [] [slot_morning; slot_evening]
           [] [] prof_free [] ∅).
  simpl. apply not_elem_of_nil.
Defined.

(** C8 as stated fails: the 08:00 slot is outside the window and is still
    in the available set of a professor who has no unavailability. *)
Lemma professor_available_outside_window :
  in_window slot_morning = false
  ∧ professor_available_slots data_morning !! 7
    ≠ Some (list_to_set (map TimeSlot.id (valid_slots data_morning))
            ∖ list_to_set (Professor.availability prof_free)).
Proof.
  split; [reflexivity|]. intros H.
  apply (f_equal (λ o : option (gset Z), bool_decide (1008 ∈ default ∅ o))) in H.
  vm_compute in H. discriminate.
Qed.

(** C10.  A professor id that does not occur in the professors input has no
    recorded available-slot set, and the availability check accepts every
    list of slot ids for it. *)
Theorem absent_professor_always_available
    cs rs timeslots (profs : list Professor.t) assignments prof_rooms
    (professor_id : Z) (slot_ids : list Z) :
  professor_id ∉ map Professor.id profs →
  let data := SchedulingData_init cs rs timeslots profs assignments prof_rooms in
  professor_available_slots data !! professor_id = None
  ∧ is_professor_available_at_slots data professor_id slot_ids = true.
Proof.
  intros Habs data.
  assert (professor_available_slots data !! professor_id = None) as Hnone.
  { simpl. unfold build_available.
    rewrite (foldl_insert_notin Professor.id
               (λ p, all_slot_ids timeslots ∖ list_to_set (Professor.availability p)))
      by done.
    apply lookup_empty. }
  split; [done|]. unfold is_professor_available_at_slots. by rewrite Hnone.
Qed.

Lemma absent_professor_always_available_witness :
  professor_available_slots data_morning !! 99 = None
  ∧ is_professor_available_at_slots data_morning 99 [1008; 1017; 5] = true.
Proof.
  apply (absent_professor_always_available [] [] [slot_morning; slot_evening]
           [prof_free] [] ∅ 99 [1008; 1017; 5]).
  simpl. intros [H|H]%elem_of_cons; [discriminate|by apply elem_of_nil in H].
Defined.

(** ** Ordered dictionaries and the result monad *)

Lemma bind_Ok {A B} (x : result A) (f : A → result B) (v : B) :
  x ≫= f = Ok v ↔ ∃ a, x = Ok a ∧ f a = Ok v.
Proof.
  destruct x as [a|e]; simpl; split.
  - intros Hf. by exists a.
  - by intros (a' & [= <-] & Hf).
  - discriminate.
  - by intros (a' & [=] & _).
Qed.

Ltac inv_bind H :=
  let a := fresh "a" in
  let Ha := fresh "Hbind" in
  apply bind_Ok in H as (a & Ha & H).

Section odict_facts.
Context {K V : Type} `{EqDecision K}.
Implicit Types (d : list (K * V)) (k : K) (v : V).

Lemma od_get_elem_of k v d : Odict.get k d = Some v → (k, v) ∈ d.
Proof.
  induction d as [|[k' v'] d IH]; simpl; [done|].
  destruct (decide (k = k')) as [->|Hne].
  - intros [= ->]. left.
  - intros Hg. right. by apply IH.
Qed.

Lemma od_elem_of_set k v k' v' d :
  (k', v') ∈ Odict.set k v d → (k', v') = (k, v) ∨ (k', v') ∈ d.
Proof.
  induction d as [|[k0 v0] d IH]; simpl.
  - intros ->%list_elem_of_singleton. by left.
  - destruct (decide (k = k0)) as [->|Hne].
    + intros [->|Hin]%elem_of_cons; [by left|]. right. by right.
    + intros [->|Hin]%elem_of_cons; [right; left|].
      destruct (IH Hin) as [?|?]; [by left|]. right. by right.
Qed.

Lemma od_elem_of_del k k' v' d :
  (k', v') ∈ Odict.del k d → (k', v') ∈ d.
Proof.
  induction d as [|[k0 v0] d IH]; simpl; [done|].
  destruct (decide (k = k0)) as [->|Hne].
  - intros Hin. by right.
  - intros [->|Hin]%elem_of_cons; [left|]. right. by apply IH.
Qed.

Lemma od_get_set_eq k v d : Odict.get k (Odict.set k v d) = Some v.
Proof.
  induction d as [|[k0 v0] d IH]; simpl.
  - by rewrite decide_True.
  - destruct (decide (k = k0)) as [->|Hne]; simpl.
    + by rewrite decide_True.
    + by rewrite decide_False.
Qed.

Lemma od_get_set_ne k k' v d :
  k ≠ k' → Odict.get k' (Odict.set k v d) = Odict.get k' d.
Proof.
  intros Hne. induction d as [|[k0 v0] d IH]; simpl.
  - by rewrite decide_False.
  - destruct (decide (k = k0)) as [->|Hne0]; simpl.
    + by rewrite !decide_False.
    + destruct (decide (k' = k0)); [done|]. apply IH.
Qed.

Lemma od_get_del_ne k k' d :
  k ≠ k' → Odict.get k' (Odict.del k d) = Odict.get k' d.
Proof.
  intros Hne. induction d as [|[k0 v0] d IH]; simpl; [done|].
  destruct (decide (k = k0)) as [->|Hne0]; simpl.
  - by rewrite decide_False.
  - destruct (decide (k' = k0)); [done|]. apply IH.
Qed.

Lemma od_keys_set k v d :
  is_Some (Odict.get k d) → Odict.keys (Odict.set k v d) = Odict.keys d.
Proof.
  unfold Odict.keys. induction d as [|[k0 v0] d IH]; simpl.
  - by intros [? ?].
  - destruct (decide (k = k0)) as [->|Hne]; simpl; [done|].
    intros Hs. by rewrite IH.
Qed.

End odict_facts.

(** ** What the elementary updates change *)

Lemma write_entry_inv st g hid e st' :
  write_entry st g hid e = Ok st' →
  room_usage st' = room_usage st ∧ tracker st' = tracker st
  ∧ ∀ g' hid' e', entry_in (all_schedules st') g' hid' e' →
      (g' = g ∧ hid' = hid ∧ e' = e) ∨ entry_in (all_schedules st) g' hid' e'.
Proof.
  unfold write_entry. destruct (Odict.get g (all_schedules st)) as [sched|] eqn:E;
    [|discriminate].
  intros [= <-]. simpl. split; [done|]. split; [done|].
  intros g' hid' e' (sched' & Hg & Hin).
  apply od_elem_of_set in Hg as [[= -> ->]|Hg].
  - apply od_elem_of_set in Hin as [[= -> ->]|Hin]; [by left|].
    right. exists sched. split; [|done]. by apply od_get_elem_of.
  - right. by exists sched'.
Qed.

Lemma delete_entry_inv st g hid st' :
  delete_entry st g hid = Ok st' →
  room_usage st' = room_usage st ∧ tracker st' = tracker st
  ∧ ∀ g' hid' e', entry_in (all_schedules st') g' hid' e' →
      entry_in (all_schedules st) g' hid' e'.
Proof.
  unfold delete_entry. destruct (Odict.get g (all_schedules st)) as [sched|] eqn:E;
    [|discriminate].
  intros [= <-]. simpl. split; [done|]. split; [done|].
  intros g' hid' e' (sched' & Hg & Hin).
  apply od_elem_of_set in Hg as [[= -> ->]|Hg].
  - apply od_elem_of_del in Hin.
    exists sched. split; [|done]. by apply od_get_elem_of.
  - by exists sched'.
Qed.

Lemma write_block_inv st group_id g c b j slot_ids room cid st' :
  write_block st group_id g c b j slot_ids room cid = Ok st' →
  room_usage st' = room_usage st ∧ tracker st' = tracker st
  ∧ ∀ g' hid' e', entry_in (all_schedules st') g' hid' e' →
      (g' = group_id ∧ e_slot e' ∈ slot_ids ∧ e_room e' = room
       ∧ e_course e' = cid
       ∧ ∃ i, slot_ids !! i = Some (e_slot e')
              ∧ hid' = mkHourId g c b (j + i))
      ∨ entry_in (all_schedules st) g' hid' e'.
Proof.
  revert st j. induction slot_ids as [|s l IH]; intros st j; simpl.
  - intros [= <-]. repeat split; auto.
  - intros H. inv_bind H. apply write_entry_inv in Hbind as (Hr & Ht & He).
    apply IH in H as (Hr' & Ht' & He').
    split; [congruence|]. split; [congruence|].
    intros g' hid' e' Hin. apply He' in Hin as [(-> & Hs & ? & ? & i & Hi & ->)|Hin].
    + left. repeat split; auto; [by right|].
      exists (S i). split; [done|]. f_equal. lia.
    + apply He in Hin as [(-> & -> & ->)|Hin]; [|by right].
      left. simpl. repeat split; auto; [by left|].
      exists O. split; [done|]. f_equal. lia.
Qed.

Lemma delete_hours_inv st g hs st' :
  delete_hours st g hs = Ok st' →
  room_usage st' = room_usage st ∧ tracker st' = tracker st
  ∧ ∀ g' hid' e', entry_in (all_schedules st') g' hid' e' →
      entry_in (all_schedules st) g' hid' e'.
Proof.
  revert st. induction hs as [|h l IH]; intros st; simpl.
  - intros [= <-]. auto.
  - intros H. inv_bind H. apply delete_entry_inv in Hbind as (Hr & Ht & He).
    apply IH in H as (Hr' & Ht' & He').
    split; [congruence|]. split; [congruence|]. auto.
Qed.

Lemma restore_hours_inv st g hs cid st' :
  restore_hours st g hs cid = Ok st' →
  room_usage st' = room_usage st ∧ tracker st' = tracker st
  ∧ ∀ g' hid' e', entry_in (all_schedules st') g' hid' e' →
      (g' = g ∧ ∃ h, h ∈ hs ∧ hid' = hour_id h
                     ∧ e' = mkEntry (slot_id h) (room_id h) cid)
      ∨ entry_in (all_schedules st) g' hid' e'.
Proof.
  revert st. induction hs as [|h l IH]; intros st; simpl.
  - intros [= <-]. auto.
  - intros H. inv_bind H. apply write_entry_inv in Hbind as (Hr & Ht & He).
    apply IH in H as (Hr' & Ht' & He').
    split; [congruence|]. split; [congruence|].
    intros g' hid' e' Hin. apply He' in Hin as [(-> & h' & Hh & -> & ->)|Hin].
    + left. split; [done|]. exists h'. split; [by right|done].
    + apply He in Hin as [(-> & -> & ->)|Hin]; [|by right].
      left. split; [done|]. exists h. split; [left|done].
Qed.

(** ** The Position Finder *)

Lemma py_slice_subseteq {A} (l : list A) a b x :
  x ∈ py_slice l a b → x ∈ l.
Proof.
  unfold py_slice. intros Hx.
  by apply subseteq_take, subseteq_drop in Hx.
Qed.

Lemma truthy_int_Some o :
  truthy_int o = true → ∃ n, o = Some n ∧ n ≠ 0.
Proof.
  destruct o as [n|]; simpl; [|discriminate].
  intros Hn. exists n. split; [done|]. intros ->. discriminate.
Qed.

Lemma collect_positions_elem {A} (f : Z → result (option A)) idxs ps p :
  collect_positions f idxs = Ok ps → p ∈ ps →
  ∃ i, i ∈ idxs ∧ f i = Ok (Some p).
Proof.
  revert ps. induction idxs as [|i l IH]; intros ps; simpl.
  - intros [= <-] Hp. by apply elem_of_nil in Hp.
  - intros H. inv_bind H. inv_bind H. injection H as <-.
    destruct a as [q|].
    + intros [->|Hp]%elem_of_cons.
      * exists i. split; [left|done].
      * destruct (IH _ Hbind0 Hp) as (i' & ? & ?). exists i'. split; [by right|done].
    + intros Hp. destruct (IH _ Hbind0 Hp) as (i' & ? & ?).
      exists i'. split; [by right|done].
Qed.

Lemma find_all_valid_positions_valid `{Runtime} course group_id duration day
    data st is_english fixed_hour positions pos :
  find_all_valid_positions course group_id duration day data st is_english
    fixed_hour = Ok positions →
  pos ∈ positions →
  valid_position data st group_id course duration day is_english fixed_hour pos.
Proof.
  unfold find_all_valid_positions.
  destruct (truthy_int (get_professor_for_group_course _ _ _)) eqn:Hp; simpl;
    [|intros [= <-] Hin; by apply elem_of_nil in Hin].
  apply truthy_int_Some in Hp as (prof_id & Hp & Hp0). rewrite Hp. simpl.
  destruct (truthy_int (get_professor_room _ _)) eqn:Hr; simpl;
    [|intros [= <-] Hin; by apply elem_of_nil in Hin].
  apply truthy_int_Some in Hr as (room & Hr & Hr0). rewrite Hr. simpl.
  destruct (Odict.get day (slots_by_day data)) as [day_slots|] eqn:Hd;
    [|intros [= <-] Hin; by apply elem_of_nil in Hin].
  intros Hc Hin.
  destruct (collect_positions_elem _ _ _ _ Hc Hin) as (i & _ & Hw).
  clear Hc Hin. unfold window_position in Hw.
  inv_bind Hw. destruct a; simpl in Hw; [|discriminate].
  destruct (py_slice day_slots i (i + duration)) as [|first rest] eqn:Hs;
    [discriminate|].
  repeat match type of Hw with
         | (if negb ?b then _ else _) = _ =>
             let E := fresh "E" in destruct b eqn:E; simpl in Hw; [|discriminate]
         | (if ?b then _ else _) = _ =>
             let E := fresh "E" in destruct b eqn:E; simpl in Hw; [discriminate|]
         end.
  injection Hw as <-. split; simpl; try done.
  - exists day_slots. by rewrite Hs.
  - by exists first, rest.
  - intros -> Ht. rewrite Ht in E0. simpl in E0.
    apply negb_false_iff, bool_decide_eq_true in E0. done.
Qed.

Lemma valid_position_slots timeslots data st g course duration day
    is_english fixed_hour pos :
  index_ok timeslots data →
  valid_position data st g course duration day is_english fixed_hour pos →
  ∀ s, s ∈ pos_slots pos →
    s ∈ timeslots ∧ in_window s = true ∧ TimeSlot.day s = day.
Proof.
  intros Hok Hv s Hs. destruct (vp_slots _ _ _ _ _ _ _ _ _ Hv) as (ds & Hd & Heq).
  rewrite Heq in Hs. apply py_slice_subseteq in Hs. by apply (Hok day ds).
Qed.

(** ** The [random] module *)

Lemma swap_perm {A} (x : list A) i j : swap x i j ≡ₚ x.
Proof.
  unfold swap. destruct (x !! i) as [a|] eqn:Hi; [|done].
  destruct (x !! j) as [b|] eqn:Hj; [|done].
  by apply Permutation_insert_swap.
Qed.

Lemma shuffle_from_perm `{Runtime} {A} i (x : list A) r :
  (shuffle_from i x r).1 ≡ₚ x.
Proof.
  revert x r. induction i as [|i IH]; intros x r; simpl; [done|].
  destruct (below (S (S i)) r) as [j r'] eqn:E.
  rewrite IH. apply swap_perm.
Qed.

Lemma shuffle_perm `{Runtime} {A} (x : list A) r : (shuffle x r).1 ≡ₚ x.
Proof. apply shuffle_from_perm. Qed.

Lemma shuffle_elem_of `{Runtime} {A} (x : list A) r y l r' :
  shuffle x r = (l, r') → y ∈ l → y ∈ x.
Proof.
  intros Hs Hy. pose proof (shuffle_perm x r) as Hp. rewrite Hs in Hp.
  simpl in Hp. by rewrite <- Hp.
Qed.

Lemma choice_elem_of `{Runtime} {A} (x : list A) r a r' :
  choice x r = Ok (a, r') → a ∈ x.
Proof.
  unfold choice. destruct (below (length x) r) as [k r1].
  destruct (x !! k) as [b|] eqn:E; [|discriminate].
  intros [= <- <-]. by eapply list_elem_of_lookup_2.
Qed.

(** ** The input index, continued *)

Lemma elem_of_insert_by_id x s l : x ∈ insert_by_id s l ↔ x = s ∨ x ∈ l.
Proof.
  induction l as [|y l IH]; simpl.
  - rewrite list_elem_of_singleton. set_solver.
  - destruct (TimeSlot.id s <? TimeSlot.id y).
    + set_solver.
    + rewrite !elem_of_cons, IH. tauto.
Qed.

Lemma elem_of_sort_by_id x l : x ∈ sort_by_id l ↔ x ∈ l.
Proof.
  unfold sort_by_id.
  assert (∀ acc, x ∈ foldl (λ acc s, insert_by_id s acc) acc l
                 ↔ x ∈ acc ∨ x ∈ l) as Hgen.
  { induction l as [|y l IH]; intros acc; simpl.
    - set_solver.
    - rewrite IH, elem_of_insert_by_id, elem_of_cons. tauto. }
  rewrite Hgen. set_solver.
Qed.

Lemma group_by_day_elem vs day l s :
  Odict.get day (group_by_day vs) = Some l → s ∈ l →
  s ∈ vs ∧ TimeSlot.day s = day.
Proof.
  unfold group_by_day. revert day l s.
  induction vs as [|x vs IH] using rev_ind; intros day l s; simpl; [done|].
  rewrite foldl_app. simpl.
  set (d := foldl _ [] vs) in *.
  destruct (decide (TimeSlot.day x = day)) as [<-|Hne].
  - rewrite od_get_set_eq. intros [= <-] [Hs|Hs]%elem_of_app.
    + destruct (Odict.get (TimeSlot.day x) d) as [cur|] eqn:E; simpl in Hs.
      * destruct (IH _ _ _ E Hs). set_solver.
      * by apply elem_of_nil in Hs.
    + apply list_elem_of_singleton in Hs as ->. set_solver.
  - rewrite od_get_set_ne by done. intros Hg Hs.
    destruct (IH _ _ _ Hg Hs). set_solver.
Qed.

Lemma od_get_map_values {K V W} `{EqDecision K} (f : V → W)
    (d : list (K * V)) k :
  Odict.get k (map (λ p, (p.1, f p.2)) d) = f <$> Odict.get k d.
Proof.
  induction d as [|[k' v] d IH]; simpl; [done|].
  destruct (decide (k = k')); [done|]. apply IH.
Qed.

Lemma index_ok_init cs rs timeslots profs assignments prof_rooms :
  index_ok timeslots
    (SchedulingData_init cs rs timeslots profs assignments prof_rooms).
Proof.
  intros day day_slots s. simpl. rewrite od_get_map_values.
  destruct (Odict.get day (group_by_day _)) as [l|] eqn:E; [|discriminate].
  simpl. intros [= <-] Hs. apply (proj1 (elem_of_sort_by_id _ _)) in Hs.
  destruct (group_by_day_elem _ _ _ _ E Hs) as [Hin Hd].
  apply list_elem_of_filter in Hin as [Hw Hin]. done.
Qed.

(** ** Relocation keeps the fixed hours *)

Lemma place_block_fixed_hours st g course b pos day st' :
  place_block st g course b pos day = Ok st' →
  course_fixed_hour (tracker st') = course_fixed_hour (tracker st).
Proof.
  unfold place_block. intros H. inv_bind H.
  apply write_block_inv in Hbind as (_ & Ht & _).
  injection H as <-. simpl. rewrite Ht. by destruct (bool_decide _).
Qed.

Lemma relocate_on_days_fixed_hours `{Runtime} data course g cid duration
    is_english fixed_hour days r st r' st' :
  relocate_on_days data course g cid duration is_english fixed_hour days r st
  = Ok (Some (r', st')) →
  course_fixed_hour (tracker st') = course_fixed_hour (tracker st).
Proof.
  induction days as [|day rest IH]; simpl; [discriminate|].
  destruct (_ && _); [exact IH|].
  intros Hd. inv_bind Hd. destruct a as [|p ps]; [by apply IH|].
  inv_bind Hd. destruct a as [pos r1].
  destruct (randint 1000 9999 r1) as [suffix r2].
  inv_bind Hd. apply write_block_inv in Hbind1 as (_ & Ht & _).
  injection Hd as <- <-. simpl. rewrite Ht. by destruct (bool_decide _).
Qed.

Lemma try_relocate_block_fixed_hours `{Runtime} c data r st moved r' st' :
  try_relocate_block c data r st = Ok (moved, r', st') →
  course_fixed_hour (tracker st') = course_fixed_hour (tracker st).
Proof.
  unfold try_relocate_block.
  destruct (c_course c) as [course|]; [|by intros [= <- <- <-]].
  destruct (negb _); [by intros [= <- <- <-]|].
  destruct (hours c) as [|h0 hs] eqn:Eh; [discriminate|].
  intros Hd. inv_bind Hd. apply delete_hours_inv in Hbind as (_ & Ht & _).
  destruct (shuffle _ r) as [days r1].
  inv_bind Hd. destruct a0 as [[r2 st3]|].
  - injection Hd as <- <- <-.
    apply relocate_on_days_fixed_hours in Hbind. rewrite Hbind. simpl.
    rewrite Ht. by destruct (_ && _).
  - inv_bind Hd. apply restore_hours_inv in Hbind0 as (_ & Ht' & _).
    injection Hd as <- <- <-. simpl. rewrite Ht'. simpl.
    rewrite Ht. by destruct (_ && _).
Qed.

(** ** The functions of the scheduler stay within the reachable states *)

Section reach.
Context `{Runtime} (data : SchedulingData).

Lemma relocate_all_reach conflicts r st moved r' st' :
  Forall (movable_conflict data) conflicts →
  reachable data st →
  relocate_all data conflicts r st = Ok (moved, r', st') →
  reachable data st'
  ∧ course_fixed_hour (tracker st') = course_fixed_hour (tracker st).
Proof.
  revert r st. induction conflicts as [|c rest IH]; intros r st Hall Hst; simpl.
  - by intros [= <- <- <-].
  - intros Hd. inv_bind Hd. destruct a as [[m r1] st1].
    apply Forall_cons in Hall as [(Hne & st0 & ids & g & Hst0 & Hc) Hall].
    assert (reachable data st1) as Hst1.
    { eapply reach_relocate; [exact Hst0|exact Hc|exact Hne|exact Hst|exact Hbind]. }
    apply try_relocate_block_fixed_hours in Hbind.
    destruct m.
    + destruct (IH _ _ Hall Hst1 Hd) as [? Hf]. split; [done|congruence].
    + by injection Hd as <- <- <-.
Qed.

Lemma english_conflicts_movable st prof_id g days hour cs :
  reachable data st →
  english_conflicts data st prof_id g days hour = Ok (Some cs) →
  Forall (movable_conflict data) cs.
Proof.
  intros Hst. revert cs. induction days as [|day rest IH]; intros cs; simpl.
  - intros [= <-]. constructor.
  - destruct (Odict.get day _) as [day_slots|]; [|discriminate].
    destruct (slot_at_hour _ _) as [slot|]; [|discriminate].
    destruct (negb _); [discriminate|].
    destruct (existsb _ _) eqn:Ex; [discriminate|].
    intros Hd. inv_bind Hd.
    destruct a as [l|]; simpl in Hd; [|discriminate]. injection Hd as <-.
    apply Forall_app. split; [|by apply IH].
    apply Forall_forall. intros c Hc. split.
    + destruct (c_is_english c) eqn:Ec; [|done].
      assert (existsb c_is_english
                (get_conflicting_blocks [TimeSlot.id slot] g
                   (all_schedules st) data) = true); [|congruence].
      apply existsb_exists. exists c. split; [by apply list_elem_of_In|done].
    + by exists st, [TimeSlot.id slot], g.
Qed.

(** *** The language-course placer *)

Section reach_english.
Context (course : Course.t) (group_id prof_id room : Z) (num_blocks : nat)
  (fixed_hour : option string).
Hypothesis Hknown : known_course data course true.
Hypothesis Hmax : Course.max_block_duration course = 1.

Lemma in_sync_fixed_hours st st' :
  course_fixed_hour (tracker st') = course_fixed_hour (tracker st) →
  in_sync fixed_hour group_id course st → in_sync fixed_hour group_id course st'.
Proof.
  unfold in_sync, get_fixed_hour_for_course. by intros ->.
Qed.

Lemma hours_ok_cons hour rest :
  hours_ok fixed_hour (hour :: rest) →
  (truthy_str fixed_hour = true → fixed_hour = Some hour) ∧ hours_ok fixed_hour rest.
Proof.
  intros Hok. split.
  - intros Ht. apply Hok; [done|left].
  - intros Ht h Hh. apply Hok; [done|by right].
Qed.

Lemma hours_ok_choice (hours : list string) :
  hours_ok fixed_hour (if truthy_str fixed_hour then [default "" fixed_hour] else hours).
Proof.
  intros Ht. rewrite Ht. intros hour ->%list_elem_of_singleton.
  destruct fixed_hour; [done|discriminate].
Qed.

Lemma commit_if_complete_reach st check days hour found st' :
  reachable data st → in_sync fixed_hour group_id course st →
  (truthy_str fixed_hour = true → fixed_hour = Some hour) →
  english_positions data st check prof_id room group_id days hour = Ok found →
  commit_if_complete st group_id course prof_id room num_blocks fixed_hour
    hour found = Ok (Some st') →
  reachable data st'.
Proof.
  intros Hst Hsync Hhour Hpos Hcommit. rewrite Hsync in Hcommit, Hhour.
  by eapply reach_commit.
Qed.

Lemma english_try_hours_reach st days hours_to_try st' :
  reachable data st → in_sync fixed_hour group_id course st → hours_ok fixed_hour hours_to_try →
  english_try_hours data st course prof_id room group_id num_blocks
    fixed_hour days hours_to_try = Ok (Some st') →
  reachable data st'.
Proof.
  intros Hst Hsync. induction hours_to_try as [|hour rest IH]; simpl;
    [discriminate|].
  intros [Hhour Hok]%hours_ok_cons.
  intros Hd. inv_bind Hd. inv_bind Hd. destruct a0 as [st1|].
  - injection Hd as <-. by eapply commit_if_complete_reach.
  - by apply IH.
Qed.

Lemma english_direct_reach sequences hours_prev r st st' hours r' :
  reachable data st → in_sync fixed_hour group_id course st →
  english_direct data course prof_id room group_id num_blocks fixed_hour
    sequences hours_prev r st = Ok (Some st', hours, r') →
  reachable data st'.
Proof.
  intros Hst Hsync. revert hours_prev r.
  induction sequences as [|days rest IH]; intros hours_prev r; simpl;
    [discriminate|].
  intros Hd. inv_bind Hd. destruct (shuffle _ r) as [shuffled r1].
  inv_bind Hd. destruct a0 as [st1|].
  - injection Hd as <- <- <-.
    eapply english_try_hours_reach; eauto using hours_ok_choice.
  - by eapply IH.
Qed.

Lemma english_displace_step_reach days hour r st placed r' st' :
  reachable data st → in_sync fixed_hour group_id course st →
  (truthy_str fixed_hour = true → fixed_hour = Some hour) →
  english_displace_step data course prof_id room group_id num_blocks
    fixed_hour days hour r st = Ok (placed, r', st') →
  reachable data st'
  ∧ (placed = false →
     course_fixed_hour (tracker st') = course_fixed_hour (tracker st)).
Proof.
  intros Hst Hsync Hhour. unfold english_displace_step. intros Hd. inv_bind Hd.
  destruct a as [[|c cs]|]; try by injection Hd as <- <- <-.
  pose proof (english_conflicts_movable _ _ _ _ _ _ Hst Hbind) as Hmov.
  inv_bind Hd. destruct a as [[all_moved r1] st1].
  destruct (relocate_all_reach _ _ _ _ _ _ Hmov Hst Hbind0) as [Hst1 Hf].
  destruct all_moved; [|by injection Hd as <- <- <-].
  inv_bind Hd. inv_bind Hd. destruct a0 as [st2|].
  - injection Hd as <- <- <-. split; [|done].
    eapply commit_if_complete_reach; eauto using in_sync_fixed_hours.
  - by injection Hd as <- <- <-.
Qed.

Lemma english_displace_hours_reach days target_hours r st placed r' st' :
  reachable data st → in_sync fixed_hour group_id course st → hours_ok fixed_hour target_hours →
  english_displace_hours data course prof_id room group_id num_blocks
    fixed_hour days target_hours r st = Ok (placed, r', st') →
  reachable data st'
  ∧ (placed = false →
     course_fixed_hour (tracker st') = course_fixed_hour (tracker st)).
Proof.
  revert r st. induction target_hours as [|hour rest IH];
    intros r st Hst Hsync Hok; simpl.
  - by intros [= <- <- <-].
  - apply hours_ok_cons in Hok as [Hhour Hok].
    intros Hd. inv_bind Hd. destruct a as [[p r1] st1].
    destruct (english_displace_step_reach _ _ _ _ _ _ _ Hst Hsync Hhour Hbind)
      as [Hst1 Hf].
    destruct p; [by injection Hd as <- <- <-|].
    specialize (Hf eq_refl).
    destruct (IH _ _ Hst1 (in_sync_fixed_hours _ _ Hf Hsync) Hok Hd) as [? Hf'].
    split; [done|]. intros Hp. rewrite Hf'; done.
Qed.

Lemma english_displace_reach sequences hours_to_try r st placed r' st' :
  reachable data st → in_sync fixed_hour group_id course st →
  english_displace data course prof_id room group_id num_blocks fixed_hour
    sequences hours_to_try r st = Ok (placed, r', st') →
  reachable data st'
  ∧ (placed = false →
     course_fixed_hour (tracker st') = course_fixed_hour (tracker st)).
Proof.
  revert r st. induction sequences as [|days rest IH]; intros r st Hst Hsync;
    simpl.
  - by intros [= <- <- <-].
  - intros Hd. inv_bind Hd. destruct a as [[p r1] st1].
    destruct (english_displace_hours_reach _ _ _ _ _ _ _ Hst Hsync
                (hours_ok_choice _) Hbind) as [Hst1 Hf].
    destruct p; [by injection Hd as <- <- <-|].
    specialize (Hf eq_refl).
    destruct (IH _ _ Hst1 (in_sync_fixed_hours _ _ Hf Hsync) Hd) as [? Hf'].
    split; [done|]. intros Hp. rewrite Hf'; done.
Qed.

Lemma english_attempts_reach sequences max_attempts r st placed r' st' :
  reachable data st → in_sync fixed_hour group_id course st →
  english_attempts data course prof_id room group_id num_blocks fixed_hour
    sequences max_attempts r st = Ok (placed, r', st') →
  reachable data st'.
Proof.
  revert r st. induction max_attempts as [|n IH]; intros r st Hst Hsync; simpl.
  - by intros [= <- <- <-].
  - intros Hd. inv_bind Hd. destruct a as [[direct hours] r1].
    destruct direct as [st1|].
    + injection Hd as <- <- <-. by eapply english_direct_reach.
    + inv_bind Hd. destruct a as [[p r2] st2].
      destruct (english_displace_reach _ _ _ _ _ _ _ Hst Hsync Hbind0)
        as [Hst2 Hf].
      destruct p; [by injection Hd as <- <- <-|].
      eapply IH; eauto using in_sync_fixed_hours.
Qed.

End reach_english.

Lemma assign_english_consecutive_days_reach course group_id block_durations
    max_attempts r st placed r' st' :
  known_course data course true →
  Course.max_block_duration course = 1 →
  reachable data st →
  assign_english_consecutive_days course group_id data block_durations
    (get_fixed_hour_for_course (tracker st) group_id (Course.id course))
    max_attempts r st = Ok (placed, r', st') →
  reachable data st'.
Proof.
  intros Hknown Hmax Hst. unfold assign_english_consecutive_days.
  destruct (get_professor_for_group_course _ _ _) as [prof_id|]; [|discriminate].
  destruct (get_professor_room _ _) as [room|]; [|discriminate].
  destruct (get_consecutive_day_sequences _ _) as [|s ss];
    [by intros [= <- <- <-]|].
  destruct (shuffle _ r) as [sequences r1].
  by apply english_attempts_reach.
Qed.

End reach.

(** *** The generic force-assign loop *)

Section reach_generic.
Context `{Runtime} (data : SchedulingData).
Context (course : Course.t) (group_id : Z) (is_english : bool) (prof_id : Z).
Hypothesis Hknown : known_course data course is_english.
Hypothesis Hgeneric :
  is_english && bool_decide (Course.max_block_duration course = 1) = false.

Lemma fixed_hour_of_fixed_hours st st' :
  course_fixed_hour (tracker st') = course_fixed_hour (tracker st) →
  fixed_hour_of is_english group_id course st'
  = fixed_hour_of is_english group_id course st.
Proof.
  unfold fixed_hour_of, get_fixed_hour_for_course. by intros ->.
Qed.

Lemma record_fixed_hour_sync fixed_hour pos st1 fh st2 :
  fixed_hour = fixed_hour_of is_english group_id course st1 →
  record_fixed_hour is_english fixed_hour group_id course pos st1 = (fh, st2) →
  fh = fixed_hour_of is_english group_id course st2.
Proof.
  unfold record_fixed_hour. intros Hs.
  destruct (is_english && negb (truthy_str fixed_hour)) eqn:E.
  - intros [= <- <-]. apply andb_true_iff in E as [-> _].
    unfold fixed_hour_of, get_fixed_hour_for_course. simpl.
    by rewrite lookup_insert_eq.
  - by intros [= <- <-].
Qed.

Lemma place_and_record_reach duration day st positions pos block_num st1 fh st2 :
  reachable data st →
  find_all_valid_positions course group_id duration day data st is_english
    (fixed_hour_of is_english group_id course st) = Ok positions →
  pos ∈ positions →
  place_block st group_id course block_num pos day = Ok st1 →
  record_fixed_hour is_english (fixed_hour_of is_english group_id course st)
    group_id course pos st1 = (fh, st2) →
  reachable data st2 ∧ fh = fixed_hour_of is_english group_id course st2.
Proof.
  intros Hst Hfind Hpos Hplace Hrec. split.
  - by eapply reach_place.
  - eapply record_fixed_hour_sync; [|exact Hrec].
    symmetry. apply fixed_hour_of_fixed_hours.
    by eapply place_block_fixed_hours.
Qed.

Lemma direct_days_reach block_num duration days r st fh r' st' :
  reachable data st →
  direct_days data course group_id is_english block_num duration days
    (fixed_hour_of is_english group_id course st) r st
  = Ok (Some (fh, r', st')) →
  reachable data st' ∧ fh = fixed_hour_of is_english group_id course st'.
Proof.
  intros Hst. induction days as [|day rest IH]; simpl; [discriminate|].
  destruct (day_is_used _ _ _ _); [exact IH|].
  intros Hd. inv_bind Hd. destruct a as [|p ps]; [by apply IH|].
  inv_bind Hd. destruct a as [pos r1]. inv_bind Hd.
  destruct (record_fixed_hour _ _ _ _ _ _) as [fh' st2] eqn:Hrec.
  injection Hd as <- <- <-.
  eapply place_and_record_reach; eauto using choice_elem_of.
Qed.

Lemma filter_movable st slot_ids g :
  reachable data st →
  Forall (movable_conflict data)
    (filter (λ c, c_is_english c = false)
       (get_conflicting_blocks slot_ids g (all_schedules st) data)).
Proof.
  intros Hst. apply Forall_forall. intros c [Hne Hc]%list_elem_of_filter.
  split; [done|]. by exists st, slot_ids, g.
Qed.

Lemma displace_window_reach block_num duration day day_slots start_idx r st
    assigned fh r' st' :
  reachable data st →
  displace_window data course group_id is_english prof_id block_num duration
    day day_slots (fixed_hour_of is_english group_id course st) start_idx r st
  = Ok (assigned, fh, r', st') →
  reachable data st' ∧ fh = fixed_hour_of is_english group_id course st'.
Proof.
  intros Hst. unfold displace_window.
  destruct (py_slice _ _ _) as [|first rest]; [discriminate|].
  destruct (negb _); [by intros [= <- <- <- <-]|].
  destruct (_ && _ && negb _); [by intros [= <- <- <- <-]|].
  pose proof (filter_movable st (map TimeSlot.id (first :: rest)) group_id Hst)
    as Hmov.
  destruct (filter _ _) as [|c cs]; [by intros [= <- <- <- <-]|].
  intros Hd. inv_bind Hd. destruct a as [[all_moved r1] st1].
  destruct (relocate_all_reach _ _ _ _ _ _ _ Hmov Hst Hbind) as [Hst1 Hf].
  apply fixed_hour_of_fixed_hours in Hf.
  destruct all_moved; [|by injection Hd as <- <- <- <-].
  inv_bind Hd. destruct a as [|pos ps]; [by injection Hd as <- <- <- <-|].
  inv_bind Hd.
  destruct (record_fixed_hour _ _ _ _ _ _) as [fh' st3] eqn:Hrec.
  injection Hd as <- <- <- <-. rewrite <- Hf in *.
  eapply place_and_record_reach; eauto. left.
Qed.

Lemma displace_windows_reach block_num duration day day_slots idxs r st
    assigned fh r' st' :
  reachable data st →
  displace_windows data course group_id is_english prof_id block_num duration
    day day_slots (fixed_hour_of is_english group_id course st) idxs r st
  = Ok (assigned, fh, r', st') →
  reachable data st' ∧ fh = fixed_hour_of is_english group_id course st'.
Proof.
  revert r st. induction idxs as [|i rest IH]; intros r st Hst; simpl.
  - by intros [= <- <- <- <-].
  - intros Hd. inv_bind Hd. destruct a as [[[a fh1] r1] st1].
    destruct (displace_window_reach _ _ _ _ _ _ _ _ _ _ _ Hst Hbind)
      as [Hst1 ->].
    destruct a; [by injection Hd as <- <- <- <-|]. by eapply IH.
Qed.

Lemma displace_days_reach block_num duration days r st assigned fh r' st' :
  reachable data st →
  displace_days data course group_id is_english prof_id block_num duration
    days (fixed_hour_of is_english group_id course st) r st
  = Ok (assigned, fh, r', st') →
  reachable data st' ∧ fh = fixed_hour_of is_english group_id course st'.
Proof.
  revert r st. induction days as [|day rest IH]; intros r st Hst; simpl.
  - by intros [= <- <- <- <-].
  - destruct (day_is_used _ _ _ _); [by apply IH|].
    intros Hd. inv_bind Hd. destruct a as [[[a fh1] r1] st1].
    destruct (displace_windows_reach _ _ _ _ _ _ _ _ _ _ _ Hst Hbind)
      as [Hst1 ->].
    destruct a; [by injection Hd as <- <- <- <-|]. by eapply IH.
Qed.

Lemma attempt_block_reach block_num duration attempts_left r st
    assigned fh r' st' :
  reachable data st →
  attempt_block data course group_id is_english prof_id block_num duration
    attempts_left (fixed_hour_of is_english group_id course st) r st
  = Ok (assigned, fh, r', st') →
  reachable data st' ∧ fh = fixed_hour_of is_english group_id course st'.
Proof.
  revert r st. induction attempts_left as [|n IH]; intros r st Hst; simpl.
  - by intros [= <- <- <- <-].
  - destruct (shuffle _ r) as [days r1].
    intros Hd. inv_bind Hd. destruct a as [[[fh1 r2] st2]|].
    + injection Hd as <- <- <- <-. by eapply direct_days_reach.
    + inv_bind Hd. destruct a as [[[a fh1] r2] st2].
      destruct (displace_days_reach _ _ _ _ _ _ _ _ _ Hst Hbind0)
        as [Hst2 ->].
      destruct a; [by injection Hd as <- <- <- <-|]. by eapply IH.
Qed.

Lemma assign_blocks_reach max_attempts block_num block_durations n r st
    n' r' st' :
  reachable data st →
  assign_blocks data course group_id is_english prof_id max_attempts
    block_num block_durations (fixed_hour_of is_english group_id course st)
    n r st = Ok (n', r', st') →
  reachable data st'.
Proof.
  revert block_num n r st.
  induction block_durations as [|d rest IH]; intros block_num n r st Hst; simpl.
  - by intros [= <- <- <-].
  - intros Hd. inv_bind Hd. destruct a as [[[a fh1] r1] st1].
    destruct (attempt_block_reach _ _ _ _ _ _ _ _ _ Hst Hbind) as [Hst1 ->].
    by eapply IH.
Qed.

End reach_generic.

Lemma force_assign_with_displacement_reach `{Runtime} data course group_id
    is_english block_durations max_attempts r st placed r' st' :
  known_course data course is_english →
  reachable data st →
  force_assign_with_displacement course group_id data is_english
    block_durations max_attempts r st = Ok (placed, r', st') →
  reachable data st'.
Proof.
  intros Hknown Hst. unfold force_assign_with_displacement.
  destruct (negb _); [by intros [= <- <- <-]|].
  destruct (negb _); [by intros [= <- <- <-]|].
  destruct (is_english && bool_decide _) eqn:E.
  - apply andb_true_iff in E as [-> Hmax%bool_decide_eq_true].
    by apply assign_english_consecutive_days_reach.
  - intros Hd. inv_bind Hd. destruct a as [[n r1] st1].
    injection Hd as <- <- <-.
    by eapply (assign_blocks_reach data course group_id is_english).
Qed.

(** *** The orchestrator *)

Lemma dict_by_lookup {A} (key : A → Z) (xs : list A) k x :
  dict_by key xs !! k = Some x → key x = k ∧ x ∈ xs.
Proof.
  unfold dict_by.
  assert (∀ m0 : gmap Z A, foldl (λ m x, <[key x := x]> m) m0 xs !! k = Some x →
                (key x = k ∧ x ∈ xs) ∨ m0 !! k = Some x) as Hgen.
  { induction xs as [|y l IH]; intros m0; simpl; [by right|].
    intros [[? ?]|Hm]%IH; [left; split; [done|by right]|].
    destruct (decide (key y = k)) as [<-|Hne].
    - rewrite lookup_insert_eq in Hm. injection Hm as ->. left. split; [done|left].
    - rewrite lookup_insert_ne in Hm by done. by right. }
  intros [?|Hm]%Hgen; [done|]. by rewrite lookup_empty in Hm.
Qed.

Lemma elem_of_insert_by_hours x c l : x ∈ insert_by_hours c l ↔ x = c ∨ x ∈ l.
Proof.
  induction l as [|y l IH]; simpl.
  - by rewrite list_elem_of_singleton, elem_of_nil; tauto.
  - destruct (_ <? _); rewrite !elem_of_cons; [tauto|]. rewrite IH. tauto.
Qed.

Lemma elem_of_sort_by_hours_desc x l : x ∈ sort_by_hours_desc l ↔ x ∈ l.
Proof.
  unfold sort_by_hours_desc.
  assert (∀ acc, x ∈ foldl (λ acc c, insert_by_hours c acc) acc l
                 ↔ x ∈ acc ∨ x ∈ l) as Hgen.
  { induction l as [|y l IH]; intros acc; simpl.
    - rewrite elem_of_nil. tauto.
    - rewrite IH, elem_of_insert_by_hours, elem_of_cons. tauto. }
  rewrite Hgen, elem_of_nil. tauto.
Qed.

Lemma unique_courses_known data assignments c :
  (∀ k x, courses data !! k = Some x → Course.id x = k) →
  c ∈ unique_courses data assignments →
  courses data !! Course.id c = Some c.
Proof.
  intros Hid. unfold unique_courses.
  assert (∀ u : list (Z * Course.t),
            (∀ k x, (k, x) ∈ u → courses data !! Course.id x = Some x) →
            ∀ k x, (k, x) ∈ foldl (λ (u : list (Z * Course.t)) a,
                         let cid := Assignment.course_id a in
                         if Odict.mem cid u then u
                         else match courses data !! cid with
                              | Some course => Odict.set cid course u
                              | None => u
                              end) u assignments →
            courses data !! Course.id x = Some x) as Hgen.
  { induction assignments as [|a l IH]; intros u Hu; simpl; [done|].
    apply IH. destruct (Odict.mem _ u); [done|].
    destruct (courses data !! Assignment.course_id a) as [course|] eqn:E; [|done].
    intros k x [[= -> ->]|Hin]%od_elem_of_set; [|by eapply Hu].
    by rewrite (Hid _ _ E). }
  intros Hc. apply list_elem_of_fmap in Hc as ([k x] & -> & Hin).
  eapply (Hgen []); [|exact Hin]. intros ? ? Hn. by apply elem_of_nil in Hn.
Qed.

Section reach_run.
Context `{Runtime} (data : SchedulingData).
Hypothesis Hid : ∀ k x, courses data !! k = Some x → Course.id x = k.

Lemma place_course_groups_reach course is_english block_durations group_ids
    r st r' st' :
  known_course data course is_english →
  reachable data st →
  place_course_groups data course is_english block_durations group_ids r st
  = Ok (r', st') →
  reachable data st'.
Proof.
  intros Hknown. revert r st.
  induction group_ids as [|g rest IH]; intros r st Hst; simpl.
  - by intros [= <- <-].
  - intros Hd. inv_bind Hd. destruct a as [[b r1] st1].
    eapply IH; [|exact Hd].
    by eapply force_assign_with_displacement_reach.
Qed.

Lemma first_pass_reach assignments english sorted_courses r st r' st' :
  (∀ c, c ∈ sorted_courses → known_course data c (bool_decide (c ∈ english))) →
  reachable data st →
  first_pass data assignments english sorted_courses r st = Ok (r', st') →
  reachable data st'.
Proof.
  revert r st. induction sorted_courses as [|course rest IH];
    intros r st Hknown Hst; simpl.
  - by intros [= <- <-].
  - destruct (calculate_course_blocks course) as [blocks|]; [|discriminate].
    intros Hd. inv_bind Hd. destruct a as [r1 st1].
    eapply IH; [| |exact Hd].
    + intros c Hc. apply Hknown. by right.
    + eapply place_course_groups_reach; [|exact Hst|exact Hbind].
      apply Hknown. left.
Qed.

Lemma verify_group_reach group schedule assignments r st r' st' :
  reachable data st →
  verify_group data group schedule assignments r st = Ok (r', st') →
  reachable data st'.
Proof.
  revert r st. induction assignments as [|a rest IH]; intros r st Hst; simpl.
  - by intros [= <- <-].
  - destruct (bool_decide _); [|by apply IH].
    destruct (courses data !! Assignment.course_id a) as [course|] eqn:E;
      [|by apply IH].
    destruct (_ <? _); [|by apply IH].
    intros Hd. inv_bind Hd. destruct a0 as [[b r1] st1].
    eapply IH; [|exact Hd].
    eapply force_assign_with_displacement_reach; [|exact Hst|exact Hbind].
    split; [|done]. by rewrite (Hid _ _ E).
Qed.

Lemma second_pass_reach assignments groups r st r' st' :
  reachable data st →
  second_pass data assignments groups r st = Ok (r', st') →
  reachable data st'.
Proof.
  revert r st. induction groups as [|group rest IH]; intros r st Hst; simpl.
  - by intros [= <- <-].
  - destruct (Odict.get _ _) as [schedule|]; [|discriminate].
    intros Hd. inv_bind Hd. destruct a as [r1 st1].
    eapply IH; [|exact Hd]. by eapply verify_group_reach.
Qed.

End reach_run.

(** The state at the end of a run is reachable. *)
Lemma run_all_groups_reach `{Runtime} cs rs timeslots profs assignments
    prof_rooms groups r r' st' :
  run_all_groups cs rs timeslots profs assignments prof_rooms groups r
  = Ok (r', st') →
  reachable (SchedulingData_init cs rs timeslots profs assignments prof_rooms)
    st'.
Proof.
  unfold run_all_groups.
  set (data := SchedulingData_init _ _ _ _ _ _).
  assert (∀ k x, courses data !! k = Some x → Course.id x = k) as Hid.
  { intros k x Hk. by apply dict_by_lookup in Hk as [? _]. }
  set (courses_list := unique_courses data assignments).
  set (english := filter _ courses_list).
  intros Hd. inv_bind Hd. destruct a as [r1 st1].
  eapply second_pass_reach; [exact Hid| |exact Hd].
  eapply first_pass_reach; [| |exact Hbind]; [|apply reach_init].
  intros c Hc.
  assert (c ∈ courses_list ∧
          (c ∈ english ↔ is_english_name (Course.name c) = true)) as [Hin Hen].
  { apply elem_of_app in Hc as [Hc|Hc].
    - apply list_elem_of_filter in Hc as Hc'. destruct Hc' as [Hn Hl].
      split; [done|]. split; [done|]. intros _. done.
    - apply elem_of_sort_by_hours_desc, list_elem_of_filter in Hc as [Hn Hl].
      split; [done|]. split; [done|]. intros Hname. exfalso. apply Hn.
      by apply list_elem_of_filter. }
  split.
  - by apply (unique_courses_known data assignments).
  - destruct (is_english_name (Course.name c)) eqn:En.
    + apply bool_decide_eq_true. by apply Hen.
    + apply bool_decide_eq_false. intros Hc'%Hen. done.
Qed.

(** ** The entries that each transaction writes *)

Lemma initial_schedules_empty (groups : list Group.t)
    (acc : list (Z * list (HourId * Entry))) k s :
  (∀ k s, (k, s) ∈ acc → s = []) →
  (k, s) ∈ foldl (λ d g, Odict.set (Group.id g) [] d) acc groups →
  s = [].
Proof.
  revert acc. induction groups as [|x l IH]; intros acc Hacc; simpl.
  - apply Hacc.
  - apply IH. intros k' s' [[= _ ->]|Hin]%od_elem_of_set; [done|].
    by eapply Hacc.
Qed.

Lemma initial_state_no_entry groups g hid e :
  ¬ entry_in (all_schedules (initial_state groups)) g hid e.
Proof.
  intros (sched & Hg & He). simpl in Hg.
  apply initial_schedules_empty in Hg as ->.
  - by apply elem_of_nil in He.
  - intros k s Hin. by apply elem_of_nil in Hin.
Qed.

Lemma blocks_in_group_hours slot_ids schedule key cid hs h :
  (key, (cid, hs)) ∈ blocks_in_group slot_ids schedule → h ∈ hs →
  ∃ e, (hour_id h, e) ∈ schedule ∧ e_slot e = slot_id h
       ∧ e_room e = room_id h ∧ e_slot e ∈ slot_ids
       ∧ block_key_of (hour_id h) = key.
Proof.
  unfold blocks_in_group. revert key cid hs h.
  induction schedule as [|[hid e] l IH] using rev_ind; intros key cid hs h.
  - simpl. intros Hn. by apply elem_of_nil in Hn.
  - rewrite foldl_app. cbn [foldl]. set (blocks := foldl _ [] l) in *.
    assert (∀ key cid hs h, (key, (cid, hs)) ∈ blocks → h ∈ hs →
              ∃ e0, (hour_id h, e0) ∈ l ++ [(hid, e)] ∧ e_slot e0 = slot_id h
                    ∧ e_room e0 = room_id h ∧ e_slot e0 ∈ slot_ids
                    ∧ block_key_of (hour_id h) = key) as IH'.
    { intros k c hs' h' Hb Hh. destruct (IH _ _ _ _ Hb Hh) as (e0 & ? & ?).
      exists e0. split; [|done]. apply elem_of_app. by left. }
    destruct (bool_decide (e_slot e ∈ slot_ids)) eqn:Es; [|by eapply IH'].
    apply bool_decide_eq_true in Es.
    assert (∃ e0, (hid, e0) ∈ l ++ [(hid, e)] ∧ e_slot e0 = e_slot e
                  ∧ e_room e0 = e_room e ∧ e_slot e0 ∈ slot_ids) as Hnew.
    { exists e. split; [|done]. apply elem_of_app. right. left. }
    destruct (Odict.get _ blocks) as [[c0 hs0]|] eqn:Eg.
    + intros [[= -> -> ->]|Hb]%od_elem_of_set; [|by eapply IH'].
      intros [Hh|Hh]%elem_of_app.
      * eapply IH'; [|exact Hh]. by apply od_get_elem_of.
      * apply list_elem_of_singleton in Hh as ->. simpl.
        destruct Hnew as (e0 & ? & ? & ? & ?). by exists e0.
    + intros [[= -> -> ->]|Hb]%od_elem_of_set; [|by eapply IH'].
      intros Hh. apply list_elem_of_singleton in Hh as ->. simpl.
      destruct Hnew as (e0 & ? & ? & ? & ?). by exists e0.
Qed.

Lemma get_conflicting_blocks_spec `{Runtime} slot_ids g all data c :
  c ∈ get_conflicting_blocks slot_ids g all data →
  c_course c = courses data !! c_course_id c
  ∧ c_is_english c = english_id data (c_course_id c)
  ∧ ∀ h, h ∈ hours c →
      ∃ e, entry_in all (c_group_id c) (hour_id h) e
           ∧ e_slot e = slot_id h ∧ e_room e = room_id h
           ∧ e_slot e ∈ slot_ids ∧ block_key_of (hour_id h) = block_key c.
Proof.
  unfold get_conflicting_blocks. intros Hc.
  apply list_elem_of_In, in_flat_map in Hc as ([og sched] & Hin & Hc).
  apply list_elem_of_In in Hin, Hc.
  apply list_elem_of_fmap in Hc as ([key [cid hs]] & -> & Hb).
  unfold conflict_of, english_id. simpl. split; [done|]. split; [done|].
  intros h Hh. destruct (blocks_in_group_hours _ _ _ _ _ _ Hb Hh)
    as (e & He & ? & ? & ? & ?).
  exists e. split; [|done]. by exists sched.
Qed.

Lemma place_block_entries st group_id course block pos day st' :
  place_block st group_id course block pos day = Ok st' →
  ∀ g hid e, entry_in (all_schedules st') g hid e →
    (g = group_id ∧ e_room e = pos_room_id pos ∧ e_course e = Course.id course
     ∧ ∃ i, pos_slot_ids pos !! i = Some (e_slot e)
            ∧ hid = mkHourId group_id (Course.id course) block i)
    ∨ entry_in (all_schedules st) g hid e.
Proof.
  unfold place_block. intros Hd. inv_bind Hd.
  apply write_block_inv in Hbind as (_ & _ & He).
  injection Hd as <-. simpl. intros g hid e Hin.
  apply He in Hin as [(-> & _ & ? & ? & i & ? & ->)|Hin]; [left|by right].
  repeat split; try done. by exists i.
Qed.

Lemma relocate_on_days_entries `{Runtime} data course g cid duration
    is_english fixed_hour days r st r' st' :
  relocate_on_days data course g cid duration is_english fixed_hour days r st
  = Ok (Some (r', st')) →
  ∀ g' hid e, entry_in (all_schedules st') g' hid e →
    (g' = g ∧ e_course e = cid
     ∧ ∃ pos day i block,
         valid_position data st g course duration day is_english fixed_hour pos
         ∧ e_room e = pos_room_id pos
         ∧ pos_slot_ids pos !! i = Some (e_slot e)
         ∧ hid = mkHourId g cid block i)
    ∨ entry_in (all_schedules st) g' hid e.
Proof.
  induction days as [|day rest IH]; simpl; [discriminate|].
  destruct (bool_decide _ && bool_decide _); [exact IH|].
  intros Hd. inv_bind Hd. destruct a as [|p ps] eqn:Ea; [by apply IH|].
  rewrite <- Ea in *. clear Ea.
  inv_bind Hd. destruct a0 as [pos r1].
  destruct (randint 1000 9999 r1) as [suffix r2].
  inv_bind Hd. apply write_block_inv in Hbind1 as (_ & _ & He).
  injection Hd as <- <-. simpl. intros g' hid e Hin.
  apply He in Hin as [(-> & _ & ? & ? & i & ? & ->)|Hin]; [left|by right].
  split; [done|]. split; [done|]. exists pos, day, i, suffix.
  split; [|done].
  eapply find_all_valid_positions_valid; eauto using choice_elem_of.
Qed.

Lemma try_relocate_block_entries `{Runtime} c data r st moved r' st' :
  try_relocate_block c data r st = Ok (moved, r', st') →
  ∀ g hid e, entry_in (all_schedules st') g hid e →
    entry_in (all_schedules st) g hid e
    ∨ (g = c_group_id c
       ∧ ∃ h, h ∈ hours c ∧ hid = hour_id h
              ∧ e = mkEntry (slot_id h) (room_id h) (c_course_id c))
    ∨ (g = c_group_id c ∧ e_course e = c_course_id c
       ∧ ∃ course st2 pos day i block fixed_hour,
           c_course c = Some course
           ∧ valid_position data st2 g course
               (Z.of_nat (length (hours c))) day (c_is_english c) fixed_hour pos
           ∧ e_room e = pos_room_id pos
           ∧ pos_slot_ids pos !! i = Some (e_slot e)
           ∧ hid = mkHourId g (c_course_id c) block i).
Proof.
  unfold try_relocate_block.
  destruct (c_course c) as [course|] eqn:Ec; [|intros [= <- <- <-]; by left].
  destruct (negb _); [intros [= <- <- <-]; by left|].
  destruct (hours c) as [|h0 hs] eqn:Eh; [discriminate|]. rewrite <- Eh in *.
  intros Hd. inv_bind Hd. apply delete_hours_inv in Hbind as (_ & _ & Hdel).
  destruct (shuffle _ r) as [days r1].
  inv_bind Hd. destruct a0 as [[r2 st3]|].
  - injection Hd as <- <- <-. intros g hid e Hin.
    eapply relocate_on_days_entries in Hin as [(-> & ? & pos & day & i & b & ? & ? & ? & ->)|Hin];
      [| |exact Hbind].
    + right. right. split; [done|]. split; [done|].
      by eexists course, _, pos, day, i, b, _.
    + left. by apply Hdel.
  - inv_bind Hd. apply restore_hours_inv in Hbind0 as (_ & _ & Hres).
    injection Hd as <- <- <-. simpl. intros g hid e Hin.
    apply Hres in Hin as [(-> & h & ? & -> & ->)|Hin].
    + right. left. split; [done|]. by exists h.
    + left. by apply Hdel.
Qed.

(** ** The positions of a language course *)

Lemma slot_at_hour_spec day_slots hour s :
  slot_at_hour day_slots hour = Some s →
  s ∈ day_slots ∧ TimeSlot.start_time s = hour.
Proof.
  unfold slot_at_hour. intros Hf. apply find_some in Hf as [Hin Hb].
  split; [by apply list_elem_of_In|]. by apply bool_decide_eq_true in Hb.
Qed.

Lemma english_positions_spec data st check prof_id room g days hour ps :
  english_positions data st check prof_id room g days hour = Ok (Some ps) →
  Forall2 (english_position data st prof_id room g hour) days ps.
Proof.
  revert ps. induction days as [|day rest IH]; intros ps; simpl.
  - intros [= <-]. constructor.
  - destruct (Odict.get day _) as [day_slots|] eqn:Ed; [|discriminate].
    destruct (slot_at_hour _ _) as [slot|] eqn:Es; [|discriminate].
    destruct (check && negb _); [discriminate|].
    destruct (negb (can_assign_professor _ _ _)) eqn:E1; [discriminate|].
    destruct (negb (can_assign_group _ _ _)) eqn:E2; [discriminate|].
    destruct (negb (is_room_available _ _ _)) eqn:E3; [discriminate|].
    apply negb_false_iff in E1, E2, E3.
    intros Hd. inv_bind Hd. destruct a as [l|]; simpl in Hd; [|discriminate].
    injection Hd as <-. constructor; [|by apply IH].
    split; [done|]. split; [by exists day_slots|done].
Qed.

Lemma commit_english_inv st g course prof_id room block_num ps st' :
  commit_english st g course prof_id room block_num ps = Ok st' →
  course_fixed_hour (tracker st') = course_fixed_hour (tracker st)
  ∧ ∀ g' hid e, entry_in (all_schedules st') g' hid e →
      (g' = g
       ∧ ∃ i d s, ps !! i = Some (d, s)
                  ∧ hid = mkHourId g (Course.id course)
                            (block_num + Z.of_nat i) 0
                  ∧ e = mkEntry (TimeSlot.id s) room (Course.id course))
      ∨ entry_in (all_schedules st) g' hid e.
Proof.
  revert st block_num. induction ps as [|[d s] rest IH]; intros st bn; simpl.
  - intros [= <-]. split; [done|]. by right.
  - intros Hd. inv_bind Hd. apply write_entry_inv in Hbind as (_ & Ht & He).
    apply IH in Hd as [Hf Hrest]. simpl in Hf. split; [by rewrite Hf, Ht|].
    intros g' hid e Hin.
    apply Hrest in Hin as [(-> & i & d' & s' & ? & -> & ->)|Hin].
    + left. split; [done|]. exists (S i), d', s'. split; [done|].
      split; [|done]. f_equal. lia.
    + simpl in Hin. apply He in Hin as [(-> & -> & ->)|Hin]; [|by right].
      left. split; [done|]. exists O, d, s. split; [done|].
      split; [|done]. f_equal. lia.
Qed.

Lemma commit_if_complete_inv st g course prof_id room n fixed_hour hour
    found st' :
  commit_if_complete st g course prof_id room n fixed_hour hour found
  = Ok (Some st') →
  ∃ ps st1,
    found = Some ps ∧ length ps = n
    ∧ commit_english st g course prof_id room 1 ps = Ok st1
    ∧ st' = (if negb (truthy_str fixed_hour)
             then with_tracker st1
                    (set_fixed_hour_for_course (tracker st1) g
                       (Course.id course) hour)
             else st1).
Proof.
  unfold commit_if_complete. destruct found as [ps|]; [|discriminate].
  destruct (bool_decide _) eqn:El; [|discriminate].
  apply bool_decide_eq_true in El.
  intros Hd. inv_bind Hd. injection Hd as <-. by exists ps, a.
Qed.

(** ** The window of the placed slots *)

Lemma slots_in_window_entries timeslots all :
  slots_in_window timeslots all ↔
  ∀ g hid e, entry_in all g hid e →
    ∃ s, s ∈ timeslots ∧ TimeSlot.id s = e_slot e ∧ in_window s = true.
Proof.
  assert (∀ s, in_window s = true ↔
               String.leb "17:00" (TimeSlot.start_time s) = true
               ∧ String.ltb (TimeSlot.start_time s) "22:00" = true) as Hw.
  { intros s. unfold in_window. apply andb_true_iff. }
  split.
  - intros Hall g hid e (sched & Hg & He).
    destruct (Hall _ _ _ _ Hg He) as (s & ? & ? & ? & ?).
    exists s. by rewrite Hw.
  - intros Hall g sched hid e Hg He.
    destruct (Hall g hid e) as (s & ? & ? & [? ?]%Hw); [by exists sched|].
    by exists s.
Qed.

Lemma position_slot_in_window timeslots data st g course duration day
    is_english fixed_hour pos i slot :
  index_ok timeslots data →
  valid_position data st g course duration day is_english fixed_hour pos →
  pos_slot_ids pos !! i = Some slot →
  ∃ s, s ∈ timeslots ∧ TimeSlot.id s = slot ∧ in_window s = true
       ∧ TimeSlot.day s = day ∧ pos_slots pos !! i = Some s.
Proof.
  intros Hok Hv Hi. rewrite (vp_ids _ _ _ _ _ _ _ _ _ Hv) in Hi.
  apply list_lookup_fmap_Some in Hi as (s & -> & Hs).
  destruct (valid_position_slots _ _ _ _ _ _ _ _ _ _ Hok Hv s) as (? & ? & ?).
  { by eapply list_elem_of_lookup_2. }
  exists s. repeat split; done.
Qed.

Lemma english_position_slot timeslots data st prof_id room g hour days ps
    i d s :
  index_ok timeslots data →
  Forall2 (english_position data st prof_id room g hour) days ps →
  ps !! i = Some (d, s) →
  days !! i = Some d
  ∧ s ∈ timeslots ∧ in_window s = true ∧ TimeSlot.day s = d
  ∧ TimeSlot.start_time s = hour.
Proof.
  intros Hok Hall Hi.
  destruct (Forall2_lookup_r _ _ _ _ _ Hall Hi)
    as (day & Hday & Hd & (day_slots & Hg & Hs) & _).
  simpl in *. subst day. apply slot_at_hour_spec in Hs as [Hin Hh].
  destruct (Hok _ _ _ Hg Hin) as (? & ? & ?). done.
Qed.

Lemma reachable_slots_in_window `{Runtime} timeslots data st :
  index_ok timeslots data →
  reachable data st →
  slots_in_window timeslots (all_schedules st).
Proof.
  intros Hok Hst. apply slots_in_window_entries.
  induction Hst as
    [groups
    |st0 slot_ids g c st r moved r' st' Hst0 IH0 Hc Hne Hst IH Hrel
    |course g is_english duration day st positions pos block_num st1 fh st2
       Hknown Hgen Hst IH Hfind Hpos Hplace Hrec
    |course g st check prof_id room days hour found n st'
       Hknown Hmax Hst IH Hhour Hfound Hcommit];
    intros g' hid e Hin.
  - by apply initial_state_no_entry in Hin.
  - eapply try_relocate_block_entries in Hin as [Hin|[Hin|Hin]]; [| | |exact Hrel].
    + by eapply IH.
    + destruct Hin as (-> & h & Hh & -> & ->). simpl.
      apply get_conflicting_blocks_spec in Hc as (_ & _ & Hhours).
      destruct (Hhours h Hh) as (e0 & He0 & <- & _).
      by eapply IH0.
    + destruct Hin as (-> & _ & course & st2 & pos & day & i & b & fh & _ & Hv & _ & Hi & _).
      destruct (position_slot_in_window _ _ _ _ _ _ _ _ _ _ _ _ Hok Hv Hi)
        as (s & ? & ? & ? & _).
      by exists s.
  - assert (all_schedules st2 = all_schedules st1) as Heq.
    { unfold record_fixed_hour in Hrec.
      destruct (_ && negb _); by injection Hrec as <- <-. }
    rewrite Heq in Hin.
    eapply place_block_entries in Hin as [(-> & _ & _ & i & Hi & _)|Hin];
      [| |exact Hplace]; [|by eapply IH].
    pose proof (find_all_valid_positions_valid _ _ _ _ _ _ _ _ _ _ Hfind Hpos)
      as Hv.
    destruct (position_slot_in_window _ _ _ _ _ _ _ _ _ _ _ _ Hok Hv Hi)
      as (s & ? & ? & ? & _).
    by exists s.
  - apply commit_if_complete_inv in Hcommit as (ps & st1 & -> & _ & Hce & ->).
    apply commit_english_inv in Hce as (_ & He).
    assert (entry_in (all_schedules st1) g' hid e) as Hin1.
    { by destruct (negb _). }
    apply He in Hin1 as [(-> & i & d & s & Hi & -> & ->)|Hin1]; [|by eapply IH].
    apply english_positions_spec in Hfound.
    destruct (english_position_slot _ _ _ _ _ _ _ _ _ _ _ _ Hok Hfound Hi)
      as (_ & ? & ? & _).
    by exists s.
Qed.

(** C7.  In every state reached during a run, and in the schedule map that
    a run returns, every timeslot id is the id of an input timeslot whose
    start time is at least ["17:00"] and below ["22:00"]. *)
Theorem placed_slots_in_window `{Runtime} cs rs timeslots profs assignments
    prof_rooms :
  (∀ st,
     reachable
       (SchedulingData_init cs rs timeslots profs assignments prof_rooms) st →
     slots_in_window timeslots (all_schedules st))
  ∧ (∀ groups r out,
       generate_schedule_for_all_groups cs rs timeslots profs assignments
         prof_rooms groups r = Ok out →
       slots_in_window timeslots out).
Proof.
  split.
  - intros st Hst. eapply reachable_slots_in_window; [|exact Hst].
    apply index_ok_init.
  - intros groups r out. unfold generate_schedule_for_all_groups.
    intros Hd. inv_bind Hd. destruct a as [r' st']. injection Hd as <-.
    eapply reachable_slots_in_window; [apply index_ok_init|].
    by eapply run_all_groups_reach.
Qed.

Lemma placed_slots_in_window_witness :
  slots_in_window (week_slots 5) ex_schedules.
Proof.
  apply (proj2 (placed_slots_in_window (H := tape_runtime) ex_courses []
                  (week_slots 5) ex_professors ex_assignments
                  ex_professor_rooms) ex_groups ex_tape ex_schedules).
  vm_compute. reflexivity.
Defined.

(** ** The fixed hour of a language course *)

Lemma in_window_nonempty s : in_window s = true → TimeSlot.start_time s ≠ "".
Proof.
  unfold in_window. intros Hw Hs. rewrite Hs in Hw. discriminate.
Qed.

Lemma truthy_str_false_Some hour :
  truthy_str (Some hour) = false → hour = "".
Proof.
  simpl. intros Hh. apply negb_false_iff in Hh. by apply String.eqb_eq.
Qed.

Lemma english_id_known `{Runtime} data course is_english :
  known_course data course is_english →
  english_id data (Course.id course) = is_english.
Proof. intros [Hc ->]. unfold english_id. by rewrite Hc. Qed.

Section fixed_hour.
Context `{Runtime} (timeslots : list TimeSlot.t) (data : SchedulingData).
Hypothesis Hok : index_ok timeslots data.

(** No language block of the pair is placed while no fixed hour is
    recorded for it. *)
Lemma no_entry_without_fixed_hour st g hid e :
  fixed_hour_honored timeslots data st →
  entry_in (all_schedules st) g hid e →
  english_id data (e_course e) = true →
  h_index hid = O →
  truthy_str (get_fixed_hour_for_course (tracker st) g (e_course e)) = true.
Proof.
  intros Hinv Hin Hen Hidx.
  destruct (Hinv _ _ _ Hin Hen) as [_ Hh].
  destruct (Hh Hidx) as (hour & s & -> & _ & _ & Hw & Hs).
  simpl. apply negb_true_iff, String.eqb_neq. rewrite <- Hs.
  by apply in_window_nonempty.
Qed.

Lemma fixed_hour_honored_same_hours st st' :
  course_fixed_hour (tracker st') = course_fixed_hour (tracker st) →
  fixed_hour_honored timeslots data st →
  ∀ g hid e,
    entry_in (all_schedules st) g hid e →
    english_id data (e_course e) = true →
    (∀ c, courses data !! e_course e = Some c →
          Course.max_block_duration c = 1 → h_index hid = O)
    ∧ (h_index hid = O →
       ∃ hour s,
         get_fixed_hour_for_course (tracker st') g (e_course e) = Some hour
         ∧ s ∈ timeslots ∧ TimeSlot.id s = e_slot e ∧ in_window s = true
         ∧ TimeSlot.start_time s = hour).
Proof.
  intros Hf Hinv g hid e Hin Hen. unfold get_fixed_hour_for_course.
  rewrite Hf. by apply Hinv.
Qed.

(** Recording the hour of a pair that had none keeps the property for the
    entries that were there. *)
Lemma fixed_hour_honored_set st g cid hour g' hid e :
  fixed_hour_honored timeslots data st →
  truthy_str (get_fixed_hour_for_course (tracker st) g cid) = false →
  entry_in (all_schedules st) g' hid e →
  english_id data (e_course e) = true →
  (∀ c, courses data !! e_course e = Some c →
        Course.max_block_duration c = 1 → h_index hid = O)
  ∧ (h_index hid = O →
     ∃ hour' s,
       <[(g, cid) := hour]> (course_fixed_hour (tracker st))
         !! (g', e_course e) = Some hour'
       ∧ s ∈ timeslots ∧ TimeSlot.id s = e_slot e ∧ in_window s = true
       ∧ TimeSlot.start_time s = hour').
Proof.
  intros Hinv Hnone Hin Hen. destruct (Hinv _ _ _ Hin Hen) as [Hone Hh].
  split; [done|]. intros Hidx.
  destruct (decide ((g, cid) = (g', e_course e))) as [[= -> ->]|Hne].
  - pose proof (no_entry_without_fixed_hour _ _ _ _ Hinv Hin Hen Hidx).
    congruence.
  - rewrite lookup_insert_ne by done. by apply Hh.
Qed.

Lemma reachable_fixed_hour_honored st :
  reachable data st → fixed_hour_honored timeslots data st.
Proof.
  intros Hst.
  induction Hst as
    [groups
    |st0 slot_ids g c st r moved r' st' Hst0 IH0 Hc Hne Hst IH Hrel
    |course g is_english duration day st positions pos block_num st1 fh st2
       Hknown Hgen Hst IH Hfind Hpos Hplace Hrec
    |course g st check prof_id room days hour found n st'
       Hknown Hmax Hst IH Hhour Hfound Hcommit];
    intros g' hid e Hin Hen.
  - by apply initial_state_no_entry in Hin.
  - apply get_conflicting_blocks_spec in Hc as (_ & Hce & _).
    pose proof (try_relocate_block_fixed_hours _ _ _ _ _ _ _ Hrel) as Hf.
    eapply try_relocate_block_entries in Hin as [Hin|[Hin|Hin]];
      [| | |exact Hrel].
    + by eapply fixed_hour_honored_same_hours.
    + destruct Hin as (_ & h & _ & _ & ->). simpl in Hen. congruence.
    + destruct Hin as (_ & Hcid & _). rewrite Hcid in Hen. congruence.
  - pose proof (find_all_valid_positions_valid _ _ _ _ _ _ _ _ _ _ Hfind Hpos)
      as Hv.
    pose proof (place_block_fixed_hours _ _ _ _ _ _ _ Hplace) as Hf.
    pose proof (english_id_known _ _ _ Hknown) as Hke.
    unfold record_fixed_hour in Hrec.
    destruct (is_english && negb (truthy_str _)) eqn:Ecase;
      injection Hrec as <- <-; simpl in *.
    + apply andb_true_iff in Ecase as [-> Hnt%negb_true_iff].
      eapply place_block_entries in Hin as [(-> & _ & Hcid & i & Hi & ->)|Hin];
        [| |exact Hplace].
      * rewrite Hcid. split.
        { intros c Hc Hc1. destruct Hknown as [Hk _]. rewrite Hk in Hc.
          injection Hc as <-. rewrite bool_decide_eq_true_2 in Hgen; done. }
        simpl. intros ->. unfold get_fixed_hour_for_course. simpl.
        rewrite lookup_insert_eq.
        destruct (position_slot_in_window _ _ _ _ _ _ _ _ _ _ _ _ Hok Hv Hi)
          as (s & ? & ? & ? & _ & Hs0).
        destruct (vp_first _ _ _ _ _ _ _ _ _ Hv) as (first & rest & Hps & Hfh).
        rewrite Hps in Hs0. injection Hs0 as ->.
        exists (pos_first_hour pos), s. by rewrite Hfh.
      * unfold get_fixed_hour_for_course. simpl. rewrite Hf.
        by apply fixed_hour_honored_set.
    + eapply place_block_entries in Hin as [(-> & _ & Hcid & i & Hi & ->)|Hin];
        [| |exact Hplace]; [|by eapply fixed_hour_honored_same_hours].
      rewrite Hcid in *. rewrite Hke in Hen. subst is_english.
      simpl in Ecase. apply negb_false_iff in Ecase.
      split.
      { intros c Hc Hc1. destruct Hknown as [Hk _]. rewrite Hk in Hc.
        injection Hc as <-. rewrite bool_decide_eq_true_2 in Hgen; done. }
      simpl. intros ->.
      pose proof (vp_fixed _ _ _ _ _ _ _ _ _ Hv eq_refl Ecase) as Hfixed.
      unfold fixed_hour_of in Hfixed.
      unfold get_fixed_hour_for_course in *. rewrite Hf, Hfixed.
      destruct (position_slot_in_window _ _ _ _ _ _ _ _ _ _ _ _ Hok Hv Hi)
        as (s & ? & ? & ? & _ & Hs0).
      destruct (vp_first _ _ _ _ _ _ _ _ _ Hv) as (first & rest & Hps & Hfh).
      rewrite Hps in Hs0. injection Hs0 as ->.
      exists (pos_first_hour pos), s. by rewrite Hfh.
  - apply commit_if_complete_inv in Hcommit as (ps & st1 & -> & _ & Hce & ->).
    apply commit_english_inv in Hce as (Hf & He).
    apply english_positions_spec in Hfound.
    assert (∀ i d s, ps !! i = Some (d, s) →
              s ∈ timeslots ∧ in_window s = true
              ∧ TimeSlot.start_time s = hour) as Hslot.
    { intros i d s Hi.
      destruct (english_position_slot _ _ _ _ _ _ _ _ _ _ _ _ Hok Hfound Hi)
        as (_ & ? & ? & _ & ?). done. }
    destruct (truthy_str _) eqn:Et; simpl in *.
    + apply He in Hin as [(-> & i & d & s & Hi & -> & ->)|Hin];
        [|by eapply fixed_hour_honored_same_hours].
      simpl. split; [done|]. intros _.
      unfold get_fixed_hour_for_course in *. rewrite Hf, (Hhour eq_refl).
      destruct (Hslot _ _ _ Hi) as (? & ? & ?). by exists hour, s.
    + apply He in Hin as [(-> & i & d & s & Hi & -> & ->)|Hin].
      * simpl. split; [done|]. intros _.
        unfold get_fixed_hour_for_course. simpl. rewrite lookup_insert_eq.
        destruct (Hslot _ _ _ Hi) as (? & ? & ?). by exists hour, s.
      * unfold get_fixed_hour_for_course. simpl. rewrite Hf.
        by apply fixed_hour_honored_set.
Qed.

Lemma fixed_hour_honored_same_start st :
  fixed_hour_honored timeslots data st →
  same_start_hour timeslots data (all_schedules st).
Proof.
  intros Hinv g hid1 e1 hid2 e2 c Hin1 Hin2 Hcid Hc Hname Hcase.
  assert (english_id data (e_course e1) = true) as Hen1.
  { unfold english_id. by rewrite Hc. }
  assert (english_id data (e_course e2) = true) as Hen2 by by rewrite <- Hcid.
  destruct (Hinv _ _ _ Hin1 Hen1) as [Hone1 Hh1].
  destruct (Hinv _ _ _ Hin2 Hen2) as [Hone2 Hh2].
  assert (h_index hid1 = O ∧ h_index hid2 = O) as [Hi1 Hi2].
  { destruct Hcase as [?|Hmax]; [done|]. split.
    - by eapply Hone1.
    - eapply Hone2; [|exact Hmax]. by rewrite <- Hcid. }
  destruct (Hh1 Hi1) as (hour1 & s1 & Hf1 & ? & ? & _ & ?).
  destruct (Hh2 Hi2) as (hour2 & s2 & Hf2 & ? & ? & _ & ?).
  rewrite <- Hcid, Hf1 in Hf2. injection Hf2 as <-.
  exists s1, s2. repeat split; try done. congruence.
Qed.

End fixed_hour.

(** C6, as amended.  In every state reached during a run, every placed
    hour of a (group, language-course) pair that is stored under an hour
    identifier of index 0, the identifier of the first hour that a
    placement writes, is a timeslot of the window that starts at the hour
    the tracker holds for the pair; a language course with
    [max_block_duration = 1] has hours of index 0 only, so that all its
    placed hours start at that hour.  In the schedule map that a run
    returns, two such hours of a pair start at one clock hour.  Nothing is
    said of the hours of index 1 and more: they start later, and they stay
    where they are when a fill of the verification pass overwrites the hour
    of index 0 of their block (lemma
    [verification_fill_overwrites_first_hour]). *)
Theorem language_course_fixed_hour `{Runtime} cs rs timeslots profs
    assignments prof_rooms :
  let data :=
    SchedulingData_init cs rs timeslots profs assignments prof_rooms in
  (∀ st, reachable data st → fixed_hour_honored timeslots data st)
  ∧ (∀ groups r out,
       generate_schedule_for_all_groups cs rs timeslots profs assignments
         prof_rooms groups r = Ok out →
       same_start_hour timeslots data out).
Proof.
  intros data. split.
  - intros st Hst. apply reachable_fixed_hour_honored; [|done].
    apply index_ok_init.
  - intros groups r out. unfold generate_schedule_for_all_groups.
    intros Hd. inv_bind Hd. destruct a as [r' st']. injection Hd as <-.
    apply fixed_hour_honored_same_start.
    apply reachable_fixed_hour_honored; [apply index_ok_init|].
    by eapply run_all_groups_reach.
Qed.

Lemma language_course_fixed_hour_witness :
  same_start_hour (H := tape_runtime) (week_slots 5)
    (SchedulingData_init ex_courses [] (week_slots 5) ex_professors
       ex_assignments ex_professor_rooms)
    ex_schedules.
Proof.
  apply (proj2 (language_course_fixed_hour (H := tape_runtime) ex_courses []
                  (week_slots 5) ex_professors ex_assignments
                  ex_professor_rooms) ex_groups ex_tape ex_schedules).
  vm_compute. reflexivity.
Defined.

(** C6 as stated fails: a language course that may be given in a block of
    two hours gets the slots of 17:00 and 18:00 of one day. *)
Lemma language_course_two_hours :
  generate_schedule_for_all_groups (H := tape_runtime) ex_long_english []
    (week_slots 5) ex_professors ex_long_assignments ex_professor_rooms
    ex_groups [] = Ok ex_long_schedules
  ∧ is_english_name (H := tape_runtime) "Inglés" = true
  ∧ ¬ all_hours_at_one_hour (week_slots 5) ex_long_schedules 1 1.
Proof.
  split; [vm_compute; reflexivity|]. split; [vm_compute; reflexivity|].
  intros (hour & Hall).
  assert (entry_in ex_long_schedules 1 (mkHourId 1 1 1 0) (mkEntry 2017 100 1))
    as Hin0.
  { eexists. split; [left|]. left. }
  assert (entry_in ex_long_schedules 1 (mkHourId 1 1 1 1) (mkEntry 2018 100 1))
    as Hin1.
  { eexists. split; [left|]. right. left. }
  pose proof (Hall _ _ (TimeSlot.mk 2017 "Martes" "17:00:00" "18:00:00")
                Hin0 eq_refl) as H0.
  pose proof (Hall _ _ (TimeSlot.mk 2018 "Martes" "18:00:00" "19:00:00")
                Hin1 eq_refl) as H1.
  assert (hour = "17:00:00") as E0.
  { symmetry. apply H0; [|done]. apply list_elem_of_In. vm_compute. tauto. }
  assert (hour = "18:00:00") as E1.
  { symmetry. apply H1; [|done]. apply list_elem_of_In. vm_compute. tauto. }
  congruence.
Qed.

(** The verification pass numbers its fills from 1.  The first pass places
    block 1 on Monday at 17:00 and 18:00 and finds no place for block 2;
    the two one-hour fills of the second pass are written as blocks 1 and
    2, and the first overwrites the hour of index 0 of block 1: the hour of
    18:00 on Monday stays, under index 1, while the fixed hour is 17:00. *)
Lemma verification_fill_overwrites_first_hour :
  generate_schedule_for_all_groups (H := tape_runtime) ex_fill_english []
    (week_slots 3) ex_fill_professors ex_long_assignments ex_professor_rooms
    ex_groups [] = Ok ex_fill_schedules.
Proof. vm_compute. reflexivity. Qed.

(** ** Consecutive days *)

Lemma index_of_lookup (d : string) (l : list string) :
  d ∈ l → l !! index_of d l = Some d.
Proof.
  induction l as [|x l IH]; simpl; [by intros ?%elem_of_nil|].
  destruct (decide (d = x)) as [->|Hne]; [done|].
  intros [?|Hin]%elem_of_cons; [done|]. by apply IH.
Qed.

(** A list of days of the week whose positions go up by one is a run of
    the week. *)
Lemma steps_of_one_run (l : list string) a rest :
  (∀ d, d ∈ a :: rest → d ∈ l) →
  steps_of_one (map (λ d, index_of d l) (a :: rest)) = true →
  a :: rest = take (S (length rest)) (drop (index_of a l) l).
Proof.
  revert a. induction rest as [|b rest IH]; intros a Hin.
  - intros _. rewrite (drop_S _ a); [done|]. apply index_of_lookup, Hin. left.
  - cbn [map steps_of_one]. intros [Hstep Hrest]%andb_true_iff.
    apply bool_decide_eq_true in Hstep.
    rewrite (drop_S _ a) by (apply index_of_lookup, Hin; left).
    cbn [take length]. f_equal.
    replace (S (index_of a l)) with (index_of b l) by lia.
    apply IH; [|exact Hrest]. intros d Hd. apply Hin. by right.
Qed.

Lemma day_order_NoDup : NoDup day_order.
Proof. by apply (bool_decide_unpack _). Qed.

Lemma get_consecutive_day_sequences_spec days_list n days :
  days ∈ get_consecutive_day_sequences days_list n →
  consecutive_days days n ∧ NoDup days.
Proof.
  unfold get_consecutive_day_sequences.
  set (available := filter (λ d, d ∈ days_list) day_order).
  intros Hd. apply list_elem_of_In, in_flat_map in Hd as (i & Hi & Hd).
  apply in_seq in Hi as [_ Hi]. simpl in Hi.
  destruct (steps_of_one _) eqn:Est; [|by destruct Hd].
  destruct Hd as [<-|[]].
  assert (length (take n (drop i available)) = n) as Hlen.
  { rewrite length_take, length_drop. lia. }
  assert (consecutive_days (take n (drop i available)) n) as Hcons.
  { destruct (take n (drop i available)) as [|a rest] eqn:Et.
    - simpl in Hlen. subst n. by exists O.
    - exists (index_of a day_order). split; [|done].
      rewrite <- Hlen. cbn [length]. apply steps_of_one_run; [|done].
      intros d Hd. rewrite <- Et in Hd.
      apply subseteq_take, subseteq_drop in Hd.
      by apply list_elem_of_filter in Hd as [_ ?]. }
  split; [done|]. destruct Hcons as (j & -> & _).
  eapply sublist_NoDup; [apply day_order_NoDup|].
  etrans; [apply sublist_take|apply sublist_drop].
Qed.

(** ** The language-course placer succeeds only by a commit *)

Section english_success.
Context `{Runtime} (data : SchedulingData).
Context (course : Course.t) (group_id prof_id room : Z) (num_blocks : nat)
  (fixed_hour : option string).

Notation committed :=
  (english_committed data course prof_id room group_id num_blocks fixed_hour).

Lemma english_committed_mono (l1 l2 : list (list string)) st' :
  (∀ days, days ∈ l1 → days ∈ l2) → committed l1 st' → committed l2 st'.
Proof.
  intros Hsub (st_mid & check & days & hour & found & Hd & Hp & Hc).
  exists st_mid, check, days, hour, found. auto.
Qed.

Lemma english_try_hours_success st days hours_to_try st' :
  english_try_hours data st course prof_id room group_id num_blocks
    fixed_hour days hours_to_try = Ok (Some st') →
  committed [days] st'.
Proof.
  induction hours_to_try as [|hour rest IH]; simpl; [discriminate|].
  intros Hd. inv_bind Hd. inv_bind Hd. destruct a0 as [st1|]; [|by apply IH].
  injection Hd as <-. exists st, true, days, hour, a.
  split; [left|done].
Qed.

Lemma english_direct_success sequences hours_prev r st st' hours r' :
  english_direct data course prof_id room group_id num_blocks fixed_hour
    sequences hours_prev r st = Ok (Some st', hours, r') →
  committed sequences st'.
Proof.
  revert hours_prev r. induction sequences as [|days rest IH];
    intros hours_prev r; simpl; [discriminate|].
  intros Hd. inv_bind Hd. destruct (shuffle _ r) as [shuffled r1].
  inv_bind Hd. destruct a0 as [st1|].
  - injection Hd as <- <- <-. apply english_try_hours_success in Hbind0.
    eapply english_committed_mono; [|exact Hbind0].
    intros d ->%list_elem_of_singleton. left.
  - apply IH in Hd. eapply english_committed_mono; [|exact Hd].
    intros d Hin. by right.
Qed.

Lemma english_displace_step_success days hour r st r' st' :
  english_displace_step data course prof_id room group_id num_blocks
    fixed_hour days hour r st = Ok (true, r', st') →
  committed [days] st'.
Proof.
  unfold english_displace_step. intros Hd. inv_bind Hd.
  destruct a as [[|c cs]|]; try discriminate.
  inv_bind Hd. destruct a as [[all_moved r1] st1].
  destruct all_moved; [|discriminate].
  inv_bind Hd. inv_bind Hd. destruct a0 as [st2|]; [|discriminate].
  injection Hd as <- <-. exists st1, false, days, hour, a.
  split; [left|done].
Qed.

Lemma english_displace_hours_success days target_hours r st r' st' :
  english_displace_hours data course prof_id room group_id num_blocks
    fixed_hour days target_hours r st = Ok (true, r', st') →
  committed [days] st'.
Proof.
  revert r st. induction target_hours as [|hour rest IH]; intros r st; simpl;
    [discriminate|].
  intros Hd. inv_bind Hd. destruct a as [[p r1] st1]. destruct p.
  - injection Hd as <- <-. by eapply english_displace_step_success.
  - by eapply IH.
Qed.

Lemma english_displace_success sequences hours_to_try r st r' st' :
  english_displace data course prof_id room group_id num_blocks fixed_hour
    sequences hours_to_try r st = Ok (true, r', st') →
  committed sequences st'.
Proof.
  revert r st. induction sequences as [|days rest IH]; intros r st; simpl;
    [discriminate|].
  intros Hd. inv_bind Hd. destruct a as [[p r1] st1]. destruct p.
  - injection Hd as <- <-. apply english_displace_hours_success in Hbind.
    eapply english_committed_mono; [|exact Hbind].
    intros d ->%list_elem_of_singleton. left.
  - apply IH in Hd. eapply english_committed_mono; [|exact Hd].
    intros d Hin. by right.
Qed.

Lemma english_attempts_success sequences max_attempts r st r' st' :
  english_attempts data course prof_id room group_id num_blocks fixed_hour
    sequences max_attempts r st = Ok (true, r', st') →
  committed sequences st'.
Proof.
  revert r st. induction max_attempts as [|n IH]; intros r st; simpl;
    [discriminate|].
  intros Hd. inv_bind Hd. destruct a as [[direct hours] r1].
  destruct direct as [st1|].
  - injection Hd as <- <-. by eapply english_direct_success.
  - inv_bind Hd. destruct a as [[p r2] st2]. destruct p.
    + injection Hd as <- <-. by eapply english_displace_success.
    + by eapply IH.
Qed.

End english_success.

(** The entries that the commit loop writes are in the schedule of the
    group when it ends. *)
Lemma write_entry_get st g hid e st' :
  write_entry st g hid e = Ok st' →
  ∃ sched,
    Odict.get g (all_schedules st) = Some sched
    ∧ Odict.get g (all_schedules st') = Some (Odict.set hid e sched).
Proof.
  unfold write_entry. destruct (Odict.get g (all_schedules st)) as [sched|];
    [|discriminate].
  intros [= <-]. exists sched. split; [done|]. simpl. apply od_get_set_eq.
Qed.

Lemma commit_english_get_below st g course prof_id room block_num ps st' :
  commit_english st g course prof_id room block_num ps = Ok st' →
  ∀ sched hid,
    Odict.get g (all_schedules st) = Some sched →
    h_block hid < block_num →
    ∃ sched',
      Odict.get g (all_schedules st') = Some sched'
      ∧ Odict.get hid sched' = Odict.get hid sched.
Proof.
  revert st block_num. induction ps as [|[d s] rest IH]; intros st bn; simpl.
  - intros [= <-] sched hid Hg _. by exists sched.
  - intros Hd sched hid Hg Hlt. inv_bind Hd.
    apply write_entry_get in Hbind as (sched0 & Hg0 & Hg1).
    rewrite Hg in Hg0. injection Hg0 as <-.
    edestruct (IH _ _ Hd) as (sched' & Hg' & Hget); [exact Hg1|..].
    + instantiate (1 := hid). lia.
    + exists sched'. split; [done|]. rewrite Hget.
      apply od_get_set_ne. intros <-. simpl in Hlt. lia.
Qed.

Lemma commit_english_written st g course prof_id room block_num ps st' :
  commit_english st g course prof_id room block_num ps = Ok st' →
  ∀ i d s, ps !! i = Some (d, s) →
    ∃ sched,
      Odict.get g (all_schedules st') = Some sched
      ∧ Odict.get (mkHourId g (Course.id course) (block_num + Z.of_nat i) 0)
          sched
        = Some (mkEntry (TimeSlot.id s) room (Course.id course)).
Proof.
  revert st block_num. induction ps as [|[d0 s0] rest IH]; intros st bn; simpl.
  - intros _ i d s Hi. by rewrite lookup_nil in Hi.
  - intros Hd i d s Hi. inv_bind Hd.
    apply write_entry_get in Hbind as (sched0 & Hg0 & Hg1).
    destruct i as [|i]; simpl in Hi.
    + injection Hi as -> ->.
      edestruct (commit_english_get_below _ _ _ _ _ _ _ _ Hd) as (sched' & Hg' & Hget);
        [exact Hg1| |].
      * instantiate (1 := mkHourId g (Course.id course) bn 0). simpl. lia.
      * exists sched'. split; [done|].
        rewrite Z.add_0_r, Hget. apply od_get_set_eq.
    + destruct (IH _ _ Hd i d s Hi) as (sched' & Hg' & Hget).
      exists sched'. split; [done|]. rewrite <- Hget. f_equal. f_equal. lia.
Qed.

Lemma english_positions_days data st prof_id room g hour days ps :
  Forall2 (english_position data st prof_id room g hour) days ps →
  map fst ps = days.
Proof.
  induction 1 as [|day p days ps (Hd & _) _ IH]; simpl; [done|].
  by rewrite Hd, IH.
Qed.

(** C5.  When the language-course placer succeeds for [N] blocks, it has
    committed the [N] positions of one sequence of days and one hour: the
    days are [N] distinct days that follow one another in the order of the
    week, every slot starts at that hour on its day, and the [N] entries
    are in the schedule of the group when the placer returns. *)
Theorem english_placer_consecutive_days `{Runtime} cs rs timeslots profs
    assignments prof_rooms course group_id block_durations fixed_hour
    max_attempts r st r' st' :
  let data :=
    SchedulingData_init cs rs timeslots profs assignments prof_rooms in
  let n := length block_durations in
  assign_english_consecutive_days course group_id data block_durations
    fixed_hour max_attempts r st = Ok (true, r', st') →
  ∃ prof_id room st_mid st1 hour (ps : list (string * TimeSlot.t)),
    get_professor_for_group_course data group_id (Course.id course)
    = Some prof_id
    ∧ get_professor_room data prof_id = Some room
    ∧ length ps = n
    ∧ consecutive_days (map fst ps) n
    ∧ NoDup (map fst ps)
    ∧ (∀ d s, (d, s) ∈ ps →
         s ∈ timeslots ∧ in_window s = true ∧ TimeSlot.day s = d
         ∧ TimeSlot.start_time s = hour)
    ∧ commit_english st_mid group_id course prof_id room 1 ps = Ok st1
    ∧ st' = (if negb (truthy_str fixed_hour)
             then with_tracker st1
                    (set_fixed_hour_for_course (tracker st1) group_id
                       (Course.id course) hour)
             else st1)
    ∧ (∀ i d s, ps !! i = Some (d, s) →
         ∃ sched,
           Odict.get group_id (all_schedules st') = Some sched
           ∧ Odict.get
               (mkHourId group_id (Course.id course) (1 + Z.of_nat i) 0) sched
             = Some (mkEntry (TimeSlot.id s) room (Course.id course))).
Proof.
  intros data n. unfold assign_english_consecutive_days.
  destruct (get_professor_for_group_course _ _ _) as [prof_id|] eqn:Ep;
    [|discriminate].
  destruct (get_professor_room _ _) as [room|] eqn:Er; [|discriminate].
  destruct (get_consecutive_day_sequences _ _) as [|s0 ss] eqn:Eseq;
    [discriminate|].
  destruct (shuffle _ r) as [sequences r1] eqn:Esh.
  intros Hd. apply english_attempts_success in Hd
    as (st_mid & check & days & hour & found & Hdays & Hpos & Hcommit).
  assert (days ∈ get_consecutive_day_sequences
                   (Odict.keys (slots_by_day data)) n) as Hseq.
  { fold n in Eseq. rewrite Eseq. by eapply shuffle_elem_of. }
  apply get_consecutive_day_sequences_spec in Hseq as [Hcons Hnd].
  apply commit_if_complete_inv in Hcommit as (ps & st1 & -> & Hlen & Hce & ->).
  apply english_positions_spec in Hpos.
  pose proof (english_positions_days _ _ _ _ _ _ _ _ Hpos) as Hfst.
  exists prof_id, room, st_mid, st1, hour, ps.
  rewrite Hfst.
  split; [done|]. split; [done|]. split; [done|]. split; [done|].
  split; [done|]. split; [|split; [done|split; [done|]]].
  - intros d s [i Hi]%list_elem_of_lookup_1.
    by destruct (english_position_slot _ _ _ _ _ _ _ _ _ _ _ _
                   (index_ok_init cs rs timeslots profs assignments prof_rooms)
                   Hpos Hi) as (_ & ? & ? & ? & ?).
  - intros i d s Hi.
    destruct (commit_english_written _ _ _ _ _ _ _ _ Hce i d s Hi)
      as (sched & Hg & Hget).
    exists sched. split; [|done]. by destruct (negb _).
Qed.

Lemma english_placer_consecutive_days_witness :
  ∃ r' st',
    assign_english_consecutive_days (H := tape_runtime)
      (Course.mk 1 "Inglés" 4 1 1 "tronco_comun" None) 1
      (SchedulingData_init ex_courses [] (week_slots 5) ex_professors
         ex_assignments ex_professor_rooms)
      [1; 1; 1; 1] None 50 ex_tape (initial_state ex_groups)
    = Ok (true, r', st')
    ∧ ∃ prof_id room st_mid st1 hour (ps : list (string * TimeSlot.t)),
        get_professor_for_group_course
          (SchedulingData_init ex_courses [] (week_slots 5) ex_professors
             ex_assignments ex_professor_rooms) 1 1 = Some prof_id
        ∧ get_professor_room
            (SchedulingData_init ex_courses [] (week_slots 5) ex_professors
               ex_assignments ex_professor_rooms) prof_id = Some room
        ∧ length ps = 4%nat
        ∧ consecutive_days (map fst ps) 4
        ∧ NoDup (map fst ps)
        ∧ (∀ d s, (d, s) ∈ ps →
             s ∈ week_slots 5 ∧ in_window s = true ∧ TimeSlot.day s = d
             ∧ TimeSlot.start_time s = hour)
        ∧ commit_english st_mid 1
            (Course.mk 1 "Inglés" 4 1 1 "tronco_comun" None) prof_id room 1 ps
          = Ok st1
        ∧ st' = with_tracker st1
                  (set_fixed_hour_for_course (tracker st1) 1 1 hour)
        ∧ (∀ i d s, ps !! i = Some (d, s) →
             ∃ sched,
               Odict.get 1 (all_schedules st') = Some sched
               ∧ Odict.get (mkHourId 1 1 (1 + Z.of_nat i) 0) sched
                 = Some (mkEntry (TimeSlot.id s) room 1)).
Proof.
  eexists _, _. split; [vm_compute; reflexivity|].
  eapply (english_placer_consecutive_days (H := tape_runtime) ex_courses []
           (week_slots 5) ex_professors ex_assignments ex_professor_rooms
           (Course.mk 1 "Inglés" 4 1 1 "tronco_comun" None) 1 [1; 1; 1; 1]
           None 50 ex_tape (initial_state ex_groups)).
  vm_compute. reflexivity.
Defined.

(** ** Displacement and language-course blocks *)

(** C1 as stated fails in the generic loop.  The language course of group
    2 and Calculo of group 3 are on Monday at 17:00; the Position Finder
    has no position for Fisica of group 1; the displacement attempt on the
    window of Monday 17:00, which the language block intersects, relocates
    the block of Calculo and places Fisica in the window. *)
Lemma generic_displacement_with_language_block :
  force_assign_with_displacement (H := tape_runtime) c1_ingles 2 c1_data
    true [1] 50 [1; 4; 3; 2; 1]%nat (initial_state c1_groups)
  = Ok (true, [], c1_state_english)
  ∧ force_assign_with_displacement (H := tape_runtime) c1_calculo 3
      c1_data false [1] 50 [1; 0]%nat c1_state_english
    = Ok (true, [], c1_state_before)
  ∧ all_schedules c1_state_before = c1_before
  ∧ Forall (λ day,
              find_all_valid_positions (H := tape_runtime) c1_fisica 1 1 day
                c1_data c1_state_before false None = Ok [])
      ["Lunes"; "Martes"]
  ∧ (∃ c, c ∈ get_conflicting_blocks (H := tape_runtime) [1017] 1
                (all_schedules c1_state_before) c1_data
          ∧ c_is_english c = true)
  ∧ displace_window (H := tape_runtime) c1_data c1_fisica 1 false 9 1 1
      "Lunes" (day_slots_of 1 "Lunes") None 0 [0; 0; 0]%nat c1_state_before
    = Ok (true, None, [], c1_state_after)
  ∧ all_schedules c1_state_after = c1_after.
Proof.
  split; [vm_compute; reflexivity|].
  split; [vm_compute; reflexivity|].
  split; [vm_compute; reflexivity|].
  split; [repeat constructor; vm_compute; reflexivity|].
  split.
  { eexists. split; [vm_compute; left|]. reflexivity. }
  split; vm_compute; reflexivity.
Qed.

Lemma english_conflicts_abandons `{Runtime} data st prof_id g days hour
    day day_slots slot c :
  (∀ d, d ∈ days → is_Some (Odict.get d (slots_by_day data))) →
  day ∈ days →
  Odict.get day (slots_by_day data) = Some day_slots →
  slot_at_hour day_slots hour = Some slot →
  c ∈ get_conflicting_blocks [TimeSlot.id slot] g (all_schedules st) data →
  c_is_english c = true →
  english_conflicts data st prof_id g days hour = Ok None.
Proof.
  intros Hdays Hday Hget Hslot Hc Hen.
  induction days as [|d rest IH]; [by apply elem_of_nil in Hday|].
  simpl. destruct (Hdays d) as [ds Hds]; [left|]. rewrite Hds.
  destruct (slot_at_hour ds hour) as [s|] eqn:Es; [|done].
  destruct (negb _); [done|].
  destruct (existsb _ _) eqn:Ex; [done|].
  assert (day ∈ rest) as Hin.
  { apply elem_of_cons in Hday as [->|?]; [|done]. exfalso.
    rewrite Hget in Hds. injection Hds as <-.
    rewrite Hslot in Es. injection Es as <-.
    assert (existsb c_is_english
              (get_conflicting_blocks [TimeSlot.id slot] g (all_schedules st)
                 data) = true); [|congruence].
    apply existsb_exists. exists c. split; [by apply list_elem_of_In|done]. }
  rewrite IH; [done| |done].
  intros d' Hd'. apply Hdays. by right.
Qed.

Lemma filter_nil_all {A} (P : A → Prop) `{∀ x, Decision (P x)} (l : list A) :
  (∀ x, x ∈ l → ¬ P x) → filter P l = [].
Proof.
  induction l as [|a l IH]; intros Hl; [done|].
  rewrite filter_cons. destruct (decide (P a)) as [Hp|_].
  - destruct (Hl a); [left|done].
  - apply IH. intros x Hx. apply Hl. by right.
Qed.

(** C1, as amended.  In the language-course placer, when a language-course
    block intersects one of the target slots of a sequence and an hour, the
    displacement attempt is abandoned: the state is left as it was and
    nothing is placed.  In the generic force-assign loop the language-course
    blocks are only left out of the blocks to move.  When every block that
    intersects the window belongs to a language course, the state is left
    as it was and nothing is placed on that attempt.  In general an attempt
    on a window either leaves the state as it was, or passes the
    non-language blocks that intersect the window to [try_relocate_block]
    one after the other until one fails; the block is placed only when all
    of them were relocated and the Position Finder then returns a position
    for the day, at the first position it returns; when a relocation fails
    or the Position Finder returns no position, nothing is placed and the
    relocations that were made are kept. *)
Theorem displacement_abandoned_on_language_block `{Runtime}
    (data : SchedulingData) (course : Course.t) (group_id prof_id : Z)
    (r : Rng) (st : State) (fixed_hour : option string) :
  (∀ room num_blocks days hour day day_slots slot c,
     (∀ d, d ∈ days → is_Some (Odict.get d (slots_by_day data))) →
     day ∈ days →
     Odict.get day (slots_by_day data) = Some day_slots →
     slot_at_hour day_slots hour = Some slot →
     c ∈ get_conflicting_blocks [TimeSlot.id slot] group_id
           (all_schedules st) data →
     c_is_english c = true →
     english_displace_step data course prof_id room group_id num_blocks
       fixed_hour days hour r st = Ok (false, r, st))
  ∧ (∀ is_english block_num duration day day_slots start_idx,
       py_slice day_slots start_idx (start_idx + duration) ≠ [] →
       (∀ c,
          c ∈ get_conflicting_blocks
                (map TimeSlot.id
                   (py_slice day_slots start_idx (start_idx + duration)))
                group_id (all_schedules st) data →
          c_is_english c = true) →
       displace_window data course group_id is_english prof_id block_num
         duration day day_slots fixed_hour start_idx r st
       = Ok (false, fixed_hour, r, st))
  ∧ (∀ is_english block_num duration day day_slots start_idx assigned fh r'
       st',
       let movable :=
         filter (λ c, c_is_english c = false)
           (get_conflicting_blocks
              (map TimeSlot.id
                 (py_slice day_slots start_idx (start_idx + duration)))
              group_id (all_schedules st) data) in
       displace_window data course group_id is_english prof_id block_num
         duration day day_slots fixed_hour start_idx r st
       = Ok (assigned, fh, r', st') →
       (assigned = false ∧ fh = fixed_hour ∧ r' = r ∧ st' = st)
       ∨ (movable ≠ []
          ∧ ∃ all_moved st1,
              relocate_all data movable r st = Ok (all_moved, r', st1)
              ∧ ((assigned = false ∧ fh = fixed_hour ∧ st' = st1
                  ∧ (all_moved = false
                     ∨ find_all_valid_positions course group_id duration
                         day data st1 is_english fixed_hour = Ok []))
                 ∨ (assigned = true ∧ all_moved = true
                    ∧ ∃ pos rest st2,
                        find_all_valid_positions course group_id duration
                          day data st1 is_english fixed_hour
                        = Ok (pos :: rest)
                        ∧ place_block st1 group_id course block_num pos day
                          = Ok st2
                        ∧ record_fixed_hour is_english fixed_hour group_id
                            course pos st2 = (fh, st'))))).
Proof.
  split; [|split].
  - intros room n days hour day day_slots slot c Hdays Hday Hget Hslot Hc Hen.
    unfold english_displace_step.
    by rewrite (english_conflicts_abandons _ _ _ _ _ _ _ _ _ _
                  Hdays Hday Hget Hslot Hc Hen).
  - intros is_english block_num duration day day_slots start_idx Hne Hall.
    unfold displace_window.
    destruct (py_slice _ _ _) as [|first rest] eqn:Es; [done|].
    destruct (negb _); [done|].
    destruct (_ && _ && negb _); [done|].
    assert (filter (λ c, c_is_english c = false)
              (get_conflicting_blocks (map TimeSlot.id (first :: rest))
                 group_id (all_schedules st) data) = []) as ->; [|done].
    apply filter_nil_all. intros c Hc. by rewrite (Hall c Hc).
  - intros is_english block_num duration day day_slots start_idx assigned fh
      r' st' movable. subst movable. unfold displace_window.
    destruct (py_slice _ _ _) as [|first rest] eqn:Es; [discriminate|].
    destruct (negb _); [intros [= <- <- <- <-]; by left|].
    destruct (_ && _ && negb _); [intros [= <- <- <- <-]; by left|].
    destruct (filter _ _) as [|c0 cs] eqn:Ef;
      [intros [= <- <- <- <-]; by left|].
    intros Hd. apply bind_Ok in Hd as ([[all_moved r1] st1] & Hmove & Hd).
    right. split; [done|]. destruct all_moved.
    + apply bind_Ok in Hd as (positions & Hfind & Hd).
      destruct positions as [|pos ps].
      * injection Hd as <- <- <- <-. exists true, st1. split; [done|].
        left. repeat split; try done. by right.
      * apply bind_Ok in Hd as (st2 & Hplace & Hd).
        destruct (record_fixed_hour _ _ _ _ _ _) as [fh' st3] eqn:Hrec.
        injection Hd as <- <- <- <-. exists true, st1. split; [done|].
        right. split; [done|]. split; [done|]. by exists pos, ps, st2.
    + injection Hd as <- <- <- <-. exists false, st1. split; [done|].
      left. repeat split; try done. by left.
Qed.

Lemma displacement_abandoned_on_language_block_witness :
  english_displace_step (H := tape_runtime) c1_data c1_ingles 7 100 3 1 None
    ["Lunes"] "17:00:00" [] c1_state_english
  = Ok (false, [], c1_state_english).
Proof.
  eapply (proj1 (displacement_abandoned_on_language_block (H := tape_runtime)
                   c1_data c1_ingles 3 7 [] c1_state_english None)
            100 1%nat ["Lunes"] "17:00:00" "Lunes" (day_slots_of 1 "Lunes")).
  - intros d ->%list_elem_of_singleton. vm_compute. eauto.
  - left.
  - vm_compute. reflexivity.
  - vm_compute. reflexivity.
  - vm_compute. left.
  - reflexivity.
Defined.

(** ** Relocation is transactional *)











(** ** Two runs with the same inputs and the same seed *)

Lemma collect_positions_ext {A} (f g : Z → result (option A)) idxs :
  (∀ i, f i = g i) → collect_positions f idxs = collect_positions g idxs.
Proof.
  intros Hfg. induction idxs as [|i rest IH]; [done|].
  cbn [collect_positions]. by rewrite Hfg, IH.
Qed.

Lemma is_continuous_step `{Runtime} a b l :
  is_continuous (a :: b :: l)
  = match parse_hour (TimeSlot.start_time a) with
    | None => Raise ValueError
    | Some h1 =>
        match parse_hour (TimeSlot.start_time b) with
        | None => Raise ValueError
        | Some h2 =>
            if bool_decide (h2 - h1 ≠ 1) then Ok false
            else is_continuous (b :: l)
        end
    end.
Proof. reflexivity. Qed.

Section same_order.
Context (R : Runtime) (f : list string → list string).
Context (timeslots : list TimeSlot.t) (data : SchedulingData).
Hypothesis Hidx : index_ok timeslots data.
Hypothesis Hf :
  ∀ l, window_hours timeslots l → f l = @iter_str_set R l.

Local Abbreviation R' := (with_str_order R f).

Lemma hours_of_days_window days added :
  hours_of_days data days = Ok added → window_hours timeslots added.
Proof.
  revert added. induction days as [|day rest IH]; intros added; simpl.
  - intros [= <-] x Hx. by apply elem_of_nil in Hx.
  - destruct (Odict.get day (slots_by_day data)) as [day_slots|] eqn:Ed;
      [|discriminate].
    destruct (hours_of_days data rest) as [hs|] eqn:Eh; [|discriminate].
    simpl. intros [= <-] x [Hx|Hx]%elem_of_app; [|by apply (IH hs)].
    apply list_elem_of_fmap in Hx as (s & -> & Hs).
    destruct (Hidx _ _ _ Ed Hs) as (? & ? & _). by exists s.
Qed.

Lemma is_continuous_order l :
  is_continuous (H := R') l = is_continuous (H := R) l.
Proof.
  induction l as [|a l IH]; [done|]. destruct l as [|b l]; [done|].
  rewrite !is_continuous_step, IH. reflexivity.
Qed.

Lemma find_all_valid_positions_order course group_id duration day st
    is_english fixed_hour :
  find_all_valid_positions (H := R') course group_id duration day data st
    is_english fixed_hour
  = find_all_valid_positions (H := R) course group_id duration day data st
      is_english fixed_hour.
Proof.
  unfold find_all_valid_positions.
  destruct (negb _); [done|]. destruct (negb _); [done|].
  destruct (Odict.get _ _); [|done].
  apply collect_positions_ext. intros i. unfold window_position.
  by rewrite is_continuous_order.
Qed.

Lemma shuffle_from_order {A} i (x : list A) r :
  shuffle_from (H := R') i x r = shuffle_from (H := R) i x r.
Proof.
  revert x r. induction i as [|i IH]; intros x r; [done|].
  cbn [shuffle_from]. change (@below R') with (@below R).
  destruct (@below R _ r) as [j r']. apply IH.
Qed.

Lemma shuffle_order {A} (x : list A) r :
  shuffle (H := R') x r = shuffle (H := R) x r.
Proof. apply shuffle_from_order. Qed.

Lemma relocate_on_days_order course group_id course_id duration is_english
    fixed_hour days r st :
  relocate_on_days (H := R') data course group_id course_id duration
    is_english fixed_hour days r st
  = relocate_on_days (H := R) data course group_id course_id duration
      is_english fixed_hour days r st.
Proof.
  induction days as [|day rest IH]; [done|].
  cbn [relocate_on_days]. rewrite IH, find_all_valid_positions_order.
  reflexivity.
Qed.

Lemma try_relocate_block_order c r st :
  try_relocate_block (H := R') c data r st
  = try_relocate_block (H := R) c data r st.
Proof.
  unfold try_relocate_block.
  destruct (c_course c) as [course|]; [|done].
  destruct (negb _); [done|]. destruct (hours c) as [|h0 hs]; [done|].
  destruct (delete_hours _ _ _) as [st1|]; [|done].
  cbn [mbind result_bind]. rewrite shuffle_order.
  destruct (shuffle (H := R) _ r) as [days r1].
  by rewrite relocate_on_days_order.
Qed.

Lemma relocate_all_order conflicts r st :
  relocate_all (H := R') data conflicts r st
  = relocate_all (H := R) data conflicts r st.
Proof.
  revert r st. induction conflicts as [|c rest IH]; intros r st; [done|].
  cbn [relocate_all]. rewrite try_relocate_block_order.
  destruct (try_relocate_block (H := R) _ _ _ _) as [[[[] r'] st']|]; try done.
  apply IH.
Qed.

Lemma english_direct_order course prof_id room group_id num_blocks
    fixed_hour sequences hours_prev r st :
  english_direct (H := R') data course prof_id room group_id
    num_blocks fixed_hour sequences hours_prev r st
  = english_direct (H := R) data course prof_id room group_id num_blocks
      fixed_hour sequences hours_prev r st.
Proof.
  revert hours_prev r.
  induction sequences as [|days rest IH]; intros hours_prev r; [done|].
  cbn [english_direct].
  destruct (hours_of_days data days) as [added|] eqn:Ea; [|done].
  cbn [mbind result_bind].
  change (@iter_str_set R' added) with (f added).
  rewrite (Hf added) by by eapply hours_of_days_window.
  rewrite shuffle_order.
  destruct (shuffle (H := R) _ r) as [shuffled r1].
  destruct (english_try_hours _ _ _ _ _ _ _ _ _ _) as [[st'|]|]; try done.
  apply IH.
Qed.

Lemma english_conflicts_order st prof_id group_id days hour :
  english_conflicts (H := R') data st prof_id group_id days hour
  = english_conflicts (H := R) data st prof_id group_id days hour.
Proof.
  induction days as [|day rest IH]; [done|].
  cbn [english_conflicts]. rewrite IH. reflexivity.
Qed.

Lemma english_displace_step_order course prof_id room group_id num_blocks
    fixed_hour days hour r st :
  english_displace_step (H := R') data course prof_id room group_id
    num_blocks fixed_hour days hour r st
  = english_displace_step (H := R) data course prof_id room group_id
      num_blocks fixed_hour days hour r st.
Proof.
  unfold english_displace_step. rewrite english_conflicts_order.
  destruct (english_conflicts (H := R) _ _ _ _ _ _) as [[[|c cs]|]|]; try done.
  cbn [mbind result_bind]. by rewrite relocate_all_order.
Qed.

Lemma english_displace_hours_order course prof_id room group_id num_blocks
    fixed_hour days target_hours r st :
  english_displace_hours (H := R') data course prof_id room group_id
    num_blocks fixed_hour days target_hours r st
  = english_displace_hours (H := R) data course prof_id room group_id
      num_blocks fixed_hour days target_hours r st.
Proof.
  revert r st.
  induction target_hours as [|hour rest IH]; intros r st; [done|].
  cbn [english_displace_hours]. rewrite english_displace_step_order.
  destruct (english_displace_step (H := R) _ _ _ _ _ _ _ _ _ _ _)
    as [[[[] r1] st1]|]; try done.
  apply IH.
Qed.

Lemma english_displace_order course prof_id room group_id num_blocks
    fixed_hour sequences hours_to_try r st :
  english_displace (H := R') data course prof_id room group_id num_blocks
    fixed_hour sequences hours_to_try r st
  = english_displace (H := R) data course prof_id room group_id num_blocks
      fixed_hour sequences hours_to_try r st.
Proof.
  revert r st.
  induction sequences as [|days rest IH]; intros r st; [done|].
  cbn [english_displace]. rewrite english_displace_hours_order.
  destruct (english_displace_hours (H := R) _ _ _ _ _ _ _ _ _ _ _)
    as [[[[] r1] st1]|]; try done.
  apply IH.
Qed.

Lemma english_attempts_order course prof_id room group_id num_blocks
    fixed_hour sequences max_attempts r st :
  english_attempts (H := R') data course prof_id room group_id num_blocks
    fixed_hour sequences max_attempts r st
  = english_attempts (H := R) data course prof_id room group_id num_blocks
      fixed_hour sequences max_attempts r st.
Proof.
  revert r st. induction max_attempts as [|n IH]; intros r st; [done|].
  cbn [english_attempts]. rewrite english_direct_order.
  destruct (english_direct (H := R) _ _ _ _ _ _ _ _ _ _ _)
    as [[[[st'|] hours_to_try] r1]|]; try done.
  cbn [mbind result_bind]. rewrite english_displace_order.
  destruct (english_displace (H := R) _ _ _ _ _ _ _ _ _ _ _)
    as [[[[] r2] st2]|]; try done.
  apply IH.
Qed.

Lemma assign_english_consecutive_days_order course group_id block_durations
    fixed_hour max_attempts r st :
  assign_english_consecutive_days (H := R') course group_id data
    block_durations fixed_hour max_attempts r st
  = assign_english_consecutive_days (H := R) course group_id data
      block_durations fixed_hour max_attempts r st.
Proof.
  unfold assign_english_consecutive_days.
  destruct (get_professor_for_group_course _ _ _); [|done].
  destruct (get_professor_room _ _); [|done].
  destruct (get_consecutive_day_sequences _ _) as [|s ss]; [done|].
  rewrite shuffle_order. destruct (shuffle (H := R) _ r) as [sequences r1].
  apply english_attempts_order.
Qed.

Lemma direct_days_order course group_id is_english block_num duration days
    fixed_hour r st :
  direct_days (H := R') data course group_id is_english block_num duration
    days fixed_hour r st
  = direct_days (H := R) data course group_id is_english block_num duration
      days fixed_hour r st.
Proof.
  induction days as [|day rest IH]; [done|].
  cbn [direct_days]. rewrite IH, find_all_valid_positions_order.
  reflexivity.
Qed.

Lemma displace_window_order course group_id is_english prof_id block_num
    duration day day_slots fixed_hour start_idx r st :
  displace_window (H := R') data course group_id is_english prof_id
    block_num duration day day_slots fixed_hour start_idx r st
  = displace_window (H := R) data course group_id is_english prof_id
      block_num duration day day_slots fixed_hour start_idx r st.
Proof.
  unfold displace_window.
  destruct (py_slice _ _ _) as [|first rest]; [done|].
  destruct (negb _); [done|]. destruct (_ && _ && negb _); [done|].
  change (@get_conflicting_blocks R') with (@get_conflicting_blocks R).
  destruct (filter _ _) as [|c cs]; [done|].
  rewrite relocate_all_order.
  destruct (relocate_all (H := R) _ _ _ _) as [[[[] r1] st1]|]; try done.
  cbn [mbind result_bind]. by rewrite find_all_valid_positions_order.
Qed.

Lemma displace_windows_order course group_id is_english prof_id block_num
    duration day day_slots fixed_hour idxs r st :
  displace_windows (H := R') data course group_id is_english prof_id
    block_num duration day day_slots fixed_hour idxs r st
  = displace_windows (H := R) data course group_id is_english prof_id
      block_num duration day day_slots fixed_hour idxs r st.
Proof.
  revert fixed_hour r st.
  induction idxs as [|i rest IH]; intros fixed_hour r st; [done|].
  cbn [displace_windows]. rewrite displace_window_order.
  destruct (displace_window (H := R) _ _ _ _ _ _ _ _ _ _ _ _ _)
    as [[[[[] fh] r1] st1]|]; try done.
  apply IH.
Qed.

Lemma displace_days_order course group_id is_english prof_id block_num
    duration days fixed_hour r st :
  displace_days (H := R') data course group_id is_english prof_id
    block_num duration days fixed_hour r st
  = displace_days (H := R) data course group_id is_english prof_id
      block_num duration days fixed_hour r st.
Proof.
  revert fixed_hour r st.
  induction days as [|day rest IH]; intros fixed_hour r st; [done|].
  cbn [displace_days]. rewrite IH. destruct (day_is_used _ _ _ _); [done|].
  rewrite displace_windows_order.
  destruct (displace_windows (H := R) _ _ _ _ _ _ _ _ _ _ _ _ _)
    as [[[[[] fh] r1] st1]|]; try done.
  apply IH.
Qed.

Lemma attempt_block_order course group_id is_english prof_id block_num
    duration attempts_left fixed_hour r st :
  attempt_block (H := R') data course group_id is_english prof_id block_num
    duration attempts_left fixed_hour r st
  = attempt_block (H := R) data course group_id is_english prof_id
      block_num duration attempts_left fixed_hour r st.
Proof.
  revert fixed_hour r st.
  induction attempts_left as [|n IH]; intros fixed_hour r st; [done|].
  cbn [attempt_block]. rewrite shuffle_order.
  destruct (shuffle (H := R) _ r) as [days r1]. rewrite direct_days_order.
  destruct (direct_days (H := R) _ _ _ _ _ _ _ _ _ _) as [[[[fh r2] st2]|]|];
    try done.
  cbn [mbind result_bind]. rewrite displace_days_order.
  destruct (displace_days (H := R) _ _ _ _ _ _ _ _ _ _ _)
    as [[[[[] fh] r2] st2]|]; try done.
  apply IH.
Qed.

Lemma assign_blocks_order course group_id is_english prof_id max_attempts
    block_num block_durations fixed_hour blocks_assigned r st :
  assign_blocks (H := R') data course group_id is_english prof_id
    max_attempts block_num block_durations fixed_hour blocks_assigned r st
  = assign_blocks (H := R) data course group_id is_english prof_id
      max_attempts block_num block_durations fixed_hour blocks_assigned r
      st.
Proof.
  revert block_num fixed_hour blocks_assigned r st.
  induction block_durations as [|d rest IH];
    intros block_num fixed_hour blocks_assigned r st; [done|].
  cbn [assign_blocks]. rewrite attempt_block_order.
  destruct (attempt_block (H := R) _ _ _ _ _ _ _ _ _ _ _)
    as [[[[assigned fh] r1] st1]|]; [|done].
  apply IH.
Qed.

Lemma force_assign_with_displacement_order course group_id is_english
    block_durations max_attempts r st :
  force_assign_with_displacement (H := R') course group_id data is_english
    block_durations max_attempts r st
  = force_assign_with_displacement (H := R) course group_id data is_english
      block_durations max_attempts r st.
Proof.
  unfold force_assign_with_displacement.
  destruct (negb _); [done|]. destruct (negb _); [done|].
  destruct (_ && _).
  - apply assign_english_consecutive_days_order.
  - by rewrite assign_blocks_order.
Qed.

Lemma place_course_groups_order course is_english block_durations group_ids
    r st :
  place_course_groups (H := R') data course is_english block_durations
    group_ids r st
  = place_course_groups (H := R) data course is_english block_durations
      group_ids r st.
Proof.
  revert r st. induction group_ids as [|g rest IH]; intros r st; [done|].
  cbn [place_course_groups]. rewrite force_assign_with_displacement_order.
  destruct (force_assign_with_displacement (H := R) _ _ _ _ _ _ _ _)
    as [[[b r1] st1]|]; [|done].
  apply IH.
Qed.

Lemma first_pass_order assignments english sorted_courses r st :
  first_pass (H := R') data assignments english sorted_courses r st
  = first_pass (H := R) data assignments english sorted_courses r st.
Proof.
  revert r st.
  induction sorted_courses as [|course rest IH]; intros r st; [done|].
  cbn [first_pass]. destruct (calculate_course_blocks course); [|done].
  rewrite place_course_groups_order.
  change (@iter_int_set R') with (@iter_int_set R).
  destruct (place_course_groups (H := R) _ _ _ _ _ _ _) as [[r1 st1]|]; [|done].
  apply IH.
Qed.

Lemma verify_group_order group schedule assignments r st :
  verify_group (H := R') data group schedule assignments r st
  = verify_group (H := R) data group schedule assignments r st.
Proof.
  revert r st. induction assignments as [|a rest IH]; intros r st; [done|].
  cbn [verify_group]. destruct (bool_decide _); [|apply IH].
  destruct (courses data !! _) as [course|]; [|apply IH].
  destruct (_ <? _); [|apply IH].
  rewrite force_assign_with_displacement_order.
  change (@is_english_name R') with (@is_english_name R).
  destruct (force_assign_with_displacement (H := R) _ _ _ _ _ _ _ _)
    as [[[b r1] st1]|]; [|done].
  apply IH.
Qed.

Lemma second_pass_order assignments groups r st :
  second_pass (H := R') data assignments groups r st
  = second_pass (H := R) data assignments groups r st.
Proof.
  revert r st. induction groups as [|g rest IH]; intros r st; [done|].
  cbn [second_pass]. destruct (Odict.get _ _); [|done].
  rewrite verify_group_order.
  destruct (verify_group (H := R) _ _ _ _ _ _) as [[r1 st1]|]; [|done].
  apply IH.
Qed.
End same_order.

(** C9.  Two runs of the orchestrator with the same inputs and the same
    state of the generator, in runtimes that differ only in the order in
    which sets of strings are iterated, give the same schedule map as soon
    as the two orders agree on the sets of start hours of the slots of the
    input that lie in the window. *)
Theorem same_seed_same_set_order_same_schedules (R : Runtime)
    (f : list string → list string) (cs : list Course.t) (rs : list Room.t)
    (timeslots : list TimeSlot.t) (profs : list Professor.t)
    (assignments : list Assignment.t) (prof_rooms : gmap Z Z)
    (groups : list Group.t) (r : @Rng R) :
  (∀ l, window_hours timeslots l → f l = @iter_str_set R l) →
  generate_schedule_for_all_groups (H := with_str_order R f) cs rs timeslots
    profs assignments prof_rooms groups r
  = generate_schedule_for_all_groups (H := R) cs rs timeslots profs
      assignments prof_rooms groups r.
Proof.
  intros Hf. unfold generate_schedule_for_all_groups, run_all_groups.
  pose proof (index_ok_init cs rs timeslots profs assignments prof_rooms)
    as Hidx.
  set (data := SchedulingData_init _ _ _ _ _ _) in *.
  rewrite (first_pass_order R f timeslots data Hidx Hf).
  change (@is_english_name (with_str_order R f)) with (@is_english_name R).
  destruct (first_pass (H := R) _ _ _ _ _ _) as [[r1 st1]|]; [|done].
  cbn [mbind result_bind].
  by rewrite (second_pass_order R f timeslots data Hidx Hf).
Qed.

Lemma same_seed_same_set_order_same_schedules_witness :
  generate_schedule_for_all_groups (H := with_str_order tape_runtime
                                            ex_str_order)
    ex_courses [] (week_slots 5) ex_professors ex_assignments
    ex_professor_rooms ex_groups ex_tape
  = generate_schedule_for_all_groups (H := tape_runtime) ex_courses []
      (week_slots 5) ex_professors ex_assignments ex_professor_rooms
      ex_groups ex_tape.
Proof.
  apply (same_seed_same_set_order_same_schedules tape_runtime ex_str_order).
  intros l Hl. unfold ex_str_order.
  assert (forallb (λ x, bool_decide
                          (x ∈ map TimeSlot.start_time (week_slots 5))) l
          = true) as ->; [|reflexivity].
  apply forallb_forall. intros x Hx%list_elem_of_In.
  apply bool_decide_eq_true.
  destruct (Hl x Hx) as (s & Hs & _ & <-).
  by apply list_elem_of_fmap_2.
Defined.

(** With the inputs and the tape of the example, the process in which sets
    of strings are iterated in the opposite order places the language course
    at 17:00 instead of 21:00. *)
Lemma same_seed_different_schedules :
  tape_runtime_rev
  = with_str_order tape_runtime (λ l, reverse (remove_dups l))
  ∧ generate_schedule_for_all_groups (H := tape_runtime) ex_courses []
      (week_slots 5) ex_professors ex_assignments ex_professor_rooms
      ex_groups ex_tape
    = Ok ex_schedules
  ∧ generate_schedule_for_all_groups (H := tape_runtime_rev) ex_courses []
      (week_slots 5) ex_professors ex_assignments ex_professor_rooms
      ex_groups ex_tape
    = Ok ex_schedules_rev
  ∧ ex_schedules ≠ ex_schedules_rev.
Proof.
  split; [reflexivity|].
  split; [vm_compute; reflexivity|].
  split; [vm_compute; reflexivity|].
  discriminate.
Qed.

(** * Further properties of the scheduler *)

(** ** The slots of a day *)

Lemma group_by_day_get vs day :
  Odict.get day (group_by_day vs)
  = match filter (λ s, TimeSlot.day s = day) vs with
    | [] => None
    | l => Some l
    end.
Proof.
  unfold group_by_day.
  induction vs as [|x vs IH] using rev_ind; [done|].
  rewrite foldl_app, filter_app. cbn [foldl].
  set (d := foldl _ [] vs) in *.
  destruct (decide (TimeSlot.day x = day)) as [<-|Hne].
  - rewrite od_get_set_eq, IH, filter_cons_True, filter_nil by done.
    by destruct (filter _ vs).
  - rewrite od_get_set_ne, IH, filter_cons_False, filter_nil by done.
    by rewrite app_nil_r.
Qed.

Lemma insert_by_id_perm s l : insert_by_id s l ≡ₚ s :: l.
Proof.
  induction l as [|x l IH]; simpl; [done|].
  destruct (_ <? _); [done|]. by rewrite IH, Permutation_swap.
Qed.

Lemma sort_by_id_snoc l s :
  sort_by_id (l ++ [s]) = insert_by_id s (sort_by_id l).
Proof. unfold sort_by_id. by rewrite foldl_app. Qed.

Lemma sort_by_id_perm l : sort_by_id l ≡ₚ l.
Proof.
  induction l as [|s l IH] using rev_ind; [done|].
  rewrite sort_by_id_snoc, insert_by_id_perm, IH.
  by rewrite Permutation_app_comm.
Qed.

Lemma insert_by_id_sorted s l :
  StronglySorted (λ a b, TimeSlot.id a ≤ TimeSlot.id b) l →
  StronglySorted (λ a b, TimeSlot.id a ≤ TimeSlot.id b) (insert_by_id s l).
Proof.
  induction 1 as [|x l Hl IH Hx]; simpl.
  - repeat constructor.
  - destruct (TimeSlot.id s <? TimeSlot.id x) eqn:E.
    + apply Z.ltb_lt in E. constructor; [by constructor|].
      constructor; [lia|]. eapply Forall_impl; [exact Hx|]. simpl. lia.
    + apply Z.ltb_ge in E. constructor; [done|].
      apply Forall_forall. intros y [->|Hy]%elem_of_insert_by_id; [done|].
      by apply (proj1 (Forall_forall _ _) Hx).
Qed.

Lemma sort_by_id_sorted l :
  StronglySorted (λ a b, TimeSlot.id a ≤ TimeSlot.id b) (sort_by_id l).
Proof.
  induction l as [|s l IH] using rev_ind; [constructor|].
  rewrite sort_by_id_snoc. by apply insert_by_id_sorted.
Qed.

(** [SchedulingData.__init__] files under a day exactly the input timeslots
    of that day whose start time lies in the window, none lost and none
    twice, in ascending order of their ids; a day without such a slot is not
    a key of [slots_by_day]. *)
Theorem slots_by_day_exact cs rs timeslots profs assignments prof_rooms day :
  let data :=
    SchedulingData_init cs rs timeslots profs assignments prof_rooms in
  let of_day :=
    filter (λ s, TimeSlot.day s = day ∧ in_window s = true) timeslots in
  match Odict.get day (slots_by_day data) with
  | Some l =>
      l ≡ₚ of_day ∧ of_day ≠ []
      ∧ StronglySorted (λ a b, TimeSlot.id a ≤ TimeSlot.id b) l
  | None => of_day = []
  end.
Proof.
  intros data of_day. subst data. cbn [slots_by_day SchedulingData_init].
  rewrite od_get_map_values, group_by_day_get, list_filter_filter.
  fold of_day. destruct of_day as [|s l]; [done|]. simpl.
  split; [apply sort_by_id_perm|]. split; [done|]. apply sort_by_id_sorted.
Qed.

(** ** The professor of a group and a course *)

(** The professor that [get_professor_for_group_course] returns for a pair
    is the one of the last assignment of the input for that pair, and
    [None] when the input has no assignment for it. *)
Theorem professor_of_last_assignment cs rs timeslots profs assignments
    prof_rooms group_id course_id :
  get_professor_for_group_course
    (SchedulingData_init cs rs timeslots profs assignments prof_rooms)
    group_id course_id
  = Assignment.professor_id
      <$> last (filter (λ a, Assignment.group_id a = group_id
                             ∧ Assignment.course_id a = course_id)
                  assignments).
Proof.
  unfold get_professor_for_group_course.
  cbn [group_course_professor SchedulingData_init].
  unfold build_group_course_professor.
  induction assignments as [|a l IH] using rev_ind; [done|].
  rewrite foldl_app, filter_app. cbn [foldl].
  destruct (decide (Assignment.group_id a = group_id
                    ∧ Assignment.course_id a = course_id)) as [[<- <-]|Hne].
  - rewrite lookup_insert_eq, filter_cons_True, filter_nil by done.
    by rewrite last_snoc.
  - rewrite lookup_insert_ne, filter_cons_False, filter_nil, app_nil_r
      by naive_solver.
    apply IH.
Qed.

(** ** Rooms and the tracker after an update *)

Lemma forallb_True {A} (f : A → bool) (l : list A) :
  forallb f l = true ↔ ∀ x, x ∈ l → f x = true.
Proof.
  rewrite forallb_forall. split; intros Hl x Hx; apply Hl;
    by apply list_elem_of_In.
Qed.

Lemma is_room_available_spec ru room slot_ids :
  is_room_available ru room slot_ids = true ↔
  ∀ used, ru !! room = Some used → ∀ s, s ∈ slot_ids → s ∉ used.
Proof.
  unfold is_room_available. destruct (ru !! room) as [used|].
  - rewrite forallb_True. split.
    + intros Hl ? [= <-] s Hs. by apply (bool_decide_eq_true_1 _), Hl.
    + intros Hl s Hs. by apply bool_decide_eq_true_2, (Hl used).
  - split; [by intros _ ? [=]|done].
Qed.

Lemma lookup_mark_room_used ru room slot_ids room' :
  mark_room_used ru room slot_ids !! room'
  = if decide (room' = room)
    then Some (default ∅ (ru !! room) ∪ list_to_set slot_ids)
    else ru !! room'.
Proof.
  unfold mark_room_used. destruct (decide (room' = room)) as [->|Hne].
  - by rewrite lookup_insert_eq.
  - by rewrite lookup_insert_ne.
Qed.

Lemma lookup_unmark_room_used ru room slot_ids room' :
  unmark_room_used ru room slot_ids !! room'
  = if decide (room' = room)
    then (λ used, used ∖ list_to_set slot_ids) <$> ru !! room
    else ru !! room'.
Proof.
  unfold unmark_room_used. destruct (decide (room' = room)) as [->|Hne].
  - destruct (ru !! room) as [used|] eqn:E; [|by rewrite E].
    by rewrite lookup_insert_eq.
  - destruct (ru !! room); [|done]. by rewrite lookup_insert_ne.
Qed.

(** Once [mark_room_used] has run, [is_room_available] accepts a request
    exactly when it accepted it before and the request is for another room
    or touches none of the marked slots. *)
Theorem room_refused_after_mark ru room slot_ids room' slot_ids' :
  is_room_available (mark_room_used ru room slot_ids) room' slot_ids' = true
  ↔ is_room_available ru room' slot_ids' = true
    ∧ (room' = room → ∀ s, s ∈ slot_ids' → s ∉ slot_ids).
Proof.
  rewrite !is_room_available_spec. setoid_rewrite lookup_mark_room_used.
  destruct (decide (room' = room)) as [->|Hne].
  - split.
    + intros Hl. split.
      * intros used Hu s Hs Hin. apply (Hl _ eq_refl s Hs).
        rewrite Hu. set_solver.
      * intros _ s Hs Hin. apply (Hl _ eq_refl s Hs). set_solver.
    + intros [Hl Hd] ? [= <-] s Hs [Hin|Hin]%elem_of_union.
      * destruct (ru !! room) as [used|]; [|set_solver].
        by apply (Hl used eq_refl s Hs).
      * apply (Hd eq_refl s Hs). set_solver.
  - split; [intros Hl; split; [done|by intros ?]|by intros [Hl _]].
Qed.

(** Marking slots that were free in a room and unmarking them again gives
    back the room usage of before, up to the entry of the room itself, which
    now exists (empty if the room was unknown); no request is answered
    differently. *)
Theorem unmark_after_mark ru room slot_ids :
  is_room_available ru room slot_ids = true →
  unmark_room_used (mark_room_used ru room slot_ids) room slot_ids
  = <[room := default ∅ (ru !! room)]> ru
  ∧ ∀ room' slot_ids',
      is_room_available
        (unmark_room_used (mark_room_used ru room slot_ids) room slot_ids)
        room' slot_ids'
      = is_room_available ru room' slot_ids'.
Proof.
  intros Hfree.
  assert (unmark_room_used (mark_room_used ru room slot_ids) room slot_ids
          = <[room := default ∅ (ru !! room)]> ru) as ->.
  { apply map_eq. intros room'.
    rewrite lookup_unmark_room_used, !lookup_mark_room_used.
    destruct (decide (room' = room)) as [->|Hne].
    - rewrite decide_True, lookup_insert_eq by done. simpl. f_equal.
      destruct (ru !! room) as [used|] eqn:E; simpl; [|set_solver].
      pose proof (proj1 (is_room_available_spec _ _ _) Hfree used E).
      set_solver.
    - by rewrite lookup_insert_ne. }
  split; [done|]. intros room' slot_ids'. unfold is_room_available.
  destruct (decide (room' = room)) as [->|Hne].
  - rewrite lookup_insert_eq. destruct (ru !! room) as [used|]; [done|].
    simpl. induction slot_ids' as [|s l IH]; [done|]. simpl.
    rewrite IH, bool_decide_eq_true_2; [done|set_solver].
  - by rewrite lookup_insert_ne.
Qed.

Lemma unmark_after_mark_witness :
  unmark_room_used (mark_room_used {[ 101 := {[ 1017 ]} ]} 101 [1018; 1019])
    101 [1018; 1019]
  = <[101 := default ∅ (({[ 101 := {[ 1017 ]} ]} : gmap Z (gset Z)) !! 101)]>
      {[ 101 := {[ 1017 ]} ]}.
Proof.
  apply (unmark_after_mark {[ 101 := {[ 1017 ]} ]} 101 [1018; 1019]).
  vm_compute. reflexivity.
Defined.

Lemma lookup_write_slots sched k slot_ids v k' :
  write_slots (ensure_key sched k) k slot_ids v !! k'
  = if decide (k' = k)
    then Some (foldl (λ inner s, <[s := v]> inner) (default ∅ (sched !! k))
                 slot_ids)
    else sched !! k'.
Proof.
  unfold ensure_key. destruct (sched !! k) as [m|] eqn:E.
  - rewrite (write_slots_present _ _ _ _ m E).
    destruct (decide (k' = k)) as [->|Hne].
    + by rewrite lookup_insert_eq.
    + by rewrite lookup_insert_ne.
  - rewrite (write_slots_present _ _ _ _ ∅) by apply lookup_insert_eq.
    rewrite insert_insert_eq.
    destruct (decide (k' = k)) as [->|Hne].
    + by rewrite lookup_insert_eq.
    + by rewrite lookup_insert_ne.
Qed.

Lemma lookup_pop_slots sched k slot_ids k' :
  pop_slots sched k slot_ids !! k'
  = if decide (k' = k)
    then (λ m, foldl (λ inner s, delete s inner) m slot_ids) <$> sched !! k
    else sched !! k'.
Proof.
  destruct (sched !! k) as [m|] eqn:E.
  - rewrite (pop_slots_present _ _ _ m E).
    destruct (decide (k' = k)) as [->|Hne].
    + by rewrite lookup_insert_eq.
    + by rewrite lookup_insert_ne.
  - rewrite pop_slots_absent by done.
    destruct (decide (k' = k)) as [->|Hne]; [by rewrite E|done].
Qed.

Lemma slots_free_write_slots sched k slot_ids v k' slot_ids' :
  slots_free (write_slots (ensure_key sched k) k slot_ids v) k' slot_ids'
  = true
  ↔ slots_free sched k' slot_ids' = true
    ∧ (k' = k → ∀ s, s ∈ slot_ids' → s ∉ slot_ids).
Proof.
  rewrite !slots_free_spec. setoid_rewrite lookup_write_slots.
  destruct (decide (k' = k)) as [->|Hne].
  - split.
    + intros Hl. split.
      * intros m Hm s Hs. specialize (Hl _ eq_refl s Hs).
        rewrite lookup_foldl_insert, Hm in Hl. by destruct (decide _).
      * intros _ s Hs Hin. specialize (Hl _ eq_refl s Hs).
        rewrite lookup_foldl_insert, decide_True in Hl by done. done.
    + intros [Hl Hd] ? [= <-] s Hs.
      rewrite lookup_foldl_insert, decide_False by by apply Hd.
      destruct (sched !! k) as [m|]; [by apply Hl|done].
  - split; [intros Hl; split; [done|by intros ?]|by intros [Hl _]].
Qed.

(** After [assign], a professor is refused for exactly the requests that
    were refused before or that touch one of the slots just assigned to that
    professor, and likewise for a group. *)
Theorem held_after_assign t prof_id group_id slot_ids course_id :
  (∀ p slot_ids',
     can_assign_professor (assign t prof_id group_id slot_ids course_id) p
       slot_ids' = true
     ↔ can_assign_professor t p slot_ids' = true
       ∧ (p = prof_id → ∀ s, s ∈ slot_ids' → s ∉ slot_ids))
  ∧ (∀ g slot_ids',
       can_assign_group (assign t prof_id group_id slot_ids course_id) g
         slot_ids' = true
       ↔ can_assign_group t g slot_ids' = true
         ∧ (g = group_id → ∀ s, s ∈ slot_ids' → s ∉ slot_ids)).
Proof.
  split; intros k slot_ids'; apply slots_free_write_slots.
Qed.

Lemma slots_free_pop_slots sched k slot_ids k' slot_ids' :
  slots_free (pop_slots sched k slot_ids) k' slot_ids' = true
  ↔ ∀ m, sched !! k' = Some m → ∀ s, s ∈ slot_ids' →
      m !! s = None ∨ (k' = k ∧ s ∈ slot_ids).
Proof.
  rewrite slots_free_spec. setoid_rewrite lookup_pop_slots.
  destruct (decide (k' = k)) as [->|Hne].
  - destruct (sched !! k) as [m|]; simpl; [|by split; intros ? ? [=]].
    split.
    + intros Hl ? [= <-] s Hs. specialize (Hl _ eq_refl s Hs).
      rewrite lookup_foldl_delete in Hl.
      destruct (decide (s ∈ slot_ids)); auto.
    + intros Hl ? [= <-] s Hs. rewrite lookup_foldl_delete.
      destruct (decide (s ∈ slot_ids)); [done|].
      destruct (Hl _ eq_refl s Hs) as [?|[_ ?]]; done.
  - split.
    + intros Hl m Hm s Hs. left. by apply (Hl m).
    + intros Hl m Hm s Hs. destruct (Hl m Hm s Hs) as [?|[? _]]; done.
Qed.

(** After [unassign], the slots given are free again for the professor and
    for the group, whoever held them, and no other slot changes hands. *)
Theorem free_after_unassign t prof_id group_id slot_ids :
  (∀ p slot_ids',
     can_assign_professor (unassign t prof_id group_id slot_ids) p slot_ids'
     = true
     ↔ ∀ m, prof_schedule t !! p = Some m → ∀ s, s ∈ slot_ids' →
         m !! s = None ∨ (p = prof_id ∧ s ∈ slot_ids))
  ∧ (∀ g slot_ids',
       can_assign_group (unassign t prof_id group_id slot_ids) g slot_ids'
       = true
       ↔ ∀ m, group_schedule t !! g = Some m → ∀ s, s ∈ slot_ids' →
           m !! s = None ∨ (g = group_id ∧ s ∈ slot_ids)).
Proof.
  split; intros k slot_ids'; apply slots_free_pop_slots.
Qed.

(** ** Blocks of a course whose minimum exceeds its maximum *)

Lemma blocks_loop_bounds fuel remaining mn mx :
  0 < mn → 0 < mx → 0 ≤ remaining → (Z.to_nat remaining ≤ fuel)%nat →
  ∃ blocks,
    blocks_loop fuel remaining mn mx = Some blocks
    ∧ sum_list blocks = remaining
    ∧ Forall (λ b, 1 ≤ b ≤ Z.max mn mx) blocks
    ∧ (length blocks ≤ Z.to_nat remaining)%nat.
Proof.
  intros Hmn Hmx. revert remaining.
  induction fuel as [|fuel IH]; intros remaining H0 Hf.
  - assert (remaining = 0) as -> by lia. exists []. by repeat split.
  - destruct (Z.eq_dec remaining 0) as [->|Hne].
    { exists []. by repeat split. }
    cbn [blocks_loop]. rewrite (proj2 (Z.leb_gt remaining 0)) by lia.
    set (bd := if (Z.min remaining mx <? mn) && (mn <=? remaining)
               then mn else Z.min remaining mx).
    assert (1 ≤ bd ≤ remaining ∧ bd ≤ Z.max mn mx) as (Hbd & Hmax).
    { subst bd. destruct (_ <? _) eqn:E1; simpl.
      - destruct (mn <=? remaining) eqn:E2; [apply Z.leb_le in E2|]; lia.
      - lia. }
    destruct (IH (remaining - bd)) as (blocks & -> & Hsum & Hall & Hlen);
      [lia|lia|].
    exists (bd :: blocks). split; [done|]. split; [simpl; lia|].
    split; [constructor; [lia|done]|]. simpl. lia.
Qed.

Lemma blocks_loop_head fuel remaining mn mx blocks :
  0 < remaining → mx < mn ≤ remaining →
  blocks_loop fuel remaining mn mx = Some blocks → head blocks = Some mn.
Proof.
  intros Hr Hmn. destruct fuel as [|fuel]; cbn [blocks_loop];
    rewrite (proj2 (Z.leb_gt remaining 0)) by lia; [done|].
  rewrite (proj2 (Z.ltb_lt (Z.min remaining mx) mn)) by lia.
  rewrite (proj2 (Z.leb_le mn remaining)) by lia. simpl.
  destruct (blocks_loop _ _ _ _); [|done]. by intros [= <-].
Qed.

(** For every course that [models.py] accepts (three positive numbers, the
    minimum possibly above the maximum) [calculate_course_blocks] ends; the
    blocks add up to [weekly_hours], there are at most [weekly_hours] of
    them, and each has at least one hour and at most the larger of the two
    bounds.  When the minimum is above the maximum and within the weekly
    hours, the first block has the minimum as its length, more than the
    maximum. *)
Theorem calculate_course_blocks_total (course : Course.t) :
  0 < Course.weekly_hours course →
  0 < Course.min_block_duration course →
  0 < Course.max_block_duration course →
  ∃ blocks,
    calculate_course_blocks course = Some blocks
    ∧ sum_list blocks = Course.weekly_hours course
    ∧ Forall (λ b, 1 ≤ b ≤ Z.max (Course.min_block_duration course)
                               (Course.max_block_duration course)) blocks
    ∧ (length blocks ≤ Z.to_nat (Course.weekly_hours course))%nat
    ∧ (Course.max_block_duration course < Course.min_block_duration course
       ≤ Course.weekly_hours course →
       head blocks = Some (Course.min_block_duration course)).
Proof.
  intros Hw Hmn Hmx. unfold calculate_course_blocks.
  destruct (blocks_loop_bounds (Z.to_nat (Course.weekly_hours course))
              (Course.weekly_hours course) (Course.min_block_duration course)
              (Course.max_block_duration course))
    as (blocks & Hb & Hsum & Hall & Hlen); [lia..|].
  exists blocks. repeat split; try done.
  intros Hlt. by apply (blocks_loop_head _ _ _ _ _ Hw Hlt Hb).
Qed.

Lemma calculate_course_blocks_total_witness :
  ∃ blocks,
    calculate_course_blocks (Course.mk 3 "Taller" 7 3 2 "especialidad" None)
    = Some blocks
    ∧ sum_list blocks = 7
    ∧ Forall (λ b, 1 ≤ b ≤ Z.max 3 2) blocks
    ∧ (length blocks ≤ Z.to_nat 7)%nat
    ∧ (2 < 3 ≤ 7 → head blocks = Some 3).
Proof.
  apply (calculate_course_blocks_total
           (Course.mk 3 "Taller" 7 3 2 "especialidad" None)); simpl; lia.
Defined.

(** ** Runs of consecutive days *)

Lemma index_of_NoDup (l : list string) k d :
  NoDup l → l !! k = Some d → index_of d l = k.
Proof.
  intros Hnd. revert k. induction Hnd as [|x l Hx Hnd IH]; intros k; [done|].
  destruct k as [|k]; simpl.
  - intros [= ->]. by rewrite decide_True.
  - intros Hk. rewrite decide_False.
    + f_equal. by apply IH.
    + intros ->. apply Hx. by eapply list_elem_of_lookup_2.
Qed.

Lemma steps_of_one_seq i n : steps_of_one (seq i n) = true.
Proof.
  revert i. induction n as [|n IH]; intros i; [done|].
  destruct n as [|n]; [done|].
  change (seq i (S (S n))) with (i :: S i :: seq (S (S i)) n).
  cbn [steps_of_one]. rewrite bool_decide_eq_true_2 by lia.
  apply (IH (S i)).
Qed.

Lemma index_of_run (l : list string) i n :
  NoDup l → (i + n ≤ length l)%nat →
  map (λ d, index_of d l) (take n (drop i l)) = seq i n.
Proof.
  intros Hnd Hlen. apply list_eq. intros k.
  rewrite list_lookup_fmap, lookup_take, lookup_drop.
  destruct (decide (k < n)%nat) as [Hk|Hk].
  - rewrite lookup_seq_lt by done.
    destruct (lookup_lt_is_Some_2 l (i + k)) as [d Hd]; [lia|].
    rewrite Hd. simpl. f_equal. by apply index_of_NoDup.
  - by rewrite lookup_seq_ge by lia.
Qed.

(** [get_consecutive_day_sequences] returns exactly the runs of [n] days
    that follow one another in the order of the week and are all among the
    days given; days that are not days of the week are ignored, and a gap
    in the days given breaks a run. *)
Theorem consecutive_day_sequences_exact (days_list : list string) (n : nat)
    (days : list string) :
  days ∈ get_consecutive_day_sequences days_list n
  ↔ consecutive_days days n ∧ ∀ d, d ∈ days → d ∈ days_list.
Proof.
  split.
  - intros Hin. split; [apply (get_consecutive_day_sequences_spec _ _ _ Hin)|].
    unfold get_consecutive_day_sequences in Hin.
    apply list_elem_of_In, in_flat_map in Hin as (i & _ & Hd).
    destruct (steps_of_one _); [|by destruct Hd]. destruct Hd as [<-|[]].
    intros d Hd. apply subseteq_take, subseteq_drop in Hd.
    by apply list_elem_of_filter in Hd as [? _].
  - intros [(i & Hdays & Hlen) Hall].
    unfold get_consecutive_day_sequences.
    set (available := filter (λ d, d ∈ days_list) day_order).
    assert (filter (λ d, d ∈ days_list) days = days) as Hfd.
    { clear Hdays Hlen. induction days as [|d l IH]; [done|].
      rewrite filter_cons_True by (apply Hall; left).
      f_equal. apply IH. intros d' Hd'. apply Hall. by right. }
    assert (available
            = filter (λ d, d ∈ days_list) (take i day_order) ++ days
              ++ filter (λ d, d ∈ days_list) (drop n (drop i day_order)))
      as Hav.
    { unfold available.
      rewrite <- (take_drop i day_order) at 1. rewrite filter_app. f_equal.
      rewrite <- (take_drop n (drop i day_order)) at 1.
      by rewrite filter_app, <- Hdays, Hfd. }
    set (j := length (filter (λ d, d ∈ days_list) (take i day_order))).
    assert (take n (drop j available) = days) as Htake.
    { unfold j. rewrite Hav, drop_app_length. by apply take_app_length'. }
    apply list_elem_of_In, in_flat_map. exists j. split.
    + apply in_seq. split; [lia|]. rewrite Hav, !length_app, Hlen.
      fold j. clearbody j. lia.
    + fold available. rewrite Htake.
      destruct n as [|n]; [rewrite Hdays; by left|].
      assert (i + S n ≤ length day_order)%nat as Hbound.
      { rewrite Hdays, length_take, length_drop in Hlen. lia. }
      rewrite Hdays, index_of_run, steps_of_one_seq;
        [by left|apply day_order_NoDup|done].
Qed.

(** ** The blocks that [get_conflicting_blocks] reports *)

Lemma blocks_in_group_get slot_ids schedule key :
  Odict.get key (blocks_in_group slot_ids schedule)
  = match block_entries slot_ids key schedule with
    | [] => None
    | p :: l => Some (e_course p.2, map hour_of (p :: l))
    end.
Proof.
  unfold blocks_in_group, block_entries.
  induction schedule as [|[hid e] l IH] using rev_ind; [done|].
  rewrite foldl_app, filter_app. cbn [foldl].
  set (blocks := foldl _ [] l) in *.
  destruct (decide (e_slot e ∈ slot_ids)) as [Hs|Hs].
  - rewrite bool_decide_eq_true_2 by done.
    destruct (decide (block_key_of hid = key)) as [<-|Hk].
    + rewrite filter_cons_True, filter_nil by done.
      rewrite IH. destruct (filter _ l) as [|p l'] eqn:E.
      * by rewrite od_get_set_eq.
      * rewrite od_get_set_eq. cbn [app map]. by rewrite map_app.
    + rewrite filter_cons_False, filter_nil, app_nil_r by naive_solver.
      rewrite <- IH.
      destruct (Odict.get (block_key_of hid) blocks) as [[c0 hs0]|];
        by rewrite od_get_set_ne.
  - rewrite bool_decide_eq_false_2 by done.
    rewrite filter_cons_False, filter_nil, app_nil_r by naive_solver.
    apply IH.
Qed.

(** Every entry of every group whose slot is among the slots given belongs
    to a reported conflict, the requesting group included and whoever the
    professor and the room are.  The conflict of a block holds the hours of
    the block that fall in the slots given, in the order of the schedule,
    and not its other hours; its course is the one of the first of them. *)
Theorem conflicting_blocks_complete `{Runtime} (slot_ids : list Z)
    (group_id : Z) (all : list (Z * list (HourId * Entry)))
    (data : SchedulingData) (g : Z) (sched : list (HourId * Entry))
    (hid : HourId) (e : Entry) :
  (g, sched) ∈ all → (hid, e) ∈ sched → e_slot e ∈ slot_ids →
  ∃ c first,
    c ∈ get_conflicting_blocks slot_ids group_id all data
    ∧ c_group_id c = g
    ∧ block_key c = block_key_of hid
    ∧ hours c
      = map hour_of (block_entries slot_ids (block_key_of hid) sched)
    ∧ head (block_entries slot_ids (block_key_of hid) sched) = Some first
    ∧ c_course_id c = e_course first.2
    ∧ hour_of (hid, e) ∈ hours c.
Proof.
  intros Hall Hin Hs.
  pose proof (blocks_in_group_get slot_ids sched (block_key_of hid)) as Hget.
  assert ((hid, e) ∈ block_entries slot_ids (block_key_of hid) sched) as Hmem.
  { apply list_elem_of_filter. by repeat split. }
  destruct (block_entries slot_ids (block_key_of hid) sched) as [|p l] eqn:E;
    [by apply elem_of_nil in Hmem|].
  apply od_get_elem_of in Hget.
  exists (conflict_of data g (block_key_of hid,
                               (e_course p.2, map hour_of (p :: l)))), p.
  split.
  { unfold get_conflicting_blocks.
    apply list_elem_of_In, in_flat_map. exists (g, sched).
    split; [by apply list_elem_of_In|].
    apply list_elem_of_In, list_elem_of_fmap_2, Hget. }
  repeat split; try done. simpl.
  by apply (list_elem_of_fmap_2 hour_of) in Hmem.
Qed.

Lemma conflicting_blocks_complete_witness :
  ∃ c first,
    c ∈ get_conflicting_blocks (H := tape_runtime) [1019; 1020] 3
          (all_schedules c2_state) c2_data
    ∧ c_group_id c = 3
    ∧ block_key c = (3, 2, 1)
    ∧ hours c
      = map hour_of
          (block_entries [1019; 1020] (3, 2, 1)
             [(mkHourId 3 2 1 0, mkEntry 1017 101 2);
              (mkHourId 3 2 1 1, mkEntry 1019 101 2)])
    ∧ head (block_entries [1019; 1020] (3, 2, 1)
              [(mkHourId 3 2 1 0, mkEntry 1017 101 2);
               (mkHourId 3 2 1 1, mkEntry 1019 101 2)]) = Some first
    ∧ c_course_id c = e_course first.2
    ∧ hour_of (mkHourId 3 2 1 1, mkEntry 1019 101 2) ∈ hours c.
Proof.
  apply (conflicting_blocks_complete (H := tape_runtime) [1019; 1020] 3
           (all_schedules c2_state) c2_data 3
           [(mkHourId 3 2 1 0, mkEntry 1017 101 2);
            (mkHourId 3 2 1 1, mkEntry 1019 101 2)]
           (mkHourId 3 2 1 1) (mkEntry 1019 101 2)).
  - vm_compute. left.
  - right. left.
  - left.
Defined.

(** ** The positions of a day *)

Lemma elem_of_py_range n i : i ∈ py_range n ↔ 0 ≤ i < n.
Proof.
  unfold py_range. rewrite list_elem_of_fmap. split.
  - intros (k & -> & Hk%elem_of_seq). lia.
  - intros Hi. exists (Z.to_nat i). split; [lia|].
    apply elem_of_seq. lia.
Qed.

Lemma py_range_sorted n : StronglySorted Z.lt (py_range n).
Proof.
  unfold py_range. generalize (Z.to_nat n) as m. generalize O as a.
  intros a m. revert a. induction m as [|m IH]; intros a; simpl.
  - constructor.
  - constructor; [apply IH|]. apply Forall_forall.
    intros i (k & -> & Hk%elem_of_seq)%list_elem_of_fmap. lia.
Qed.

Lemma collect_positions_complete {A} (f : Z → result (option A)) idxs ps i :
  collect_positions f idxs = Ok ps → i ∈ idxs →
  ∃ o, f i = Ok o ∧ ∀ p, o = Some p → p ∈ ps.
Proof.
  revert ps. induction idxs as [|j l IH]; intros ps; simpl.
  - intros _ Hi. by apply elem_of_nil in Hi.
  - intros Hc. inv_bind Hc. inv_bind Hc. injection Hc as <-.
    intros [->|Hi]%elem_of_cons.
    + exists a. split; [done|]. intros p ->. left.
    + destruct (IH _ Hbind0 Hi) as (o & Ho & Hp). exists o. split; [done|].
      intros p Hop. destruct a; [right|]; by apply Hp.
Qed.

Lemma collect_positions_sorted {A} (f : Z → result (option A))
    (key : A → Z) idxs ps :
  (∀ i p, f i = Ok (Some p) → key p = i) →
  StronglySorted Z.lt idxs →
  collect_positions f idxs = Ok ps →
  StronglySorted Z.lt (map key ps).
Proof.
  intros Hkey Hs. revert ps.
  induction Hs as [|j l Hl IH Hj]; intros ps; simpl.
  - intros [= <-]. constructor.
  - intros Hc. inv_bind Hc. inv_bind Hc. injection Hc as <-.
    destruct a as [p|]; [|by apply IH]. simpl.
    constructor; [by apply IH|]. rewrite (Hkey _ _ Hbind).
    apply Forall_forall. intros k (q & -> & Hq)%list_elem_of_fmap.
    destruct (collect_positions_elem _ _ _ _ Hbind0 Hq) as (i & Hi & Hfi).
    rewrite (Hkey _ _ Hfi). by apply (proj1 (Forall_forall _ _) Hj).
Qed.

Lemma window_position_spec `{Runtime} data st group_id duration day day_slots
    prof_id room_id is_english fixed_hour i pos :
  window_position data st group_id duration day day_slots prof_id room_id
    is_english fixed_hour i = Ok (Some pos)
  ↔ ∃ first rest,
      py_slice day_slots i (i + duration) = first :: rest
      ∧ window_ok data st group_id prof_id room_id is_english fixed_hour
          (first :: rest)
      ∧ pos = {| pos_day := day; pos_start_idx := i;
                 pos_slots := first :: rest;
                 pos_slot_ids := map TimeSlot.id (first :: rest);
                 pos_first_hour := TimeSlot.start_time first;
                 pos_room_id := room_id; pos_prof_id := prof_id |}.
Proof.
  unfold window_ok. split.
  - unfold window_position. intros Hw. inv_bind Hw.
    destruct a; simpl in Hw; [|discriminate].
    destruct (py_slice day_slots i (i + duration)) as [|first rest];
      [discriminate|].
    repeat match type of Hw with
           | (if negb ?b then _ else _) = _ =>
               let E := fresh "E" in
               destruct b eqn:E; simpl in Hw; [|discriminate]
           | (if ?b then _ else _) = _ =>
               let E := fresh "E" in
               destruct b eqn:E; simpl in Hw; [discriminate|]
           end.
    injection Hw as <-. exists first, rest. repeat split; try done.
    intros -> Ht. rewrite Ht in E0. simpl in E0.
    by apply negb_false_iff, bool_decide_eq_true in E0.
  - intros (first & rest & Hs & (Hc & Ha & Hfix & Hp & Hg & Hr) & ->).
    unfold window_position. rewrite Hs, Hc. cbn [mbind result_bind negb].
    rewrite Ha, Hp, Hg, Hr. cbn [negb].
    destruct (is_english && truthy_str fixed_hour) eqn:E; [|done].
    apply andb_true_iff in E as [-> Ht]. cbn [andb].
    by rewrite bool_decide_eq_true_2 by by apply Hfix.
Qed.

(** When the pair has a professor with a room and the day has slots,
    [find_all_valid_positions] returns one position for each start index
    whose window of [duration] slots passes the tests, none for the others,
    and returns them by increasing start index. *)
Theorem find_all_valid_positions_exact `{Runtime} (course : Course.t)
    (group_id duration : Z) (day : string) (data : SchedulingData)
    (st : State) (is_english : bool) (fixed_hour : option string)
    (prof_id room_id : Z) (day_slots : list TimeSlot.t)
    (positions : list Position) :
  get_professor_for_group_course data group_id (Course.id course)
  = Some prof_id → prof_id ≠ 0 →
  get_professor_room data prof_id = Some room_id → room_id ≠ 0 →
  Odict.get day (slots_by_day data) = Some day_slots →
  find_all_valid_positions course group_id duration day data st is_english
    fixed_hour = Ok positions →
  StronglySorted Z.lt (map pos_start_idx positions)
  ∧ ∀ pos,
      pos ∈ positions
      ↔ ∃ first rest,
          0 ≤ pos_start_idx pos ≤ Z.of_nat (length day_slots) - duration
          ∧ py_slice day_slots (pos_start_idx pos)
              (pos_start_idx pos + duration) = first :: rest
          ∧ window_ok data st group_id prof_id room_id is_english fixed_hour
              (first :: rest)
          ∧ pos = {| pos_day := day; pos_start_idx := pos_start_idx pos;
                     pos_slots := first :: rest;
                     pos_slot_ids := map TimeSlot.id (first :: rest);
                     pos_first_hour := TimeSlot.start_time first;
                     pos_room_id := room_id; pos_prof_id := prof_id |}.
Proof.
  intros Hp Hp0 Hr Hr0 Hd. unfold find_all_valid_positions.
  rewrite Hp. simpl. rewrite (proj2 (Z.eqb_neq prof_id 0)) by done. simpl.
  rewrite Hr. simpl. rewrite (proj2 (Z.eqb_neq room_id 0)) by done. simpl.
  rewrite Hd. intros Hc. split.
  - eapply collect_positions_sorted; [|apply py_range_sorted|exact Hc].
    intros i p (? & ? & _ & _ & ->)%window_position_spec. done.
  - intros pos. split.
    + intros Hin.
      destruct (collect_positions_elem _ _ _ _ Hc Hin) as (i & Hi & Hw).
      apply elem_of_py_range in Hi.
      apply window_position_spec in Hw as (first & rest & Hs & Hok & ->).
      exists first, rest. cbn [pos_start_idx]. split; [lia|done].
    + intros (first & rest & Hi & Hs & Hok & Hpos).
      destruct (collect_positions_complete _ _ _ (pos_start_idx pos) Hc)
        as (o & Ho & Hin).
      { apply elem_of_py_range. lia. }
      apply Hin.
      rewrite (proj2 (window_position_spec _ _ _ _ _ _ _ _ _ _ _ pos)) in Ho
        by by exists first, rest.
      by injection Ho as <-.
Qed.

Lemma find_all_valid_positions_exact_witness :
  StronglySorted Z.lt (map pos_start_idx c2_positions).
Proof.
  apply (find_all_valid_positions_exact (H := tape_runtime) c2_calculo 3 2
           "Lunes" c2_data (initial_state [Group.mk 3 "3A" None]) false None
           8 101 (day_slots_of 1 "Lunes") c2_positions).
  - vm_compute. reflexivity.
  - discriminate.
  - vm_compute. reflexivity.
  - discriminate.
  - vm_compute. reflexivity.
  - vm_compute. reflexivity.
Defined.

(** ** A run in which no professor has a room *)

Lemma group_course_professor_assignment assignments g c p :
  build_group_course_professor assignments !! (g, c) = Some p →
  ∃ a, a ∈ assignments ∧ Assignment.professor_id a = p.
Proof.
  unfold build_group_course_professor.
  induction assignments as [|a l IH] using rev_ind; [done|].
  rewrite foldl_app. cbn [foldl].
  destruct (decide ((Assignment.group_id a, Assignment.course_id a) = (g, c)))
    as [->|Hne].
  - rewrite lookup_insert_eq. intros [= <-]. exists a. split; [|done].
    apply elem_of_app. right. left.
  - rewrite lookup_insert_ne by done. intros (a' & Ha & Hp)%IH.
    exists a'. split; [|done]. apply elem_of_app. by left.
Qed.

Lemma initial_state_group groups g :
  g ∈ groups →
  is_Some (Odict.get (Group.id g) (all_schedules (initial_state groups))).
Proof.
  cbn [all_schedules initial_state].
  induction groups as [|x l IH] using rev_ind;
    [by intros ?%elem_of_nil|].
  rewrite foldl_app. cbn [foldl].
  destruct (decide (Group.id x = Group.id g)) as [->|Hne].
  - rewrite od_get_set_eq. eauto.
  - rewrite od_get_set_ne by done.
    intros [Hg|Hg%list_elem_of_singleton]%elem_of_app; [by apply IH|].
    by subst.
Qed.

Section no_room.
Context `{Runtime}.
Context (cs : list Course.t) (rs : list Room.t) (timeslots : list TimeSlot.t)
  (profs : list Professor.t) (assignments : list Assignment.t)
  (prof_rooms : gmap Z Z).
Hypothesis Hpositive :
  ∀ c, c ∈ cs →
    0 < Course.weekly_hours c ∧ 0 < Course.min_block_duration c
    ∧ 0 < Course.max_block_duration c.
Hypothesis Hno_room :
  ∀ a, a ∈ assignments →
    truthy_int (prof_rooms !! Assignment.professor_id a) = false.

Local Abbreviation data :=
  (SchedulingData_init cs rs timeslots profs assignments prof_rooms).

Lemma force_assign_no_room course group_id is_english block_durations
    max_attempts r st :
  force_assign_with_displacement course group_id data is_english
    block_durations max_attempts r st
  = Ok (false, r, st).
Proof.
  unfold force_assign_with_displacement.
  destruct (truthy_int (get_professor_for_group_course _ _ _)) eqn:Hp;
    [|done].
  apply truthy_int_Some in Hp as (p & Hp & _). rewrite Hp. simpl.
  apply group_course_professor_assignment in Hp as (a & Ha & <-).
  unfold get_professor_room. cbn [professor_rooms SchedulingData_init].
  by rewrite (Hno_room a Ha).
Qed.

Lemma place_course_groups_no_room course is_english block_durations
    group_ids r st :
  place_course_groups data course is_english block_durations group_ids r st
  = Ok (r, st).
Proof.
  induction group_ids as [|g l IH]; [done|].
  cbn [place_course_groups]. by rewrite force_assign_no_room.
Qed.

Lemma first_pass_no_room english sorted_courses r st :
  (∀ c, c ∈ sorted_courses → c ∈ cs) →
  first_pass data assignments english sorted_courses r st = Ok (r, st).
Proof.
  induction sorted_courses as [|c l IH]; [done|]. intros Hin.
  cbn [first_pass].
  destruct (Hpositive c) as (Hw & Hmn & Hmx); [apply Hin; left|].
  destruct (blocks_loop_total (Z.to_nat (Course.weekly_hours c))
              (Course.weekly_hours c) (Course.min_block_duration c)
              (Course.max_block_duration c)) as [blocks Hb]; [done..|].
  unfold calculate_course_blocks. rewrite Hb, place_course_groups_no_room.
  apply IH. intros c' Hc'. apply Hin. by right.
Qed.

Lemma verify_group_no_room group schedule l r st :
  verify_group data group schedule l r st = Ok (r, st).
Proof.
  induction l as [|a l IH]; [done|]. cbn [verify_group].
  destruct (bool_decide _); [|done]. destruct (courses data !! _); [|done].
  destruct (_ <? _); [|done]. by rewrite force_assign_no_room.
Qed.

Lemma second_pass_no_room groups r st :
  (∀ g, g ∈ groups → is_Some (Odict.get (Group.id g) (all_schedules st))) →
  second_pass data assignments groups r st = Ok (r, st).
Proof.
  induction groups as [|g l IH]; [done|]. intros Hin. cbn [second_pass].
  destruct (Hin g) as [schedule ->]; [left|].
  rewrite verify_group_no_room. apply IH. intros g' Hg'. apply Hin. by right.
Qed.

(** If none of the professors of the assignments has a room (an id of [0]
    counts as none), the run, for courses that [models.py] accepts, ends
    without an exception, draws no random number and places nothing: every
    group of the input gets an empty schedule. *)
Theorem no_room_nothing_placed (groups : list Group.t) (r : Rng) :
  run_all_groups cs rs timeslots profs assignments prof_rooms groups r
  = Ok (r, initial_state groups).
Proof.
  unfold run_all_groups. rewrite first_pass_no_room.
  - cbn [mbind result_bind]. apply second_pass_no_room.
    intros g Hg. by apply initial_state_group.
  - intros c [Hc|Hc]%elem_of_app.
    + apply list_elem_of_filter in Hc as [_ Hc].
      eapply unique_courses_known in Hc.
      * by apply dict_by_lookup in Hc as [_ ?].
      * intros k x Hk. by apply dict_by_lookup in Hk as [? _].
    + apply elem_of_sort_by_hours_desc, list_elem_of_filter in Hc as [_ Hc].
      eapply unique_courses_known in Hc.
      * by apply dict_by_lookup in Hc as [_ ?].
      * intros k x Hk. by apply dict_by_lookup in Hk as [? _].
Qed.
End no_room.

Lemma no_room_nothing_placed_witness :
  run_all_groups (H := tape_runtime) ex_courses [] (week_slots 5)
    ex_professors ex_assignments ∅ ex_groups ex_tape
  = Ok (ex_tape, initial_state ex_groups).
Proof.
  apply (no_room_nothing_placed (H := tape_runtime) ex_courses []
           (week_slots 5) ex_professors ex_assignments ∅).
  - intros c Hc. vm_compute in Hc.
    repeat (apply elem_of_cons in Hc as [->|Hc]; [vm_compute; done|]).
    by apply elem_of_nil in Hc.
  - intros a _. reflexivity.
Defined.

(** * The schedule stays consistent with the tracker *)

(** ** Dictionaries without repeated keys *)

Section odict_nodup.
Context {K V : Type} `{EqDecision K}.
Implicit Types (d : list (K * V)) (k : K) (v : V).

Lemma od_get_None k d : Odict.get k d = None ↔ k ∉ Odict.keys d.
Proof.
  unfold Odict.keys. induction d as [|[k' v'] d IH]; simpl.
  - split; [intros _ ?%elem_of_nil|]; done.
  - destruct (decide (k = k')) as [->|Hne].
    + split; [done|]. intros []. left.
    + rewrite IH, not_elem_of_cons. tauto.
Qed.

Lemma od_elem_of_get k v d :
  NoDup (Odict.keys d) → (k, v) ∈ d → Odict.get k d = Some v.
Proof.
  unfold Odict.keys. induction d as [|[k' v'] d IH]; simpl.
  - by intros _ ?%elem_of_nil.
  - intros [Hk Hnd]%NoDup_cons [[= -> ->]|Hin]%elem_of_cons.
    + by rewrite decide_True.
    + rewrite decide_False; [by apply IH|].
      intros ->. apply Hk. by apply (list_elem_of_fmap_2 fst) in Hin.
Qed.

Lemma od_keys_set_new k v d :
  Odict.get k d = None → Odict.keys (Odict.set k v d) = Odict.keys d ++ [k].
Proof.
  unfold Odict.keys. induction d as [|[k0 v0] d IH]; simpl; [done|].
  destruct (decide (k = k0)) as [->|Hne]; [done|]. simpl.
  intros Hg. by rewrite IH.
Qed.

Lemma od_set_NoDup k v d :
  NoDup (Odict.keys d) → NoDup (Odict.keys (Odict.set k v d)).
Proof.
  intros Hnd. destruct (Odict.get k d) as [v0|] eqn:E.
  - by rewrite od_keys_set by eauto.
  - rewrite od_keys_set_new by done. apply NoDup_app. split; [done|].
    split; [|apply NoDup_singleton].
    intros k' Hk' ->%list_elem_of_singleton. by apply od_get_None in E.
Qed.

Lemma od_del_sublist k d : Odict.keys (Odict.del k d) `sublist_of` Odict.keys d.
Proof.
  unfold Odict.keys. induction d as [|[k0 v0] d IH]; simpl; [done|].
  destruct (decide (k = k0)) as [->|Hne]; simpl.
  - by apply sublist_cons.
  - by apply sublist_skip.
Qed.

Lemma od_del_NoDup k d :
  NoDup (Odict.keys d) → NoDup (Odict.keys (Odict.del k d)).
Proof. intros Hnd. eapply sublist_NoDup; [done|apply od_del_sublist]. Qed.

Lemma od_get_del_eq k d :
  NoDup (Odict.keys d) → Odict.get k (Odict.del k d) = None.
Proof.
  unfold Odict.keys. induction d as [|[k0 v0] d IH]; simpl; [done|].
  intros [Hk Hnd]%NoDup_cons.
  destruct (decide (k = k0)) as [->|Hne]; simpl.
  - by apply od_get_None.
  - rewrite decide_False by done. by apply IH.
Qed.

Lemma od_get_del k k' d :
  NoDup (Odict.keys d) →
  Odict.get k' (Odict.del k d)
  = if decide (k' = k) then None else Odict.get k' d.
Proof.
  intros Hnd. destruct (decide (k' = k)) as [->|Hne].
  - by apply od_get_del_eq.
  - by apply od_get_del_ne.
Qed.

Lemma od_get_set k v k' d :
  Odict.get k' (Odict.set k v d)
  = if decide (k' = k) then Some v else Odict.get k' d.
Proof.
  destruct (decide (k' = k)) as [->|Hne].
  - apply od_get_set_eq.
  - by apply od_get_set_ne.
Qed.

End odict_nodup.

(** ** Entries after the elementary updates *)

Lemma keys_ok_inner st g sched :
  keys_ok st → Odict.get g (all_schedules st) = Some sched →
  NoDup (Odict.keys sched).
Proof. intros [_ Hin]. apply Hin. Qed.

Lemma keys_ok_set st g sched sched0 :
  keys_ok st →
  Odict.get g (all_schedules st) = Some sched0 →
  NoDup (Odict.keys sched) →
  keys_ok (with_schedules st (Odict.set g sched (all_schedules st))).
Proof.
  intros [Hout Hin] Hg Hnd. split; simpl.
  - by rewrite od_keys_set by eauto.
  - intros g' sched'. rewrite od_get_set.
    destruct (decide (g' = g)) as [->|Hne]; [by intros [= <-]|apply Hin].
Qed.

Lemma write_entry_has st g hid e st' :
  keys_ok st → write_entry st g hid e = Ok st' →
  keys_ok st'
  ∧ room_usage st' = room_usage st ∧ tracker st' = tracker st
  ∧ Odict.keys (all_schedules st') = Odict.keys (all_schedules st)
  ∧ ∀ g' hid' e',
      has_entry st' g' hid' e'
      ↔ (g' = g ∧ hid' = hid ∧ e' = e)
        ∨ (¬ (g' = g ∧ hid' = hid) ∧ has_entry st g' hid' e').
Proof.
  intros Hok. unfold write_entry.
  destruct (Odict.get g (all_schedules st)) as [sched|] eqn:E; [|done].
  intros [= <-]. split.
  { eapply keys_ok_set; [done..|]. apply od_set_NoDup.
    by eapply keys_ok_inner. }
  split; [done|]. split; [done|]. split.
  { simpl. by rewrite od_keys_set by eauto. }
  intros g' hid' e'. unfold has_entry. simpl. rewrite od_get_set.
  destruct (decide (g' = g)) as [->|Hne].
  - split.
    + intros (? & [= <-] & He). rewrite od_get_set in He.
      destruct (decide (hid' = hid)) as [->|Hne].
      * injection He as <-. by left.
      * right. split; [naive_solver|]. by exists sched.
    + intros [(_ & -> & ->)|[Hne (s & Hs & He)]].
      * eexists. split; [done|]. apply od_get_set_eq.
      * eexists. split; [done|]. rewrite od_get_set, decide_False.
        -- by rewrite E in Hs; injection Hs as <-.
        -- naive_solver.
  - split.
    + intros (s & Hs & He). right. split; [naive_solver|]. by exists s.
    + intros [(? & _)|[_ ?]]; done.
Qed.

Lemma delete_entry_has st g hid st' :
  keys_ok st → delete_entry st g hid = Ok st' →
  keys_ok st'
  ∧ room_usage st' = room_usage st ∧ tracker st' = tracker st
  ∧ Odict.keys (all_schedules st') = Odict.keys (all_schedules st)
  ∧ ∀ g' hid' e',
      has_entry st' g' hid' e'
      ↔ ¬ (g' = g ∧ hid' = hid) ∧ has_entry st g' hid' e'.
Proof.
  intros Hok. unfold delete_entry.
  destruct (Odict.get g (all_schedules st)) as [sched|] eqn:E; [|done].
  intros [= <-]. split.
  { eapply keys_ok_set; [done..|]. apply od_del_NoDup.
    by eapply keys_ok_inner. }
  split; [done|]. split; [done|]. split.
  { simpl. by rewrite od_keys_set by eauto. }
  assert (NoDup (Odict.keys sched)) as Hnd by by eapply keys_ok_inner.
  intros g' hid' e'. unfold has_entry. simpl. rewrite od_get_set.
  destruct (decide (g' = g)) as [->|Hne].
  - split.
    + intros (? & [= <-] & He). rewrite od_get_del in He by done.
      destruct (decide (hid' = hid)) as [->|Hne]; [done|].
      split; [naive_solver|]. by exists sched.
    + intros [Hne (s & Hs & He)]. eexists. split; [done|].
      rewrite od_get_del, decide_False by naive_solver.
      by rewrite E in Hs; injection Hs as <-.
  - split.
    + intros (s & Hs & He). split; [naive_solver|]. by exists s.
    + by intros [_ ?].
Qed.

(** ** Who holds a slot after an update of the tracker *)

Lemma can_assign_group_holds st g slot_ids :
  can_assign_group (tracker st) g slot_ids = true
  ↔ ∀ s, s ∈ slot_ids → ¬ group_holds st g s.
Proof.
  unfold can_assign_group, group_holds. rewrite slots_free_spec. split.
  - intros Hfree s Hs (m & Hm & Hx). rewrite (Hfree m Hm s Hs) in Hx.
    by destruct Hx.
  - intros Hfree m Hm s Hs. destruct (m !! s) eqn:E; [|done].
    destruct (Hfree s Hs). exists m. rewrite E. eauto.
Qed.

Lemma can_assign_professor_holds st p slot_ids :
  can_assign_professor (tracker st) p slot_ids = true
  ↔ ∀ s, s ∈ slot_ids → ∀ g, ¬ prof_holds st p s g.
Proof.
  unfold can_assign_professor, prof_holds. rewrite slots_free_spec. split.
  - intros Hfree s Hs g (m & Hm & Hx). by rewrite (Hfree m Hm s Hs) in Hx.
  - intros Hfree m Hm s Hs. destruct (m !! s) as [g|] eqn:E; [|done].
    destruct (Hfree s Hs g). by exists m.
Qed.

Lemma is_room_available_holds st room slot_ids :
  is_room_available (room_usage st) room slot_ids = true
  ↔ ∀ s, s ∈ slot_ids → ¬ room_holds st room s.
Proof.
  unfold room_holds. rewrite is_room_available_spec. split.
  - intros Hfree s Hs (used & Hu & Hx). by apply (Hfree used Hu s Hs).
  - intros Hfree used Hu s Hs Hx. apply (Hfree s Hs). by exists used.
Qed.

Lemma group_holds_assign st st' p g slot_ids cid g' s :
  group_schedule (tracker st')
  = group_schedule (assign (tracker st) p g slot_ids cid) →
  group_holds st' g' s ↔ group_holds st g' s ∨ (g' = g ∧ s ∈ slot_ids).
Proof.
  unfold group_holds. intros ->. cbn [group_schedule assign].
  rewrite lookup_write_slots. destruct (decide (g' = g)) as [->|Hne].
  - split.
    + intros (? & [= <-] & Hx). rewrite lookup_foldl_insert in Hx.
      destruct (decide (s ∈ slot_ids)); [by right|]. left.
      destruct (group_schedule (tracker st) !! g) as [m|]; [by exists m|].
      simpl in Hx. rewrite lookup_empty in Hx. by destruct Hx.
    + intros Hx. eexists. split; [done|]. rewrite lookup_foldl_insert.
      destruct (decide (s ∈ slot_ids)); [eauto|].
      destruct Hx as [(m & -> & Hx)|[_ ?]]; done.
  - split; [by left|]. by intros [?|[? _]].
Qed.

Lemma prof_holds_assign st st' p g slot_ids cid p' s g' :
  prof_schedule (tracker st')
  = prof_schedule (assign (tracker st) p g slot_ids cid) →
  prof_holds st' p' s g'
  ↔ (p' = p ∧ s ∈ slot_ids ∧ g' = g)
    ∨ (¬ (p' = p ∧ s ∈ slot_ids) ∧ prof_holds st p' s g').
Proof.
  unfold prof_holds. intros ->. cbn [prof_schedule assign].
  rewrite lookup_write_slots. destruct (decide (p' = p)) as [->|Hne].
  - split.
    + intros (? & [= <-] & Hx). rewrite lookup_foldl_insert in Hx.
      destruct (decide (s ∈ slot_ids)).
      * injection Hx as <-. by left.
      * right. split; [naive_solver|].
        destruct (prof_schedule (tracker st) !! p) as [m|]; [by exists m|].
        simpl in Hx. by rewrite lookup_empty in Hx.
    + intros Hx. eexists. split; [done|]. rewrite lookup_foldl_insert.
      destruct (decide (s ∈ slot_ids)).
      * destruct Hx as [(_ & _ & ->)|[[] _]]; done.
      * destruct Hx as [(_ & ? & _)|[_ (m & -> & Hx)]]; done.
  - split.
    + intros Hx. right. split; [naive_solver|done].
    + by intros [(? & _)|[_ ?]].
Qed.

Lemma room_holds_mark st st' room slot_ids r s :
  room_usage st' = mark_room_used (room_usage st) room slot_ids →
  room_holds st' r s ↔ room_holds st r s ∨ (r = room ∧ s ∈ slot_ids).
Proof.
  unfold room_holds. intros ->. rewrite lookup_mark_room_used.
  destruct (decide (r = room)) as [->|Hne].
  - split.
    + intros (? & [= <-] & [Hx|Hx]%elem_of_union).
      * left. destruct (room_usage st !! room) as [used|]; [by exists used|].
        set_solver.
      * right. set_solver.
    + intros Hx. eexists. split; [done|].
      destruct Hx as [(used & -> & Hx)|[_ Hx]]; set_solver.
  - split; [by left|]. by intros [?|[? _]].
Qed.

Lemma group_holds_unassign st st' p g slot_ids g' s :
  group_schedule (tracker st')
  = group_schedule (unassign (tracker st) p g slot_ids) →
  group_holds st' g' s ↔ group_holds st g' s ∧ ¬ (g' = g ∧ s ∈ slot_ids).
Proof.
  unfold group_holds. intros ->. cbn [group_schedule unassign].
  rewrite lookup_pop_slots. destruct (decide (g' = g)) as [->|Hne].
  - destruct (group_schedule (tracker st) !! g) as [m|]; simpl.
    + split.
      * intros (? & [= <-] & Hx). rewrite lookup_foldl_delete in Hx.
        destruct (decide (s ∈ slot_ids)); [by destruct Hx|].
        split; [by exists m|naive_solver].
      * intros [(? & [= <-] & Hx) Hne]. eexists. split; [done|].
        rewrite lookup_foldl_delete, decide_False; naive_solver.
    + split; [by intros (? & ? & _)|by intros [(? & ? & _) _]].
  - split; [intros Hx; split; [done|naive_solver]|by intros [? _]].
Qed.

Lemma prof_holds_unassign st st' p g slot_ids p' s g' :
  prof_schedule (tracker st')
  = prof_schedule (unassign (tracker st) p g slot_ids) →
  prof_holds st' p' s g'
  ↔ prof_holds st p' s g' ∧ ¬ (p' = p ∧ s ∈ slot_ids).
Proof.
  unfold prof_holds. intros ->. cbn [prof_schedule unassign].
  rewrite lookup_pop_slots. destruct (decide (p' = p)) as [->|Hne].
  - destruct (prof_schedule (tracker st) !! p) as [m|]; simpl.
    + split.
      * intros (? & [= <-] & Hx). rewrite lookup_foldl_delete in Hx.
        destruct (decide (s ∈ slot_ids)); [done|].
        split; [by exists m|naive_solver].
      * intros [(? & [= <-] & Hx) Hne]. eexists. split; [done|].
        rewrite lookup_foldl_delete, decide_False; naive_solver.
    + split; [by intros (? & ? & _)|by intros [(? & ? & _) _]].
  - split; [intros Hx; split; [done|naive_solver]|by intros [? _]].
Qed.

Lemma room_holds_unmark st st' room slot_ids r s :
  room_usage st' = unmark_room_used (room_usage st) room slot_ids →
  room_holds st' r s ↔ room_holds st r s ∧ ¬ (r = room ∧ s ∈ slot_ids).
Proof.
  unfold room_holds. intros ->. rewrite lookup_unmark_room_used.
  destruct (decide (r = room)) as [->|Hne].
  - destruct (room_usage st !! room) as [used|]; simpl.
    + split.
      * intros (? & [= <-] & Hx). split; [exists used|]; set_solver.
      * intros [(? & [= <-] & Hx) Hne]. eexists. split; [done|].
        set_solver.
    + split; [by intros (? & ? & _)|by intros [(? & ? & _) _]].
  - split; [intros Hx; split; [done|naive_solver]|by intros [? _]].
Qed.

(** ** Adding and removing entries *)

Lemma teaches_fun data g cid p room p' room' :
  teaches data g cid p room → teaches data g cid p' room' →
  p = p' ∧ room = room'.
Proof.
  intros (Hp & _ & Hr & _) (Hp' & _ & Hr' & _).
  rewrite Hp in Hp'. injection Hp' as <-.
  rewrite Hr in Hr'. by injection Hr' as <-.
Qed.

Lemma NoDup_snd_inj {A B} (N : list (A * B)) a1 a2 b :
  NoDup (map snd N) → (a1, b) ∈ N → (a2, b) ∈ N → a1 = a2.
Proof.
  induction N as [|[a b'] N IH]; simpl; [by intros _ ?%elem_of_nil|].
  intros [Hb Hnd]%NoDup_cons [[= -> ->]|H1]%elem_of_cons
    [[= ->]|H2]%elem_of_cons; try done.
  - destruct Hb. by apply (list_elem_of_fmap_2 snd) in H2.
  - simplify_eq. destruct Hb. by apply (list_elem_of_fmap_2 snd) in H1.
  - by apply IH.
Qed.

Lemma consistent_same data st st' :
  consistent data st →
  all_schedules st' = all_schedules st →
  room_usage st' = room_usage st →
  prof_schedule (tracker st') = prof_schedule (tracker st) →
  group_schedule (tracker st') = group_schedule (tracker st) →
  consistent data st'.
Proof.
  intros [Hk He Hg Hr] Ha Hru Hps Hgs.
  assert (∀ g hid e, has_entry st' g hid e ↔ has_entry st g hid e) as Hh.
  { intros g hid e. unfold has_entry. by rewrite Ha. }
  split.
  - unfold keys_ok. by rewrite Ha.
  - intros g hid e (Hc & p & Ht & Hav & Hgh & Hph & Hrh)%Hh%He.
    split; [done|]. exists p. split; [done|]. split; [done|].
    split; [|split].
    + unfold group_holds. by rewrite Hgs.
    + unfold prof_holds. by rewrite Hps.
    + unfold room_holds. by rewrite Hru.
  - intros g hid1 e1 hid2 e2 H1%Hh H2%Hh. by apply (Hg g).
  - intros g1 hid1 e1 g2 hid2 e2 H1%Hh H2%Hh. by apply (Hr g1 hid1 e1 g2 hid2 e2).
Qed.

Section add_remove.
Context (data : SchedulingData) (st st' : State).
Hypothesis Hcons : consistent data st.

Lemma consistent_add g p room cid (N : list (HourId * Z)) :
  teaches data g cid p room →
  fresh data st g p room cid N →
  adds st st' g p room cid N →
  consistent data st'.
Proof.
  intros Ht [Hnd Hnew] [Hkeys _ Hent Hgh Hph Hrh].
  destruct Hcons as [_ He Hg Hr].
  assert (∀ hid s, (hid, s) ∈ N → s ∈ map snd N) as Hin.
  { intros hid s Hs. by apply (list_elem_of_fmap_2 snd) in Hs. }
  split; [done|..].
  - intros g' hid e [(-> & s & Hs & ->)|Hold]%Hent.
    + destruct (Hnew _ _ Hs) as (Hc & Hav & _). split; [done|].
      exists p. cbn [e_slot e_room e_course]. split; [done|].
      split; [done|]. split; [|split].
      * apply Hgh. right. eauto.
      * apply Hph. left. eauto.
      * apply Hrh. right. eauto.
    + destruct (He _ _ _ Hold) as (Hc & p0 & Ht0 & Hav & H1 & H2 & H3).
      split; [done|]. exists p0. split; [done|]. split; [done|].
      split; [|split].
      * apply Hgh. by left.
      * apply Hph. right. split; [|done]. intros [-> Hs].
        apply list_elem_of_fmap in Hs as ([hid' s'] & Heq & Hs).
        destruct (Hnew _ _ Hs) as (_ & _ & _ & Hfree & _).
        simpl in Heq. rewrite Heq in H2. by apply (Hfree g').
      * apply Hrh. by left.
  - intros g' hid1 e1 hid2 e2
      [(-> & s1 & Hs1 & ->)|Hold1]%Hent [(Hgg & s2 & Hs2 & ->)|Hold2]%Hent;
      cbn [e_slot].
    + intros <-. by eapply NoDup_snd_inj.
    + intros Hs. destruct (Hnew _ _ Hs1) as (_ & _ & Hfree & _).
      destruct (He _ _ _ Hold2) as (_ & ? & _ & _ & Hh & _).
      rewrite <- Hs in Hh. done.
    + intros Hs. subst g'. destruct (Hnew _ _ Hs2) as (_ & _ & Hfree & _).
      destruct (He _ _ _ Hold1) as (_ & ? & _ & _ & Hh & _).
      rewrite Hs in Hh. done.
    + by apply (Hg g').
  - intros g1 hid1 e1 g2 hid2 e2
      [(-> & s1 & Hs1 & ->)|Hold1]%Hent [(-> & s2 & Hs2 & ->)|Hold2]%Hent;
      cbn [e_slot e_room]; try done.
    + intros Hroom Hs. destruct (Hnew _ _ Hs1) as (_ & _ & _ & _ & Hfree).
      destruct (He _ _ _ Hold2) as (_ & ? & _ & _ & _ & _ & Hh).
      rewrite <- Hroom, <- Hs in Hh. done.
    + intros Hroom Hs. destruct (Hnew _ _ Hs2) as (_ & _ & _ & _ & Hfree).
      destruct (He _ _ _ Hold1) as (_ & ? & _ & _ & _ & _ & Hh).
      rewrite Hroom, Hs in Hh. done.
    + by apply (Hr g1 hid1 e1 g2 hid2 e2).
Qed.

Lemma consistent_remove g p room (K : list HourId) (S : list Z) :
  (∀ hid e, has_entry st g hid e → e_slot e ∈ S → hid ∈ K) →
  (∀ g' hid e, has_entry st g' hid e → e_room e = room → e_slot e ∈ S →
     g' = g) →
  (∀ s, s ∈ S → prof_holds st p s g) →
  removes st st' g p room K S →
  consistent data st'.
Proof.
  intros Hown Hroom Hheld [Hkeys _ Hent Hgh Hph Hrh].
  destruct Hcons as [_ He Hg Hr].
  split; [done|..].
  - intros g' hid e [Hne Hold]%Hent.
    destruct (He _ _ _ Hold) as (Hc & p0 & Ht0 & Hav & H1 & H2 & H3).
    split; [done|]. exists p0. split; [done|]. split; [done|].
    split; [|split].
    + apply Hgh. split; [done|]. intros [-> Hs]. apply Hne. split; [done|].
      by eapply Hown.
    + apply Hph. split; [done|]. intros [-> Hs].
      destruct H2 as (m & Hm & Hx), (Hheld _ Hs) as (m' & Hm' & Hx').
      rewrite Hm in Hm'. injection Hm' as <-. rewrite Hx in Hx'.
      injection Hx' as ->. apply Hne. split; [done|]. by eapply Hown.
    + apply Hrh. split; [done|]. intros [Hrm Hs].
      assert (g' = g) as -> by by eapply Hroom.
      apply Hne. split; [done|]. by eapply Hown.
  - intros g' hid1 e1 hid2 e2 [_ H1]%Hent [_ H2]%Hent. by apply (Hg g').
  - intros g1 hid1 e1 g2 hid2 e2 [_ H1]%Hent [_ H2]%Hent.
    by apply (Hr g1 hid1 e1 g2 hid2 e2).
Qed.

End add_remove.

(** ** Conflicts that wait for their relocation *)

Section frame.
Context (data : SchedulingData) (st st' : State).
Context (c : Conflict) (p room : Z).

(** The release of slots that the conflict does not share. *)
Lemma relocatable_removes g0 p0 room0 K S :
  relocatable data st c p room →
  (c_group_id c = g0 ∨ p = p0 ∨ room = room0 →
   ∀ s, s ∈ S → s ∉ map slot_id (hours c)) →
  removes st st' g0 p0 room0 K S →
  relocatable data st' c p room.
Proof.
  intros [Ht Hco Hh Hi Hs Hown Hroom Hheld] Hsep [_ _ Hent Hgh Hph Hrh].
  split; try done.
  - intros hid e [_ Hold]%Hent. by apply (Hown hid e).
  - intros g hid e [_ Hold]%Hent. by apply (Hroom g hid e).
  - intros s Hin. destruct (Hheld s Hin) as (H1 & H2 & H3).
    split; [|split].
    + apply Hgh. split; [done|]. intros [Hg HS].
      by apply (Hsep (or_introl Hg) s).
    + apply Hph. split; [done|]. intros [Hp HS].
      by apply (Hsep (or_intror (or_introl Hp)) s).
    + apply Hrh. split; [done|]. intros [Hr HS].
      by apply (Hsep (or_intror (or_intror Hr)) s).
Qed.

(** The addition of entries at slots that nobody held. *)
Lemma relocatable_adds g0 p0 room0 cid N :
  relocatable data st c p room →
  fresh data st g0 p0 room0 cid N →
  adds st st' g0 p0 room0 cid N →
  relocatable data st' c p room.
Proof.
  intros [Ht Hco Hh Hi Hs Hown Hroom Hheld] [_ Hnew] [_ _ Hent Hgh Hph Hrh].
  split; try done.
  - intros hid e [(Hg & s & HN & ->)|Hold]%Hent;
      [|by apply (Hown hid e)].
    cbn [e_slot]. intros Hin. destruct (Hheld s Hin) as (H1 & _).
    destruct (Hnew _ _ HN) as (_ & _ & Hfree & _). by rewrite Hg in H1.
  - intros g hid e [(Hg & s & HN & ->)|Hold]%Hent;
      [|by apply (Hroom g hid e)].
    cbn [e_slot e_room]. intros <- Hin.
    destruct (Hheld s Hin) as (_ & _ & H3).
    by destruct (Hnew _ _ HN) as (_ & _ & _ & _ & Hfree).
  - intros s Hin. destruct (Hheld s Hin) as (H1 & H2 & H3).
    split; [|split].
    + apply Hgh. by left.
    + apply Hph. right. split; [|done]. intros [-> HN].
      apply list_elem_of_fmap in HN as ([hid' s'] & Heq & HN).
      destruct (Hnew _ _ HN) as (_ & _ & _ & Hfree & _).
      simpl in Heq. subst s'. by apply (Hfree (c_group_id c)).
    + apply Hrh. by left.
Qed.

End frame.

(** ** Entries after the writes of a block *)

Lemma write_block_has st group_id g c b j slot_ids room cid st' :
  keys_ok st →
  write_block st group_id g c b j slot_ids room cid = Ok st' →
  keys_ok st'
  ∧ room_usage st' = room_usage st ∧ tracker st' = tracker st
  ∧ Odict.keys (all_schedules st') = Odict.keys (all_schedules st)
  ∧ ∀ g' hid e,
      has_entry st' g' hid e →
      (g' = group_id
       ∧ ∃ i s, slot_ids !! i = Some s ∧ hid = mkHourId g c b (j + i)
                ∧ e = mkEntry s room cid)
      ∨ has_entry st g' hid e.
Proof.
  revert st j. induction slot_ids as [|s l IH]; intros st j Hok; simpl.
  - intros [= <-]. do 4 (split; [done|]). intros g' hid e Hh. by right.
  - intros Hw. inv_bind Hw.
    apply write_entry_has in Hbind as (Hok1 & Hr1 & Ht1 & Hk1 & He1);
      [|done].
    apply IH in Hw as (Hok2 & Hr2 & Ht2 & Hk2 & He2); [|done].
    split; [done|]. split; [congruence|]. split; [congruence|].
    split; [congruence|].
    intros g' hid e [(-> & i & s' & Hi & -> & ->)|Hold]%He2.
    + left. split; [done|]. exists (S i), s'. split; [done|].
      split; [|done]. f_equal. lia.
    + apply He1 in Hold as [(-> & -> & ->)|[_ Hold]]; [|by right].
      left. split; [done|]. exists O, s. split; [done|].
      split; [|done]. f_equal. lia.
Qed.

Lemma delete_hours_has st g hs st' :
  keys_ok st → delete_hours st g hs = Ok st' →
  keys_ok st'
  ∧ room_usage st' = room_usage st ∧ tracker st' = tracker st
  ∧ Odict.keys (all_schedules st') = Odict.keys (all_schedules st)
  ∧ ∀ g' hid e,
      has_entry st' g' hid e
      ↔ ¬ (g' = g ∧ hid ∈ map hour_id hs) ∧ has_entry st g' hid e.
Proof.
  revert st. induction hs as [|h l IH]; intros st Hok; simpl.
  - intros [= <-]. split; [done|]. do 3 (split; [done|]).
    intros g' hid e. split; [|by intros [_ ?]].
    intros Hh. split; [by intros [_ ?%elem_of_nil]|done].
  - intros Hd. inv_bind Hd.
    apply delete_entry_has in Hbind as (Hok1 & Hr1 & Ht1 & Hk1 & He1);
      [|done].
    apply IH in Hd as (Hok2 & Hr2 & Ht2 & Hk2 & He2); [|done].
    split; [done|]. split; [congruence|]. split; [congruence|].
    split; [congruence|].
    intros g' hid e. rewrite He2, He1, elem_of_cons. tauto.
Qed.

Lemma restore_hours_has st g hs cid st' :
  keys_ok st → restore_hours st g hs cid = Ok st' →
  keys_ok st'
  ∧ room_usage st' = room_usage st ∧ tracker st' = tracker st
  ∧ Odict.keys (all_schedules st') = Odict.keys (all_schedules st)
  ∧ ∀ g' hid e,
      has_entry st' g' hid e →
      (g' = g
       ∧ ∃ h, h ∈ hs ∧ hid = hour_id h
              ∧ e = mkEntry (slot_id h) (room_id h) cid)
      ∨ has_entry st g' hid e.
Proof.
  revert st. induction hs as [|h l IH]; intros st Hok; simpl.
  - intros [= <-]. do 4 (split; [done|]). intros g' hid e Hh. by right.
  - intros Hw. inv_bind Hw.
    apply write_entry_has in Hbind as (Hok1 & Hr1 & Ht1 & Hk1 & He1);
      [|done].
    apply IH in Hw as (Hok2 & Hr2 & Ht2 & Hk2 & He2); [|done].
    split; [done|]. split; [congruence|]. split; [congruence|].
    split; [congruence|].
    intros g' hid e [(-> & h' & Hh & -> & ->)|Hold]%He2.
    + left. split; [done|]. exists h'. split; [by right|done].
    + apply He1 in Hold as [(-> & -> & ->)|[_ Hold]]; [|by right].
      left. split; [done|]. exists h. split; [left|done].
Qed.

(** ** Positions have distinct slots *)

Lemma valid_position_NoDup data st g course duration day is_english
    fixed_hour pos :
  distinct_slots data →
  valid_position data st g course duration day is_english fixed_hour pos →
  NoDup (pos_slot_ids pos).
Proof.
  intros [Hday _] Hv.
  destruct (vp_slots _ _ _ _ _ _ _ _ _ Hv) as (day_slots & Hd & Hs).
  rewrite (vp_ids _ _ _ _ _ _ _ _ _ Hv), Hs.
  eapply sublist_NoDup; [by eapply Hday|].
  unfold py_slice. apply fmap_sublist.
  etrans; [apply sublist_take|apply sublist_drop].
Qed.

(** The pairs of an identifier and a slot that the writes of a block
    make. *)
Lemma block_pairs g c b (slot_ids : list Z) hid s :
  (hid, s) ∈ imap (λ i s, (mkHourId g c b i, s)) slot_ids
  ↔ ∃ i, slot_ids !! i = Some s ∧ hid = mkHourId g c b i.
Proof.
  rewrite elem_of_lookup_imap. split.
  - intros (i & s' & [= -> ->] & Hi). by exists i.
  - intros (i & Hi & ->). by exists i, s.
Qed.

Lemma block_pairs_snd g c b (slot_ids : list Z) :
  map snd (imap (λ i s, (mkHourId g c b i, s)) slot_ids) = slot_ids.
Proof.
  change (snd <$> imap (λ i s, (mkHourId g c b i, s)) slot_ids = slot_ids).
  rewrite fmap_imap. simpl. apply list_eq. intros i.
  rewrite list_lookup_imap. by destruct (slot_ids !! i).
Qed.

Lemma pairs_snd (hs : list Hour) :
  map snd (map (λ h, (hour_id h, slot_id h)) hs) = map slot_id hs.
Proof. induction hs as [|h l IH]; simpl; [done|]. by rewrite IH. Qed.

Lemma position_fresh data st g course duration day is_english fixed_hour
    pos b :
  distinct_slots data →
  valid_position data st g course duration day is_english fixed_hour pos →
  teaches data g (Course.id course) (pos_prof_id pos) (pos_room_id pos)
  ∧ fresh data st g (pos_prof_id pos) (pos_room_id pos) (Course.id course)
      (imap (λ i s, (mkHourId g (Course.id course) b i, s))
         (pos_slot_ids pos)).
Proof.
  intros Hdistinct Hv.
  pose proof (valid_position_NoDup _ _ _ _ _ _ _ _ _ Hdistinct Hv) as Hnd.
  destruct (vp_prof _ _ _ _ _ _ _ _ _ Hv) as [Hp Hp0].
  destruct (vp_room _ _ _ _ _ _ _ _ _ Hv) as [Hr Hr0].
  pose proof (vp_available _ _ _ _ _ _ _ _ _ Hv) as Hav.
  pose proof (proj1 (can_assign_professor_holds _ _ _)
                (vp_prof_free _ _ _ _ _ _ _ _ _ Hv)) as Hpf.
  pose proof (proj1 (can_assign_group_holds _ _ _)
                (vp_group_free _ _ _ _ _ _ _ _ _ Hv)) as Hgf.
  pose proof (proj1 (is_room_available_holds _ _ _)
                (vp_room_free _ _ _ _ _ _ _ _ _ Hv)) as Hrf.
  split; [done|]. split; [by rewrite block_pairs_snd|].
  intros hid s (i & Hi & ->)%block_pairs.
  assert (s ∈ pos_slot_ids pos) as Hs by by eapply list_elem_of_lookup_2.
  split; [done|]. split; [|auto].
  unfold is_professor_available_at_slots in *.
  destruct (professor_available_slots data !! pos_prof_id pos); [|done].
  simpl. rewrite andb_true_r.
  by apply (proj1 (forallb_True _ _) Hav).
Qed.

Lemma write_position_adds st g p room cid b slot_ids st1 st' :
  keys_ok st →
  write_block st g g cid b 0 slot_ids room cid = Ok st1 →
  all_schedules st' = all_schedules st1 →
  room_usage st' = mark_room_used (room_usage st1) room slot_ids →
  prof_schedule (tracker st')
  = prof_schedule (assign (tracker st1) p g slot_ids cid) →
  group_schedule (tracker st')
  = group_schedule (assign (tracker st1) p g slot_ids cid) →
  adds st st' g p room cid (imap (λ i s, (mkHourId g cid b i, s)) slot_ids).
Proof.
  intros Hok Hw Ha Hru Hps Hgs.
  apply write_block_has in Hw as (Hok1 & Hr1 & Ht1 & Hk1 & He1); [|done].
  rewrite Hr1 in Hru. rewrite Ht1 in Hps, Hgs.
  split.
  - unfold keys_ok. by rewrite Ha.
  - congruence.
  - intros g' hid e (sched & Hg & Hh).
    destruct (He1 g' hid e) as [(-> & i & s & Hi & -> & ->)|Hold].
    { exists sched. by rewrite <- Ha. }
    + left. split; [done|]. exists s. split; [|done].
      apply block_pairs. exists i. split; [done|]. f_equal.
    + by right.
  - intros g' s. rewrite block_pairs_snd. eapply group_holds_assign, Hgs.
  - intros p' s g'. rewrite block_pairs_snd. eapply prof_holds_assign, Hps.
  - intros r s. rewrite block_pairs_snd. by apply room_holds_mark.
Qed.

Lemma restore_hours_adds st g p room cid hs st1 st' :
  keys_ok st →
  (∀ h, h ∈ hs → room_id h = room) →
  restore_hours st g hs cid = Ok st1 →
  all_schedules st' = all_schedules st1 →
  room_usage st' = mark_room_used (room_usage st1) room (map slot_id hs) →
  prof_schedule (tracker st')
  = prof_schedule (assign (tracker st1) p g (map slot_id hs) cid) →
  group_schedule (tracker st')
  = group_schedule (assign (tracker st1) p g (map slot_id hs) cid) →
  adds st st' g p room cid (map (λ h, (hour_id h, slot_id h)) hs).
Proof.
  intros Hok Hroom Hw Ha Hru Hps Hgs.
  apply restore_hours_has in Hw as (Hok1 & Hr1 & Ht1 & Hk1 & He1); [|done].
  rewrite Hr1 in Hru. rewrite Ht1 in Hps, Hgs.
  split.
  - unfold keys_ok. by rewrite Ha.
  - congruence.
  - intros g' hid e (sched & Hg & Hh).
    destruct (He1 g' hid e) as [(-> & h & Hin & -> & ->)|Hold].
    { exists sched. by rewrite <- Ha. }
    + left. split; [done|]. exists (slot_id h). split.
      * by apply (list_elem_of_fmap_2 (λ h, (hour_id h, slot_id h))).
      * by rewrite (Hroom h Hin).
    + by right.
  - intros g' s. rewrite pairs_snd. eapply group_holds_assign, Hgs.
  - intros p' s g'. rewrite pairs_snd. eapply prof_holds_assign, Hps.
  - intros r s. rewrite pairs_snd. by apply room_holds_mark.
Qed.

Lemma delete_hours_removes st g p room hs st1 st' :
  keys_ok st →
  delete_hours st g hs = Ok st1 →
  all_schedules st' = all_schedules st1 →
  room_usage st' = unmark_room_used (room_usage st1) room (map slot_id hs) →
  prof_schedule (tracker st')
  = prof_schedule (unassign (tracker st1) p g (map slot_id hs)) →
  group_schedule (tracker st')
  = group_schedule (unassign (tracker st1) p g (map slot_id hs)) →
  removes st st' g p room (map hour_id hs) (map slot_id hs).
Proof.
  intros Hok Hd Ha Hru Hps Hgs.
  apply delete_hours_has in Hd as (Hok1 & Hr1 & Ht1 & Hk1 & He1); [|done].
  rewrite Hr1 in Hru. rewrite Ht1 in Hps, Hgs.
  split.
  - unfold keys_ok. by rewrite Ha.
  - congruence.
  - intros g' hid e. rewrite <- He1. unfold has_entry. by rewrite Ha.
  - intros g' s. eapply group_holds_unassign, Hgs.
  - intros p' s g'. eapply prof_holds_unassign, Hps.
  - intros r s. by apply room_holds_unmark.
Qed.

(** The slots that a relocation has released are free for the block that
    held them. *)
Lemma released_fresh data st st2 c p room :
  relocatable data st c p room →
  removes st st2 (c_group_id c) p room (map hour_id (hours c))
    (map slot_id (hours c)) →
  fresh data st2 (c_group_id c) p room (c_course_id c)
    (map (λ h, (hour_id h, slot_id h)) (hours c)).
Proof.
  intros [Ht Hco Hh Hi Hs Hown Hroom Hheld] [_ _ Hent Hgh Hph Hrh].
  split; [by rewrite pairs_snd|].
  intros hid s (h & [= -> ->] & Hin)%list_elem_of_fmap.
  destruct (Hh h Hin) as (_ & Hc & Hav).
  assert (slot_id h ∈ map slot_id (hours c)) as HS
    by by apply list_elem_of_fmap_2.
  split; [done|]. split; [done|]. split; [|split].
  - intros [_ []]%Hgh. done.
  - intros g' [_ []]%Hph. done.
  - intros [_ []]%Hrh. done.
Qed.

Section place.
Context `{Runtime} (data : SchedulingData).
Hypothesis Hdistinct : distinct_slots data.

Lemma place_block_consistent st g course block pos day duration is_english
    fixed_hour st' :
  consistent data st →
  valid_position data st g course duration day is_english fixed_hour pos →
  place_block st g course block pos day = Ok st' →
  consistent data st'
  ∧ Odict.keys (all_schedules st') = Odict.keys (all_schedules st).
Proof.
  intros Hcons Hv Hp. unfold place_block in Hp. inv_bind Hp.
  injection Hp as <-.
  destruct (position_fresh _ _ _ _ _ _ _ _ _ block Hdistinct Hv)
    as [Ht Hfresh].
  match goal with |- consistent _ ?s ∧ _ => set (st' := s) end.
  assert (adds st st' g (pos_prof_id pos) (pos_room_id pos) (Course.id course)
            (imap (λ i s, (mkHourId g (Course.id course) block i, s))
               (pos_slot_ids pos))) as Hadds.
  { eapply write_position_adds; [apply Hcons|exact Hbind|done|done|..];
      cbn [tracker st']; by destruct (bool_decide _). }
  split; [|apply Hadds]. by eapply consistent_add.
Qed.

Lemma relocate_on_days_found course g cid duration is_english fixed_hour
    days r st r' st' :
  relocate_on_days data course g cid duration is_english fixed_hour days r st
  = Ok (Some (r', st')) →
  ∃ day pos suffix st1,
    valid_position data st g course duration day is_english fixed_hour pos
    ∧ write_block st g g cid suffix 0 (pos_slot_ids pos) (pos_room_id pos)
        cid = Ok st1
    ∧ all_schedules st' = all_schedules st1
    ∧ room_usage st'
      = mark_room_used (room_usage st1) (pos_room_id pos) (pos_slot_ids pos)
    ∧ prof_schedule (tracker st')
      = prof_schedule (assign (tracker st1) (pos_prof_id pos) g
                         (pos_slot_ids pos) cid)
    ∧ group_schedule (tracker st')
      = group_schedule (assign (tracker st1) (pos_prof_id pos) g
                          (pos_slot_ids pos) cid).
Proof.
  induction days as [|day rest IH]; [done|]. cbn [relocate_on_days].
  destruct (_ && _); [done|].
  destruct (find_all_valid_positions _ _ _ _ _ _ _ _) as [positions|] eqn:Ef;
    [|done].
  cbn [mbind result_bind]. destruct positions as [|p0 ps]; [done|].
  intros Hc. inv_bind Hc. destruct a as [pos r1].
  destruct (randint 1000 9999 r1) as [suffix r2]. inv_bind Hc.
  injection Hc as <- <-.
  exists day, pos, suffix, a. split.
  { eapply find_all_valid_positions_valid; [exact Ef|].
    by eapply choice_elem_of. }
  split; [done|]. cbn [all_schedules room_usage tracker].
  repeat split; by destruct (bool_decide _).
Qed.

End place.

(** ** A relocation keeps the schedule consistent *)

Section relocate.
Context `{Runtime} (data : SchedulingData).
Hypothesis Hdistinct : distinct_slots data.
Hypothesis Hcourses : ∀ k x, courses data !! k = Some x → Course.id x = k.

Lemma try_relocate_block_consistent c p room r st moved r' st' :
  consistent data st →
  relocatable data st c p room →
  try_relocate_block c data r st = Ok (moved, r', st') →
  consistent data st'
  ∧ Odict.keys (all_schedules st') = Odict.keys (all_schedules st)
  ∧ ∀ c' p' room',
      relocatable data st c' p' room' →
      separate c p room c' p' room' →
      relocatable data st' c' p' room'.
Proof.
  intros Hcons Hrl. unfold try_relocate_block.
  destruct (c_course c) as [course|] eqn:Ec; [|by intros [= <- <- <-]].
  destruct (rl_teaches _ _ _ _ _ Hrl) as (Hp & Hp0 & Hr & Hr0).
  rewrite Hp. cbn [truthy_int default negb].
  rewrite (proj2 (Z.eqb_neq p 0)) by done. cbn [negb].
  destruct (hours c) as [|h0 hs] eqn:Eh; [done|]. rewrite <- Eh.
  assert (room_id h0 = room) as Hroom0.
  { apply (rl_hours _ _ _ _ _ Hrl). rewrite Eh. left. }
  assert (Course.id course = c_course_id c) as Hcid.
  { apply Hcourses. by rewrite <- (rl_course _ _ _ _ _ Hrl). }
  intros Hd. inv_bind Hd. rename a into st1.
  match type of Hd with
  | context [relocate_on_days _ _ _ _ _ _ _ _ _ ?s] => set (st2 := s) in *
  end.
  assert (removes st st2 (c_group_id c) p room (map hour_id (hours c))
            (map slot_id (hours c))) as Hrm.
  { eapply delete_hours_removes; [apply Hcons|exact Hbind|done|..].
    - cbn [room_usage st2]. by rewrite Hroom0.
    - cbn [tracker st2]. simpl. by destruct (_ && _).
    - cbn [tracker st2]. simpl. by destruct (_ && _). }
  assert (consistent data st2) as Hcons2.
  { eapply (consistent_remove data st st2 Hcons); [..|exact Hrm].
    - apply (rl_own _ _ _ _ _ Hrl).
    - apply (rl_room _ _ _ _ _ Hrl).
    - intros s Hs. by apply (rl_held _ _ _ _ _ Hrl). }
  assert (∀ N st3,
            fresh data st2 (c_group_id c) p room (c_course_id c) N →
            adds st2 st3 (c_group_id c) p room (c_course_id c) N →
            consistent data st3
            ∧ Odict.keys (all_schedules st3) = Odict.keys (all_schedules st)
            ∧ ∀ c' p' room',
                relocatable data st c' p' room' →
                separate c p room c' p' room' →
                relocatable data st3 c' p' room') as Hfinish.
  { intros N st3 Hfresh Hadds. split; [|split].
    - eapply consistent_add; [exact Hcons2| |exact Hfresh|exact Hadds].
      apply (rl_teaches _ _ _ _ _ Hrl).
    - rewrite (ad_groups _ _ _ _ _ _ _ Hadds). apply Hrm.
    - intros c' p' room' Hrl' Hsep.
      eapply relocatable_adds; [|exact Hfresh|exact Hadds].
      eapply relocatable_removes; [exact Hrl'| |exact Hrm].
      intros Hshare s Hs. unfold separate in Hsep.
      apply Hsep; [|exact Hs].
      destruct Hshare as [?|[?|?]]; auto. }
  destruct (shuffle _ r) as [days r1].
  inv_bind Hd. destruct a as [[r2 st3]|].
  - injection Hd as <- <- <-.
    apply relocate_on_days_found in Hbind0
      as (day & pos & suffix & st1' & Hv & Hw & Ha & Hru & Hps & Hgs).
    destruct (position_fresh _ _ _ _ _ _ _ _ _ suffix Hdistinct Hv)
      as [Ht Hfresh].
    rewrite Hcid in Ht, Hfresh.
    destruct (teaches_fun _ _ _ _ _ _ _ Ht (rl_teaches _ _ _ _ _ Hrl))
      as [Epp Err].
    rewrite Epp, Err in *.
    eapply Hfinish; [exact Hfresh|].
    eapply write_position_adds; [apply Hcons2|exact Hw|done..].
  - inv_bind Hd. injection Hd as <- <- <-. rename a into st3.
    eapply Hfinish; [by eapply released_fresh|].
    eapply restore_hours_adds; [apply Hcons2| |exact Hbind1|done|..].
    + intros h Hh. by apply (rl_hours _ _ _ _ _ Hrl).
    + cbn [room_usage]. by rewrite Hroom0.
    + cbn [tracker]. by destruct (_ && _).
    + cbn [tracker]. by destruct (_ && _).
Qed.

End relocate.

(** ** Relocating the conflicts of a window *)

Section relocate_all.
Context `{Runtime} (data : SchedulingData).
Hypothesis Hdistinct : distinct_slots data.
Hypothesis Hcourses : ∀ k x, courses data !! k = Some x → Course.id x = k.

Lemma relocate_all_consistent cs r st moved r' st' :
  consistent data st →
  all_relocatable data st cs →
  all_separate data cs →
  relocate_all data cs r st = Ok (moved, r', st') →
  consistent data st'
  ∧ Odict.keys (all_schedules st') = Odict.keys (all_schedules st).
Proof.
  revert r st. induction cs as [|c rest IH]; intros r st Hcons Hrl Hsep.
  - by intros [= <- <- <-].
  - cbn [relocate_all]. intros Hr. inv_bind Hr.
    destruct a as [[moved1 r1] st1].
    destruct (Hrl c) as (p & room & Hc); [left|].
    destruct (try_relocate_block_consistent data Hdistinct Hcourses
                _ _ _ _ _ _ _ _ Hcons Hc Hbind) as (Hcons1 & Hk1 & Hframe).
    destruct moved1; [|by injection Hr as <- <- <-].
    destruct Hsep as [Hsep1 Hsep].
    apply IH in Hr as [Hcons' Hk']; [|done| |done].
    + split; [done|congruence].
    + intros c' Hc'. destruct (Hrl c') as (p' & room' & Hrl'); [by right|].
      exists p', room'. apply Hframe; [done|].
      apply Hsep1; [done|apply Hc|apply Hrl'].
Qed.

End relocate_all.

(** ** The conflicts of a consistent state *)

Lemma blocks_in_group_NoDup slot_ids schedule :
  NoDup (Odict.keys (blocks_in_group slot_ids schedule)).
Proof.
  unfold blocks_in_group.
  induction schedule as [|[hid e] l IH] using rev_ind; [constructor|].
  rewrite foldl_app. cbn [foldl]. destruct (bool_decide _); [|done].
  destruct (Odict.get _ _) as [[cid hs]|]; by apply od_set_NoDup.
Qed.

Lemma conflict_shape `{Runtime} slot_ids g0 all data c :
  c ∈ get_conflicting_blocks slot_ids g0 all data →
  ∃ g sched key p0 l,
    (g, sched) ∈ all
    ∧ block_entries slot_ids key sched = p0 :: l
    ∧ c = conflict_of data g (key, (e_course p0.2, map hour_of (p0 :: l))).
Proof.
  unfold get_conflicting_blocks. intros Hc.
  apply list_elem_of_In, in_flat_map in Hc as ([g sched] & Hin & Hc).
  apply list_elem_of_In in Hin, Hc.
  apply list_elem_of_fmap in Hc as ([key [cid hs]] & -> & Hb).
  apply od_elem_of_get in Hb; [|apply blocks_in_group_NoDup].
  rewrite blocks_in_group_get in Hb.
  destruct (block_entries slot_ids key sched) as [|p0 l] eqn:E; [done|].
  injection Hb as <- <-. by exists g, sched, key, p0, l.
Qed.

Lemma conflicts_intact `{Runtime} slot_ids g0 data st c :
  keys_ok st →
  c ∈ get_conflicting_blocks slot_ids g0 (all_schedules st) data →
  intact data st c ∧ ∀ h, h ∈ hours c → slot_id h ∈ slot_ids.
Proof.
  intros [Hout Hin] (g & sched & key & p0 & l & Hg & Hb & ->)%conflict_shape.
  apply od_elem_of_get in Hg; [|done].
  assert (∀ q, q ∈ p0 :: l →
            Odict.get q.1 sched = Some q.2 ∧ e_slot q.2 ∈ slot_ids
            ∧ block_key_of q.1 = key) as Hq.
  { intros [hid e] Hq. rewrite <- Hb in Hq.
    apply list_elem_of_filter in Hq as [[? ?] Hq]. split; [|done].
    apply od_elem_of_get; [by eapply Hin|done]. }
  split; [split|]; cbn [conflict_of hours c_group_id c_course_id c_course
                        block_key].
  - done.
  - change (map hour_id (map hour_of (p0 :: l))) with
      (hour_id <$> (hour_of <$> (p0 :: l))).
    rewrite <- list_fmap_compose.
    change (NoDup (fst <$> (p0 :: l))). rewrite <- Hb.
    eapply sublist_NoDup; [by eapply Hin|].
    unfold block_entries. apply fmap_sublist, sublist_filter.
  - exists (hour_of p0), p0.2. split; [done|]. split; [|done].
    exists sched. split; [done|]. apply Hq. left.
  - intros h (q & -> & Hin')%list_elem_of_fmap.
    destruct (Hq q Hin') as (Hget & _ & Hkey). split; [done|].
    exists q.2. split; [by exists sched|done].
  - intros h (q & -> & Hin')%list_elem_of_fmap. by apply Hq.
Qed.

Lemma conflicts_keys_NoDup `{Runtime} slot_ids g0 all data :
  NoDup (Odict.keys all) →
  NoDup (map (λ c, (c_group_id c, block_key c))
           (get_conflicting_blocks slot_ids g0 all data)).
Proof.
  unfold get_conflicting_blocks, Odict.keys.
  induction all as [|[g sched] all IH]; [constructor|].
  cbn [flat_map map fst]. intros [Hg Hnd]%NoDup_cons.
  rewrite map_app. apply NoDup_app. split; [|split; [|by apply IH]].
  - rewrite map_map.
    pose proof (blocks_in_group_NoDup slot_ids sched) as Hb.
    unfold Odict.keys in Hb.
    induction (blocks_in_group slot_ids sched) as [|[key [cid hs]] bs IHb];
      [constructor|].
    cbn [map] in *. apply NoDup_cons in Hb as [Hk Hb].
    constructor; [|by apply IHb].
    intros (q & Heq & Hq)%list_elem_of_fmap. apply Hk.
    destruct q as [key' [cid' hs']]. simpl in Heq. injection Heq as ->.
    by apply (list_elem_of_fmap_2 fst) in Hq.
  - intros [g1 k1] (c1 & Heq1 & Hc1)%list_elem_of_fmap
      (c2 & Heq2 & Hc2)%list_elem_of_fmap.
    apply list_elem_of_fmap in Hc1 as ([key [cid hs]] & -> & _).
    apply list_elem_of_In, in_flat_map in Hc2 as ([g' sched'] & Hin & Hc2).
    apply list_elem_of_In in Hin, Hc2.
    apply list_elem_of_fmap in Hc2 as ([key' [cid' hs']] & -> & _).
    simpl in Heq1, Heq2. injection Heq1 as -> ->. injection Heq2 as <- _.
    apply Hg. by apply (list_elem_of_fmap_2 fst) in Hin.
Qed.

Section intact.
Context (data : SchedulingData) (st : State).
Hypothesis Hcons : consistent data st.

Lemma has_entry_fun g hid e e' :
  has_entry st g hid e → has_entry st g hid e' → e = e'.
Proof.
  intros (s & Hs & He) (s' & Hs' & He'). rewrite Hs in Hs'.
  injection Hs' as <-. rewrite He in He'. by injection He' as <-.
Qed.

Lemma intact_hour c p room h :
  intact data st c →
  teaches data (c_group_id c) (c_course_id c) p room →
  h ∈ hours c →
  has_entry st (c_group_id c) (hour_id h)
    (mkEntry (slot_id h) room (c_course_id c))
  ∧ room_id h = room
  ∧ h_course (hour_id h) = c_course_id c.
Proof.
  intros [_ _ (h0 & e0 & Hhd & He0 & Hc0) Hhours] Ht Hh.
  assert (h0 ∈ hours c) as Hh0.
  { destruct (hours c); [done|]. injection Hhd as ->. left. }
  destruct (Hhours h0 Hh0) as (Hk0 & _).
  destruct (Hhours h Hh) as (Hk & e & He & Hs & Hr).
  destruct (cs_entry _ _ Hcons _ _ _ He0) as (Hc0' & _).
  destruct (cs_entry _ _ Hcons _ _ _ He) as (Hc' & p1 & Ht1 & _).
  assert (h_course (hour_id h) = c_course_id c) as Hcid.
  { rewrite <- Hc0, <- Hc0'.
    assert (block_key_of (hour_id h) = block_key_of (hour_id h0)) as Hbk
      by congruence.
    unfold block_key_of in Hbk. by injection Hbk. }
  rewrite Hcid in Hc'. rewrite <- Hc' in Ht1.
  destruct (teaches_fun _ _ _ _ _ _ _ Ht Ht1) as [-> ->].
  split; [|done]. destruct e as [s r c']. simpl in *. by subst.
Qed.

Lemma intact_relocatable c :
  intact data st c → ∃ p room, relocatable data st c p room.
Proof.
  intros Hin.
  destruct (in_first _ _ _ Hin) as (h0 & e0 & Hhd & He0 & Hc0).
  destruct (cs_entry _ _ Hcons _ _ _ He0) as (_ & p & Ht & _).
  rewrite Hc0 in Ht. exists p, (e_room e0).
  pose proof (intact_hour c p (e_room e0)) as Hhour.
  assert (∀ s, s ∈ map slot_id (hours c) →
            ∃ h, h ∈ hours c ∧ slot_id h = s
                 ∧ has_entry st (c_group_id c) (hour_id h)
                     (mkEntry s (e_room e0) (c_course_id c))) as Hslot.
  { intros s (h & -> & Hh)%list_elem_of_fmap. exists h.
    split; [done|]. split; [done|]. by apply Hhour. }
  split.
  - done.
  - apply Hin.
  - intros h Hh. destruct (Hhour h Hin Ht Hh) as (He & Hr & Hc).
    split; [done|]. split; [done|].
    destruct (cs_entry _ _ Hcons _ _ _ He) as (_ & p1 & Ht1 & Hav & _).
    cbn [e_course e_slot] in *.
    by destruct (teaches_fun _ _ _ _ _ _ _ Ht Ht1) as [-> _].
  - apply Hin.
  - apply NoDup_fmap_2_strong.
    + intros h1 h2 Hh1 Hh2 Hs.
      destruct (Hhour h1 Hin Ht Hh1) as (He1 & Hr1 & _).
      destruct (Hhour h2 Hin Ht Hh2) as (He2 & Hr2 & _).
      assert (hour_id h1 = hour_id h2) as Hid
        by by eapply (cs_group _ _ Hcons).
      destruct h1, h2. simpl in *. congruence.
    + eapply NoDup_fmap_1, (in_ids _ _ _ Hin).
  - intros hid e He (h & Hh & Hs & Heh)%Hslot.
    assert (hid = hour_id h) as ->
      by by eapply (cs_group _ _ Hcons).
    by apply list_elem_of_fmap_2.
  - intros g hid e He Hr (h & Hh & Hs & Heh)%Hslot.
    by eapply (cs_room _ _ Hcons).
  - intros s (h & Hh & <- & Heh)%Hslot.
    destruct (cs_entry _ _ Hcons _ _ _ Heh) as (_ & p1 & Ht1 & _ & H1 & H2 & H3).
    cbn [e_course e_slot e_room] in *.
    by destruct (teaches_fun _ _ _ _ _ _ _ Ht Ht1) as [-> _].
Qed.

Lemma intact_separate c c' p room p' room' :
  intact data st c → intact data st c' →
  (c_group_id c, block_key c) ≠ (c_group_id c', block_key c') →
  teaches data (c_group_id c) (c_course_id c) p room →
  teaches data (c_group_id c') (c_course_id c') p' room' →
  separate c p room c' p' room'.
Proof.
  intros Hin Hin' Hne Ht Ht' Hshare s Hs Hs'.
  apply list_elem_of_fmap in Hs as (h & -> & Hh).
  apply list_elem_of_fmap in Hs' as (h' & Hss & Hh').
  destruct (intact_hour c p room h Hin Ht Hh) as (He & Hr & _).
  destruct (intact_hour c' p' room' h' Hin' Ht' Hh') as (He' & Hr' & _).
  rewrite <- Hss in He'.
  assert (c_group_id c = c_group_id c') as Hg.
  { destruct Hshare as [?|[<-|<-]]; [done|..].
    - destruct (cs_entry _ _ Hcons _ _ _ He)
        as (_ & p1 & Ht1 & _ & _ & (m & Hm & Hx) & _).
      destruct (cs_entry _ _ Hcons _ _ _ He')
        as (_ & p2 & Ht2 & _ & _ & (m' & Hm' & Hx') & _).
      cbn [e_course e_slot] in *.
      destruct (teaches_fun _ _ _ _ _ _ _ Ht Ht1) as [<- _].
      destruct (teaches_fun _ _ _ _ _ _ _ Ht' Ht2) as [<- _].
      rewrite Hm in Hm'. injection Hm' as <-. rewrite Hx in Hx'.
      by injection Hx'.
    - by eapply (cs_room _ _ Hcons _ _ _ _ _ _ He He'). }
  rewrite <- Hg in He'.
  assert (hour_id h = hour_id h') as Hid by by eapply (cs_group _ _ Hcons).
  apply Hne. f_equal; [done|].
  rewrite <- (proj1 (in_hours _ _ _ Hin h Hh)).
  rewrite <- (proj1 (in_hours _ _ _ Hin' h' Hh')). by rewrite Hid.
Qed.

Lemma intact_list_ready cs :
  (∀ c, c ∈ cs → intact data st c) →
  NoDup (map (λ c, (c_group_id c, block_key c)) cs) →
  all_relocatable data st cs ∧ all_separate data cs.
Proof.
  intros Hall Hnd. split.
  - intros c Hc. by apply intact_relocatable, Hall.
  - induction cs as [|c rest IH]; [done|].
    cbn [map] in Hnd. apply NoDup_cons in Hnd as [Hc Hnd]. split.
    + intros c' p room p' room' Hc' Ht Ht'.
      apply intact_separate; try done.
      * apply Hall. left.
      * apply Hall. by right.
      * intros Heq. apply Hc. rewrite Heq.
        by apply (list_elem_of_fmap_2 (λ c, (c_group_id c, block_key c))).
    + apply IH; [|done]. intros c' Hc'. apply Hall. by right.
Qed.

End intact.

Lemma all_separate_app data l1 l2 :
  all_separate data l1 → all_separate data l2 →
  (∀ c c' p room p' room', c ∈ l1 → c' ∈ l2 → separate c p room c' p' room') →
  all_separate data (l1 ++ l2).
Proof.
  intros H1 H2 Hx. induction l1 as [|c l1 IH]; [done|].
  destruct H1 as [Hc H1]. split.
  - intros c' p room p' room' [Hc'|Hc']%elem_of_app Ht Ht'.
    + by apply Hc.
    + apply Hx; [left|done].
  - apply IH; [done|]. intros c1 c' p room p' room' Hc1. apply Hx. by right.
Qed.

Lemma all_relocatable_app data st l1 l2 :
  all_relocatable data st l1 → all_relocatable data st l2 →
  all_relocatable data st (l1 ++ l2).
Proof. intros H1 H2 c [?|?]%elem_of_app; auto. Qed.

Lemma all_separate_filter data (P : Conflict → Prop)
    `{∀ c, Decision (P c)} cs :
  all_separate data cs → all_separate data (filter P cs).
Proof.
  induction cs as [|c rest IH]; [done|]. intros [Hc Hrest].
  destruct (decide (P c)) as [HP|HP].
  - rewrite filter_cons_True by done. split; [|by apply IH].
    intros c' p room p' room' [_ Hc']%list_elem_of_filter. by apply Hc.
  - rewrite filter_cons_False by done. by apply IH.
Qed.

Lemma all_relocatable_filter data st (P : Conflict → Prop)
    `{∀ c, Decision (P c)} cs :
  all_relocatable data st cs → all_relocatable data st (filter P cs).
Proof. intros Hall c [_ Hc]%list_elem_of_filter. by apply Hall. Qed.

Section ready.
Context `{Runtime} (data : SchedulingData) (st : State).
Hypothesis Hcons : consistent data st.

(** The conflicts of a window can be relocated one after the other. *)
Lemma conflicts_ready slot_ids g0 :
  all_relocatable data st
    (get_conflicting_blocks slot_ids g0 (all_schedules st) data)
  ∧ all_separate data
      (get_conflicting_blocks slot_ids g0 (all_schedules st) data).
Proof.
  apply intact_list_ready; [done|..].
  - intros c Hc.
    apply (conflicts_intact slot_ids g0) in Hc as [? _]; [done|].
    apply Hcons.
  - apply (conflicts_keys_NoDup slot_ids g0), Hcons.
Qed.

End ready.

(** ** The commit of a language course *)

Section commit.
Context `{Runtime} (data : SchedulingData).
Hypothesis Hdistinct : distinct_slots data.

Lemma commit_english_consistent st g course prof_id room b ps st' :
  consistent data st →
  teaches data g (Course.id course) prof_id room →
  NoDup (map (λ q, TimeSlot.id q.2) ps) →
  (∀ q, q ∈ ps →
     is_professor_available_at_slots data prof_id [TimeSlot.id q.2] = true
     ∧ ¬ group_holds st g (TimeSlot.id q.2)
     ∧ (∀ g', ¬ prof_holds st prof_id (TimeSlot.id q.2) g')
     ∧ ¬ room_holds st room (TimeSlot.id q.2)) →
  commit_english st g course prof_id room b ps = Ok st' →
  consistent data st'
  ∧ Odict.keys (all_schedules st') = Odict.keys (all_schedules st).
Proof.
  intros Hcons Ht. revert st b Hcons.
  induction ps as [|[day slot] ps IH]; intros st b Hcons Hnd Hfree.
  - by intros [= <-].
  - cbn [commit_english]. intros Hc. inv_bind Hc. rename a into st1.
    match type of Hc with
    | commit_english ?s _ _ _ _ _ _ = _ => set (st2 := s) in *
    end.
    cbn [map] in Hnd. apply NoDup_cons in Hnd as [Hslot Hnd].
    cbn [snd] in Hslot.
    assert (adds st st2 g prof_id room (Course.id course)
              (imap (λ i s, (mkHourId g (Course.id course) b i, s))
                 [TimeSlot.id slot])) as Hadds.
    { eapply (write_position_adds st g prof_id room (Course.id course) b
                [TimeSlot.id slot] st1 st2);
        [apply Hcons|cbn [write_block]; by rewrite Hbind|done..]. }
    assert (fresh data st g prof_id room (Course.id course)
              (imap (λ i s, (mkHourId g (Course.id course) b i, s))
                 [TimeSlot.id slot])) as Hfresh.
    { split; [repeat constructor; by intros ?%elem_of_nil|].
      intros hid s [[= -> ->]|[]%elem_of_nil]%elem_of_cons.
      split; [done|]. apply (Hfree (day, slot)). left. }
    assert (consistent data st2) as Hcons2 by by eapply consistent_add.
    apply IH in Hc as [Hcons' Hk']; [|done|done|].
    + split; [done|]. rewrite Hk'. apply Hadds.
    + intros q Hq. destruct (Hfree q) as (Hav & Hg & Hp & Hr); [by right|].
      assert (TimeSlot.id q.2 ≠ TimeSlot.id slot) as Hne.
      { intros Heq. apply Hslot. rewrite <- Heq.
        by apply (list_elem_of_fmap_2 (λ q, TimeSlot.id q.2)). }
      split; [done|]. split; [|split].
      * intros [?|[_ Hin]]%(ad_group _ _ _ _ _ _ _ Hadds); [done|].
        simpl in Hin. by apply list_elem_of_singleton in Hin.
      * intros g' [(_ & Hin & _)|[_ ?]]%(ad_prof _ _ _ _ _ _ _ Hadds);
          [|by apply (Hp g')].
        simpl in Hin. by apply list_elem_of_singleton in Hin.
      * intros [?|[_ Hin]]%(ad_room _ _ _ _ _ _ _ Hadds); [done|].
        simpl in Hin. by apply list_elem_of_singleton in Hin.
Qed.

Lemma english_positions_NoDup st prof_id room g hour days ps :
  NoDup days →
  Forall2 (english_position data st prof_id room g hour) days ps →
  NoDup (map (λ q, TimeSlot.id q.2) ps).
Proof.
  intros Hnd Hf. induction Hf as [|day q days ps Hq Hf IH]; [constructor|].
  apply NoDup_cons in Hnd as [Hday Hnd]. cbn [map].
  constructor; [|by apply IH].
  intros (q' & Heq & Hq')%list_elem_of_fmap.
  apply list_elem_of_lookup in Hq' as [i Hi].
  destruct (Forall2_lookup_r _ _ _ _ _ Hf Hi) as (day' & Hd' & Hq'').
  destruct Hq as (_ & (l & Hl & Hs%slot_at_hour_spec) & _).
  destruct Hq'' as (_ & (l' & Hl' & Hs'%slot_at_hour_spec) & _).
  destruct Hdistinct as [_ Hx].
  apply Hday. rewrite (Hx day day' l l' q.2 q'.2); try done; try tauto.
  by eapply list_elem_of_lookup_2.
Qed.

Lemma english_positions_available st prof_id room g days hour ps :
  english_positions data st true prof_id room g days hour = Ok (Some ps) →
  ∀ q, q ∈ ps →
    is_professor_available_at_slots data prof_id [TimeSlot.id q.2] = true.
Proof.
  revert ps. induction days as [|day rest IH]; intros ps; simpl.
  - intros [= <-] q Hq. by apply elem_of_nil in Hq.
  - destruct (Odict.get day (slots_by_day data)) as [day_slots|]; [|done].
    destruct (slot_at_hour day_slots hour) as [slot|]; [|done].
    destruct (is_professor_available_at_slots data prof_id _) eqn:Eav;
      [|done].
    simpl. repeat (destruct (negb _); [done|]).
    intros Hp. inv_bind Hp. destruct a as [ps'|]; [|done].
    injection Hp as <-. intros q [->|Hq]%elem_of_cons; [done|].
    by apply (IH ps').
Qed.

(** The commit that follows a successful search of positions. *)
Lemma english_commit_consistent st check g course prof_id room days hour
    found n fixed_hour st' :
  consistent data st →
  teaches data g (Course.id course) prof_id room →
  NoDup days →
  english_positions data st check prof_id room g days hour = Ok found →
  (∀ ps q, found = Some ps → q ∈ ps →
     is_professor_available_at_slots data prof_id [TimeSlot.id q.2] = true) →
  commit_if_complete st g course prof_id room n fixed_hour hour found
  = Ok (Some st') →
  consistent data st'
  ∧ Odict.keys (all_schedules st') = Odict.keys (all_schedules st).
Proof.
  intros Hcons Ht Hnd Hpos Hav Hc.
  apply commit_if_complete_inv in Hc as (ps & st1 & -> & _ & Hc & ->).
  pose proof (english_positions_spec _ _ _ _ _ _ _ _ _ Hpos) as Hf.
  apply commit_english_consistent in Hc as [Hcons1 Hk1]; try done.
  - destruct (negb _); [|done]. split; [|done].
    by eapply consistent_same.
  - by eapply english_positions_NoDup.
  - intros q Hq. split; [by eapply Hav|].
    apply list_elem_of_lookup in Hq as [i Hi].
    destruct (Forall2_lookup_r _ _ _ _ _ Hf Hi)
      as (day & _ & (_ & _ & Hp & Hg & Hr)).
    split; [|split].
    + eapply can_assign_group_holds; [exact Hg|left].
    + eapply can_assign_professor_holds; [exact Hp|left].
    + eapply is_room_available_holds; [exact Hr|left].
Qed.

End commit.

(** ** The language-course placer keeps the schedule consistent *)

Section english_consistent.
Context `{Runtime} (data : SchedulingData).
Hypothesis Hdistinct : distinct_slots data.
Hypothesis Hcourses : ∀ k x, courses data !! k = Some x → Course.id x = k.
Context (course : Course.t) (prof_id room group_id : Z) (num_blocks : nat).
Hypothesis Hteach : teaches data group_id (Course.id course) prof_id room.

Local Abbreviation same_groups st st' :=
  (Odict.keys (all_schedules st') = Odict.keys (all_schedules st)).

Lemma english_try_hours_consistent st fixed_hour days hours_to_try st' :
  consistent data st → NoDup days →
  english_try_hours data st course prof_id room group_id num_blocks
    fixed_hour days hours_to_try = Ok (Some st') →
  consistent data st' ∧ same_groups st st'.
Proof.
  intros Hcons Hnd.
  induction hours_to_try as [|hour rest IH]; [done|].
  cbn [english_try_hours]. intros Ht. inv_bind Ht. inv_bind Ht.
  destruct a0 as [st1|]; [|by apply IH].
  injection Ht as <-.
  eapply english_commit_consistent; try done.
  intros ps q -> Hq. by eapply english_positions_available.
Qed.

Lemma english_direct_consistent fixed_hour sequences hours_prev r st st'
    hours r' :
  consistent data st → Forall NoDup sequences →
  english_direct data course prof_id room group_id num_blocks fixed_hour
    sequences hours_prev r st = Ok (Some st', hours, r') →
  consistent data st' ∧ same_groups st st'.
Proof.
  intros Hcons Hseq. revert hours_prev r.
  induction Hseq as [|days rest Hnd Hseq IH]; intros hours_prev r; [done|].
  cbn [english_direct]. intros Hd. inv_bind Hd.
  destruct (shuffle _ r) as [shuffled r1]. inv_bind Hd.
  destruct a0 as [st1|]; [|by eapply IH].
  injection Hd as <- <- <-. by eapply english_try_hours_consistent.
Qed.

Lemma english_conflicts_ready st days hour cs :
  consistent data st → NoDup days →
  english_conflicts data st prof_id group_id days hour = Ok (Some cs) →
  all_relocatable data st cs ∧ all_separate data cs
  ∧ (∀ c h, c ∈ cs → h ∈ hours c →
       ∃ day day_slots slot,
         day ∈ days ∧ Odict.get day (slots_by_day data) = Some day_slots
         ∧ slot ∈ day_slots ∧ slot_id h = TimeSlot.id slot)
  ∧ (∀ day, day ∈ days →
       ∃ day_slots slot,
         Odict.get day (slots_by_day data) = Some day_slots
         ∧ slot_at_hour day_slots hour = Some slot
         ∧ is_professor_available_at_slots data prof_id [TimeSlot.id slot]
           = true).
Proof.
  intros Hcons Hnd. revert cs.
  induction Hnd as [|day rest Hday Hnd IH]; intros cs.
  - intros [= <-]. repeat split; try done.
    + by intros c ?%elem_of_nil.
    + by intros c h ?%elem_of_nil.
    + by intros day ?%elem_of_nil.
  - cbn [english_conflicts].
    destruct (Odict.get day (slots_by_day data)) as [day_slots|] eqn:Ed;
      [|done].
    destruct (slot_at_hour day_slots hour) as [slot|] eqn:Es; [|done].
    destruct (is_professor_available_at_slots data prof_id _) eqn:Eav;
      [|done].
    cbn [negb]. destruct (existsb _ _); [done|].
    intros Hc. inv_bind Hc. destruct a as [cs'|]; [|done].
    injection Hc as <-.
    destruct (IH _ Hbind) as (Hrl & Hsep & Hslots & Hdays).
    destruct (conflicts_ready data st Hcons [TimeSlot.id slot] group_id)
      as [Hrl0 Hsep0].
    pose proof (slot_at_hour_spec _ _ _ Es) as [Hslot _].
    assert (∀ c h,
              c ∈ get_conflicting_blocks [TimeSlot.id slot] group_id
                    (all_schedules st) data →
              h ∈ hours c → slot_id h = TimeSlot.id slot) as Hhere.
    { intros c h Hc Hh.
      apply (conflicts_intact [TimeSlot.id slot] group_id) in Hc as [_ Hc];
        [|apply Hcons].
      by apply list_elem_of_singleton, Hc. }
    split; [by apply all_relocatable_app|]. split; [|split].
    + apply all_separate_app; [done..|].
      intros c c' p1 room1 p' room' Hc Hc' _ s
        (h & -> & Hh)%list_elem_of_fmap (h' & Heq & Hh')%list_elem_of_fmap.
      rewrite (Hhere c h Hc Hh) in Heq.
      destruct (Hslots c' h' Hc' Hh') as (day' & l' & slot' & Hd' & Hl' & Hs' & Hid).
      apply Hday. destruct Hdistinct as [_ Hx].
      rewrite (Hx day day' day_slots l' slot slot'); try done. congruence.
    + intros c h [Hc|Hc]%elem_of_app Hh.
      * exists day, day_slots, slot. split; [left|]. split; [done|].
        split; [done|]. by apply (Hhere c).
      * destruct (Hslots c h Hc Hh) as (day' & l' & slot' & ? & ?).
        exists day', l', slot'. split; [by right|done].
    + intros day' [->|Hd']%elem_of_cons; [|by apply Hdays].
      by exists day_slots, slot.
Qed.

Lemma english_displace_step_consistent fixed_hour days hour r st placed r'
    st' :
  consistent data st → NoDup days →
  english_displace_step data course prof_id room group_id num_blocks
    fixed_hour days hour r st = Ok (placed, r', st') →
  consistent data st' ∧ same_groups st st'.
Proof.
  intros Hcons Hnd. unfold english_displace_step. intros Hs. inv_bind Hs.
  destruct a as [[|c cs]|]; try by injection Hs as <- <- <-.
  destruct (english_conflicts_ready _ _ _ _ Hcons Hnd Hbind)
    as (Hrl & Hsep & _ & Hdays).
  inv_bind Hs. destruct a as [[all_moved r1] st1].
  destruct (relocate_all_consistent data Hdistinct Hcourses _ _ _ _ _ _
              Hcons Hrl Hsep Hbind0) as [Hcons1 Hk1].
  destruct all_moved; [|by injection Hs as <- <- <-].
  inv_bind Hs. inv_bind Hs.
  destruct a0 as [st2|]; [|by injection Hs as <- <- <-].
  injection Hs as <- <- <-.
  eapply english_commit_consistent in Hbind2 as [Hcons2 Hk2]; try done.
  - split; [done|congruence].
  - intros ps q -> Hq.
    pose proof (english_positions_spec _ _ _ _ _ _ _ _ _ Hbind1) as Hf.
    apply list_elem_of_lookup in Hq as [i Hi].
    destruct (Forall2_lookup_r _ _ _ _ _ Hf Hi)
      as (day & Hd & (_ & (l & Hl & Hq) & _)).
    apply list_elem_of_lookup_2 in Hd.
    destruct (Hdays day Hd) as (l' & slot & Hl' & Hslot & Hav).
    rewrite Hl in Hl'. injection Hl' as <-. rewrite Hq in Hslot.
    by injection Hslot as ->.
Qed.

Lemma english_displace_hours_consistent fixed_hour days target_hours r st
    placed r' st' :
  consistent data st → NoDup days →
  english_displace_hours data course prof_id room group_id num_blocks
    fixed_hour days target_hours r st = Ok (placed, r', st') →
  consistent data st' ∧ same_groups st st'.
Proof.
  intros Hcons Hnd. revert r st Hcons.
  induction target_hours as [|hour rest IH]; intros r st Hcons.
  - by intros [= <- <- <-].
  - cbn [english_displace_hours]. intros Hd. inv_bind Hd.
    destruct a as [[placed1 r1] st1].
    apply english_displace_step_consistent in Hbind as [Hcons1 Hk1];
      [|done..].
    destruct placed1; [by injection Hd as <- <- <-|].
    apply IH in Hd as [Hcons' Hk']; [|done]. split; [done|congruence].
Qed.

Lemma english_displace_consistent fixed_hour sequences hours_to_try r st
    placed r' st' :
  consistent data st → Forall NoDup sequences →
  english_displace data course prof_id room group_id num_blocks fixed_hour
    sequences hours_to_try r st = Ok (placed, r', st') →
  consistent data st' ∧ same_groups st st'.
Proof.
  intros Hcons Hseq. revert r st Hcons.
  induction Hseq as [|days rest Hnd Hseq IH]; intros r st Hcons.
  - by intros [= <- <- <-].
  - cbn [english_displace]. intros Hd. inv_bind Hd.
    destruct a as [[placed1 r1] st1].
    apply english_displace_hours_consistent in Hbind as [Hcons1 Hk1];
      [|done..].
    destruct placed1; [by injection Hd as <- <- <-|].
    apply IH in Hd as [Hcons' Hk']; [|done]. split; [done|congruence].
Qed.

Lemma english_attempts_consistent fixed_hour sequences max_attempts r st
    placed r' st' :
  consistent data st → Forall NoDup sequences →
  english_attempts data course prof_id room group_id num_blocks fixed_hour
    sequences max_attempts r st = Ok (placed, r', st') →
  consistent data st' ∧ same_groups st st'.
Proof.
  intros Hcons Hseq. revert r st Hcons.
  induction max_attempts as [|n IH]; intros r st Hcons.
  - by intros [= <- <- <-].
  - cbn [english_attempts]. intros Ha. inv_bind Ha.
    destruct a as [[[st1|] hours] r1].
    + injection Ha as <- <- <-. by eapply english_direct_consistent.
    + inv_bind Ha. destruct a as [[placed2 r2] st2].
      apply english_displace_consistent in Hbind0 as [Hcons2 Hk2];
        [|done..].
      destruct placed2; [by injection Ha as <- <- <-|].
      apply IH in Ha as [Hcons' Hk']; [|done]. split; [done|congruence].
Qed.

End english_consistent.

Lemma assign_english_consecutive_days_consistent `{Runtime} data course
    group_id block_durations fixed_hour max_attempts r st placed r' st' :
  distinct_slots data →
  (∀ k x, courses data !! k = Some x → Course.id x = k) →
  consistent data st →
  truthy_int (get_professor_for_group_course data group_id (Course.id course))
  = true →
  truthy_int
    (get_professor_room data
       (default 0
          (get_professor_for_group_course data group_id (Course.id course))))
  = true →
  assign_english_consecutive_days course group_id data block_durations
    fixed_hour max_attempts r st = Ok (placed, r', st') →
  consistent data st'
  ∧ Odict.keys (all_schedules st') = Odict.keys (all_schedules st).
Proof.
  intros Hdistinct Hcourses Hcons Hp Hr.
  unfold assign_english_consecutive_days.
  apply truthy_int_Some in Hp as (p & Hp & Hp0). rewrite Hp in *.
  simpl in Hr. apply truthy_int_Some in Hr as (room & Hr & Hr0). rewrite Hr.
  destruct (get_consecutive_day_sequences _ _) as [|s ss] eqn:Eseq;
    [by intros [= <- <- <-]|].
  destruct (shuffle (s :: ss) r) as [sequences r1] eqn:Esh.
  apply english_attempts_consistent; try done.
  apply Forall_forall. intros days Hdays.
  eapply shuffle_elem_of in Hdays; [|exact Esh]. rewrite <- Eseq in Hdays.
  by apply get_consecutive_day_sequences_spec in Hdays as [_ ?].
Qed.

(** ** The generic placer keeps the schedule consistent *)

Lemma record_fixed_hour_consistent data is_english fixed_hour g course pos st
    fh st' :
  consistent data st →
  record_fixed_hour is_english fixed_hour g course pos st = (fh, st') →
  consistent data st' ∧ all_schedules st' = all_schedules st.
Proof.
  intros Hcons. unfold record_fixed_hour.
  destruct (_ && _); intros [= <- <-]; [|done].
  split; [|done]. by eapply consistent_same.
Qed.

Section generic_consistent.
Context `{Runtime} (data : SchedulingData).
Hypothesis Hdistinct : distinct_slots data.
Hypothesis Hcourses : ∀ k x, courses data !! k = Some x → Course.id x = k.

Local Abbreviation same_groups st st' :=
  (Odict.keys (all_schedules st') = Odict.keys (all_schedules st)).

Lemma place_and_record_consistent st g course block duration day is_english
    fixed_hour pos st1 fh st2 :
  consistent data st →
  valid_position data st g course duration day is_english fixed_hour pos →
  place_block st g course block pos day = Ok st1 →
  record_fixed_hour is_english fixed_hour g course pos st1 = (fh, st2) →
  consistent data st2 ∧ same_groups st st2.
Proof.
  intros Hcons Hv Hp Hr.
  eapply place_block_consistent in Hp as [Hcons1 Hk1]; [|done..].
  apply (record_fixed_hour_consistent data) in Hr as [Hcons2 Ha]; [|done].
  split; [done|]. by rewrite Ha.
Qed.

Lemma direct_days_consistent course g is_english block_num duration days
    fixed_hour r st fh r' st' :
  consistent data st →
  direct_days data course g is_english block_num duration days fixed_hour r
    st = Ok (Some (fh, r', st')) →
  consistent data st' ∧ same_groups st st'.
Proof.
  intros Hcons. induction days as [|day rest IH]; [done|].
  cbn [direct_days]. destruct (day_is_used _ _ _ _); [done|].
  intros Hd. inv_bind Hd. destruct a as [|p0 ps]; [by apply IH|].
  inv_bind Hd. destruct a as [pos r1]. inv_bind Hd.
  destruct (record_fixed_hour _ _ _ _ _ _) as [fh1 st2] eqn:Er.
  injection Hd as <- <- <-.
  eapply place_and_record_consistent; [done| |done..].
  eapply find_all_valid_positions_valid; [exact Hbind|].
  by eapply choice_elem_of.
Qed.

Lemma displace_window_consistent course g is_english prof_id block_num
    duration day day_slots fixed_hour start_idx r st assigned fh r' st' :
  consistent data st →
  displace_window data course g is_english prof_id block_num duration day
    day_slots fixed_hour start_idx r st = Ok (assigned, fh, r', st') →
  consistent data st' ∧ same_groups st st'.
Proof.
  intros Hcons. unfold displace_window.
  destruct (py_slice _ _ _) as [|first rest]; [done|].
  destruct (negb _); [by intros [= <- <- <- <-]|].
  destruct (_ && _ && negb _); [by intros [= <- <- <- <-]|].
  destruct (conflicts_ready data st Hcons (map TimeSlot.id (first :: rest)) g)
    as [Hrl Hsep].
  apply (all_relocatable_filter _ _ (λ c, c_is_english c = false)) in Hrl.
  apply (all_separate_filter _ (λ c, c_is_english c = false)) in Hsep.
  destruct (filter _ _) as [|c cs] eqn:Ef; [by intros [= <- <- <- <-]|].
  intros Hd. inv_bind Hd. destruct a as [[all_moved r1] st1].
  destruct (relocate_all_consistent data Hdistinct Hcourses _ _ _ _ _ _
              Hcons Hrl Hsep Hbind) as [Hcons1 Hk1].
  destruct all_moved; [|by injection Hd as <- <- <- <-].
  inv_bind Hd. destruct a as [|pos ps]; [by injection Hd as <- <- <- <-|].
  inv_bind Hd. destruct (record_fixed_hour _ _ _ _ _ _) as [fh1 st3] eqn:Er.
  injection Hd as <- <- <- <-.
  eapply place_and_record_consistent in Er as [Hcons3 Hk3]; [|done| |done].
  - split; [done|congruence].
  - eapply find_all_valid_positions_valid; [exact Hbind0|left].
Qed.

Lemma displace_windows_consistent course g is_english prof_id block_num
    duration day day_slots fixed_hour idxs r st assigned fh r' st' :
  consistent data st →
  displace_windows data course g is_english prof_id block_num duration day
    day_slots fixed_hour idxs r st = Ok (assigned, fh, r', st') →
  consistent data st' ∧ same_groups st st'.
Proof.
  revert fixed_hour r st.
  induction idxs as [|i rest IH]; intros fixed_hour r st Hcons.
  - by intros [= <- <- <- <-].
  - cbn [displace_windows]. intros Hd. inv_bind Hd.
    destruct a as [[[assigned1 fh1] r1] st1].
    apply displace_window_consistent in Hbind as [Hcons1 Hk1]; [|done].
    destruct assigned1; [by injection Hd as <- <- <- <-|].
    apply IH in Hd as [Hcons' Hk']; [|done]. split; [done|congruence].
Qed.

Lemma displace_days_consistent course g is_english prof_id block_num
    duration days fixed_hour r st assigned fh r' st' :
  consistent data st →
  displace_days data course g is_english prof_id block_num duration days
    fixed_hour r st = Ok (assigned, fh, r', st') →
  consistent data st' ∧ same_groups st st'.
Proof.
  revert fixed_hour r st.
  induction days as [|day rest IH]; intros fixed_hour r st Hcons.
  - by intros [= <- <- <- <-].
  - cbn [displace_days]. destruct (day_is_used _ _ _ _); [by apply IH|].
    intros Hd. inv_bind Hd. destruct a as [[[assigned1 fh1] r1] st1].
    apply displace_windows_consistent in Hbind as [Hcons1 Hk1]; [|done].
    destruct assigned1; [by injection Hd as <- <- <- <-|].
    apply IH in Hd as [Hcons' Hk']; [|done]. split; [done|congruence].
Qed.

Lemma attempt_block_consistent course g is_english prof_id block_num
    duration attempts_left fixed_hour r st assigned fh r' st' :
  consistent data st →
  attempt_block data course g is_english prof_id block_num duration
    attempts_left fixed_hour r st = Ok (assigned, fh, r', st') →
  consistent data st' ∧ same_groups st st'.
Proof.
  revert fixed_hour r st.
  induction attempts_left as [|n IH]; intros fixed_hour r st Hcons.
  - by intros [= <- <- <- <-].
  - cbn [attempt_block]. destruct (shuffle _ r) as [days r1].
    intros Ha. inv_bind Ha. destruct a as [[[fh1 r2] st2]|].
    + injection Ha as <- <- <- <-. by eapply direct_days_consistent.
    + inv_bind Ha. destruct a as [[[assigned2 fh2] r2] st2].
      apply displace_days_consistent in Hbind0 as [Hcons2 Hk2]; [|done].
      destruct assigned2; [by injection Ha as <- <- <- <-|].
      apply IH in Ha as [Hcons' Hk']; [|done]. split; [done|congruence].
Qed.

Lemma assign_blocks_consistent course g is_english prof_id max_attempts
    block_num block_durations fixed_hour blocks_assigned r st n r' st' :
  consistent data st →
  assign_blocks data course g is_english prof_id max_attempts block_num
    block_durations fixed_hour blocks_assigned r st = Ok (n, r', st') →
  consistent data st' ∧ same_groups st st'.
Proof.
  revert block_num fixed_hour blocks_assigned r st.
  induction block_durations as [|d rest IH];
    intros block_num fixed_hour blocks_assigned r st Hcons.
  - by intros [= <- <- <-].
  - cbn [assign_blocks]. intros Ha. inv_bind Ha.
    destruct a as [[[assigned1 fh1] r1] st1].
    apply attempt_block_consistent in Hbind as [Hcons1 Hk1]; [|done].
    apply IH in Ha as [Hcons' Hk']; [|done]. split; [done|congruence].
Qed.

Lemma force_assign_with_displacement_consistent course g is_english
    block_durations max_attempts r st placed r' st' :
  consistent data st →
  force_assign_with_displacement course g data is_english block_durations
    max_attempts r st = Ok (placed, r', st') →
  consistent data st' ∧ same_groups st st'.
Proof.
  intros Hcons. unfold force_assign_with_displacement.
  destruct (truthy_int (get_professor_for_group_course _ _ _)) eqn:Hp;
    [|by intros [= <- <- <-]].
  destruct (truthy_int (get_professor_room _ _)) eqn:Hr;
    [|by intros [= <- <- <-]].
  cbn [negb]. destruct (_ && _).
  - by apply assign_english_consecutive_days_consistent.
  - intros Ha. inv_bind Ha. destruct a as [[n r1] st1].
    injection Ha as <- <- <-. by eapply assign_blocks_consistent.
Qed.

Lemma place_course_groups_consistent course is_english block_durations
    group_ids r st r' st' :
  consistent data st →
  place_course_groups data course is_english block_durations group_ids r st
  = Ok (r', st') →
  consistent data st' ∧ same_groups st st'.
Proof.
  revert r st. induction group_ids as [|g rest IH]; intros r st Hcons.
  - by intros [= <- <-].
  - cbn [place_course_groups]. intros Hp. inv_bind Hp.
    destruct a as [[placed r1] st1].
    apply force_assign_with_displacement_consistent in Hbind
      as [Hcons1 Hk1]; [|done].
    apply IH in Hp as [Hcons' Hk']; [|done]. split; [done|congruence].
Qed.

Lemma first_pass_consistent assignments english sorted_courses r st r' st' :
  consistent data st →
  first_pass data assignments english sorted_courses r st = Ok (r', st') →
  consistent data st' ∧ same_groups st st'.
Proof.
  revert r st.
  induction sorted_courses as [|course rest IH]; intros r st Hcons.
  - by intros [= <- <-].
  - cbn [first_pass]. destruct (calculate_course_blocks course); [|done].
    intros Hf. inv_bind Hf. destruct a as [r1 st1].
    apply place_course_groups_consistent in Hbind as [Hcons1 Hk1]; [|done].
    apply IH in Hf as [Hcons' Hk']; [|done]. split; [done|congruence].
Qed.

Lemma verify_group_consistent group schedule assignments r st r' st' :
  consistent data st →
  verify_group data group schedule assignments r st = Ok (r', st') →
  consistent data st' ∧ same_groups st st'.
Proof.
  revert r st. induction assignments as [|a rest IH]; intros r st Hcons.
  - by intros [= <- <-].
  - cbn [verify_group]. destruct (bool_decide _); [|by apply IH].
    destruct (courses data !! _) as [course|]; [|by apply IH].
    destruct (_ <? _); [|by apply IH].
    intros Hv. inv_bind Hv. destruct a0 as [[placed r1] st1].
    apply force_assign_with_displacement_consistent in Hbind
      as [Hcons1 Hk1]; [|done].
    apply IH in Hv as [Hcons' Hk']; [|done]. split; [done|congruence].
Qed.

Lemma second_pass_consistent assignments groups r st r' st' :
  consistent data st →
  second_pass data assignments groups r st = Ok (r', st') →
  consistent data st' ∧ same_groups st st'.
Proof.
  revert r st. induction groups as [|g rest IH]; intros r st Hcons.
  - by intros [= <- <-].
  - cbn [second_pass]. destruct (Odict.get _ _) as [schedule|]; [|done].
    intros Hs. inv_bind Hs. destruct a as [r1 st1].
    apply verify_group_consistent in Hbind as [Hcons1 Hk1]; [|done].
    apply IH in Hs as [Hcons' Hk']; [|done]. split; [done|congruence].
Qed.

End generic_consistent.

(** ** A run keeps the schedule consistent *)

Lemma NoDup_fmap_inj {A B} (f : A → B) (l : list A) x y :
  NoDup (map f l) → x ∈ l → y ∈ l → f x = f y → x = y.
Proof.
  induction l as [|a l IH]; simpl; [by intros _ ?%elem_of_nil|].
  intros [Ha Hnd]%NoDup_cons [->|Hx]%elem_of_cons [->|Hy]%elem_of_cons Hf;
    try done.
  - destruct Ha. rewrite Hf. by apply list_elem_of_fmap_2.
  - destruct Ha. rewrite <- Hf. by apply list_elem_of_fmap_2.
  - by apply IH.
Qed.

Lemma distinct_slots_init cs rs timeslots profs assignments prof_rooms :
  NoDup (map TimeSlot.id timeslots) →
  distinct_slots
    (SchedulingData_init cs rs timeslots profs assignments prof_rooms).
Proof.
  intros Hnd. split.
  - intros day l. cbn [slots_by_day SchedulingData_init].
    rewrite od_get_map_values, group_by_day_get.
    destruct (filter _ _) as [|s l'] eqn:Ef; [done|].
    intros [= <-].
    change (NoDup (TimeSlot.id <$> sort_by_id (s :: l'))).
    rewrite sort_by_id_perm, <- Ef.
    eapply sublist_NoDup; [exact Hnd|].
    apply fmap_sublist. etrans; apply sublist_filter.
  - intros day1 day2 l1 l2 s1 s2 H1 H2 Hs1 Hs2 Hid.
    destruct (index_ok_init cs rs timeslots profs assignments prof_rooms
                _ _ _ H1 Hs1) as (Hin1 & _ & <-).
    destruct (index_ok_init cs rs timeslots profs assignments prof_rooms
                _ _ _ H2 Hs2) as (Hin2 & _ & <-).
    by rewrite (NoDup_fmap_inj TimeSlot.id timeslots s1 s2).
Qed.

Lemma initial_state_get groups g sched :
  Odict.get g (all_schedules (initial_state groups)) = Some sched →
  sched = [].
Proof.
  intros Hg%od_get_elem_of. cbn [all_schedules initial_state] in Hg.
  eapply initial_schedules_empty; [|exact Hg]. by intros k s ?%elem_of_nil.
Qed.

Lemma initial_state_NoDup groups :
  NoDup (Odict.keys (all_schedules (initial_state groups))).
Proof.
  cbn [all_schedules initial_state].
  induction groups as [|g l IH] using rev_ind; [constructor|].
  rewrite foldl_app. cbn [foldl]. by apply od_set_NoDup.
Qed.

Lemma initial_state_consistent data groups :
  consistent data (initial_state groups).
Proof.
  assert (∀ g hid e, ¬ has_entry (initial_state groups) g hid e) as Hno.
  { intros g hid e (sched & Hg & He).
    by apply initial_state_get in Hg as ->. }
  split.
  - split.
    + apply initial_state_NoDup.
    + intros g sched ->%initial_state_get. constructor.
  - intros g hid e He. by destruct (Hno g hid e).
  - intros g hid1 e1 hid2 e2 He. by destruct (Hno g hid1 e1).
  - intros g1 hid1 e1 g2 hid2 e2 He. by destruct (Hno g1 hid1 e1).
Qed.

Lemma initial_state_groups groups g :
  g ∈ Odict.keys (all_schedules (initial_state groups))
  ↔ g ∈ map Group.id groups.
Proof.
  cbn [all_schedules initial_state].
  induction groups as [|x l IH] using rev_ind.
  - split; by intros ?%elem_of_nil.
  - rewrite foldl_app, map_app, elem_of_app. cbn [foldl map].
    rewrite list_elem_of_singleton, <- IH.
    set (d := foldl _ [] l). destruct (Odict.get (Group.id x) d) eqn:E.
    + rewrite od_keys_set by eauto. split; [by left|].
      intros [?| ->]; [done|]. apply od_get_elem_of in E.
      by apply (list_elem_of_fmap_2 fst) in E.
    + rewrite od_keys_set_new by done.
      by rewrite elem_of_app, list_elem_of_singleton.
Qed.

Lemma initial_state_distinct groups :
  NoDup (map Group.id groups) →
  Odict.keys (all_schedules (initial_state groups)) = map Group.id groups.
Proof.
  cbn [all_schedules initial_state].
  induction groups as [|x l IH] using rev_ind; [done|].
  rewrite foldl_app, map_app. cbn [foldl map].
  intros (Hl & Hx & _)%NoDup_app.
  rewrite od_keys_set_new, IH; [done..|].
  apply od_get_None. rewrite IH by done.
  intros Hin. apply (Hx _ Hin). left.
Qed.

Section run_consistent.
Context `{Runtime}.
Context (cs : list Course.t) (rs : list Room.t) (timeslots : list TimeSlot.t)
  (profs : list Professor.t) (assignments : list Assignment.t)
  (prof_rooms : gmap Z Z) (groups : list Group.t).
Hypothesis Hslots : NoDup (map TimeSlot.id timeslots).

Local Abbreviation data :=
  (SchedulingData_init cs rs timeslots profs assignments prof_rooms).

Lemma run_all_groups_consistent r r' st' :
  run_all_groups cs rs timeslots profs assignments prof_rooms groups r
  = Ok (r', st') →
  consistent data st'
  ∧ Odict.keys (all_schedules st')
    = Odict.keys (all_schedules (initial_state groups)).
Proof.
  unfold run_all_groups. intros Hr. inv_bind Hr. destruct a as [r1 st1].
  assert (distinct_slots data) as Hd by by apply distinct_slots_init.
  assert (∀ k x, courses data !! k = Some x → Course.id x = k) as Hc.
  { intros k x Hk. by apply dict_by_lookup in Hk as [? _]. }
  apply first_pass_consistent in Hbind as [Hcons1 Hk1];
    [|done..|apply initial_state_consistent].
  apply second_pass_consistent in Hr as [Hcons' Hk']; [|done..].
  split; [done|congruence].
Qed.

Lemma generate_consistent r out :
  generate_schedule_for_all_groups cs rs timeslots profs assignments
    prof_rooms groups r = Ok out →
  ∃ st',
    out = all_schedules st' ∧ consistent data st'
    ∧ Odict.keys out = Odict.keys (all_schedules (initial_state groups)).
Proof.
  unfold generate_schedule_for_all_groups. intros Hg. inv_bind Hg.
  destruct a as [r' st']. injection Hg as <-.
  apply run_all_groups_consistent in Hbind as [? ?]. by exists st'.
Qed.

Lemma consistent_has_entry st g sched hid e :
  consistent data st →
  (g, sched) ∈ all_schedules st → (hid, e) ∈ sched → has_entry st g hid e.
Proof.
  intros [[Hout Hin] _ _ _] Hg He.
  apply od_elem_of_get in Hg; [|done]. exists sched. split; [done|].
  apply od_elem_of_get; [by eapply Hin|done].
Qed.

(** No group has two classes in one timeslot: in the schedule that
    [generate_schedule_for_all_groups] returns for input timeslots with
    distinct ids, two entries of a group with the same timeslot are the same
    entry. *)
Theorem group_never_double_booked r out g sched hid1 e1 hid2 e2 :
  generate_schedule_for_all_groups cs rs timeslots profs assignments
    prof_rooms groups r = Ok out →
  (g, sched) ∈ out → (hid1, e1) ∈ sched → (hid2, e2) ∈ sched →
  e_slot e1 = e_slot e2 →
  hid1 = hid2 ∧ e1 = e2.
Proof.
  intros (st' & -> & Hcons & _)%generate_consistent Hg H1 H2 Hs.
  pose proof (consistent_has_entry _ _ _ _ _ Hcons Hg H1) as He1.
  pose proof (consistent_has_entry _ _ _ _ _ Hcons Hg H2) as He2.
  assert (hid1 = hid2) as -> by by eapply (cs_group _ _ Hcons).
  split; [done|]. by eapply has_entry_fun.
Qed.

(** No professor teaches two classes in one timeslot: two entries of the
    returned schedule, of any groups, whose courses are taught to those
    groups by the same professor and that have the same timeslot are the
    same entry of the same group. *)
Theorem professor_never_double_booked r out g1 sched1 hid1 e1 g2 sched2 hid2
    e2 :
  generate_schedule_for_all_groups cs rs timeslots profs assignments
    prof_rooms groups r = Ok out →
  (g1, sched1) ∈ out → (hid1, e1) ∈ sched1 →
  (g2, sched2) ∈ out → (hid2, e2) ∈ sched2 →
  get_professor_for_group_course data g1 (e_course e1)
  = get_professor_for_group_course data g2 (e_course e2) →
  e_slot e1 = e_slot e2 →
  g1 = g2 ∧ hid1 = hid2 ∧ e1 = e2.
Proof.
  intros (st' & -> & Hcons & _)%generate_consistent Hg1 H1 Hg2 H2 Hp Hs.
  pose proof (consistent_has_entry _ _ _ _ _ Hcons Hg1 H1) as He1.
  pose proof (consistent_has_entry _ _ _ _ _ Hcons Hg2 H2) as He2.
  destruct (cs_entry _ _ Hcons _ _ _ He1)
    as (_ & p1 & (Hp1 & _) & _ & _ & (m1 & Hm1 & Hx1) & _).
  destruct (cs_entry _ _ Hcons _ _ _ He2)
    as (_ & p2 & (Hp2 & _) & _ & _ & (m2 & Hm2 & Hx2) & _).
  rewrite Hp1, Hp2 in Hp. injection Hp as ->.
  rewrite Hm1 in Hm2. injection Hm2 as <-. rewrite Hs, Hx2 in Hx1.
  injection Hx1 as ->.
  assert (hid1 = hid2) as -> by by eapply (cs_group _ _ Hcons).
  split; [done|]. split; [done|]. by eapply has_entry_fun.
Qed.

(** No room hosts two classes in one timeslot: two entries of the returned
    schedule, of any groups, with the same room and the same timeslot are
    the same entry of the same group. *)
Theorem room_never_double_booked r out g1 sched1 hid1 e1 g2 sched2 hid2 e2 :
  generate_schedule_for_all_groups cs rs timeslots profs assignments
    prof_rooms groups r = Ok out →
  (g1, sched1) ∈ out → (hid1, e1) ∈ sched1 →
  (g2, sched2) ∈ out → (hid2, e2) ∈ sched2 →
  e_room e1 = e_room e2 → e_slot e1 = e_slot e2 →
  g1 = g2 ∧ hid1 = hid2 ∧ e1 = e2.
Proof.
  intros (st' & -> & Hcons & _)%generate_consistent Hg1 H1 Hg2 H2 Hr Hs.
  pose proof (consistent_has_entry _ _ _ _ _ Hcons Hg1 H1) as He1.
  pose proof (consistent_has_entry _ _ _ _ _ Hcons Hg2 H2) as He2.
  assert (g1 = g2) as ->
    by by eapply (cs_room _ _ Hcons _ _ _ _ _ _ He1 He2).
  assert (hid1 = hid2) as -> by by eapply (cs_group _ _ Hcons).
  split; [done|]. split; [done|]. by eapply has_entry_fun.
Qed.

(** Every class of the returned schedule is of a course that the input
    assigns to the group: the pair has a professor (the one of its last
    assignment), the class is in the room of that professor, its timeslot is
    not one at which the professor is unavailable, and the course number of
    its hour identifier is its course. *)
Theorem classes_follow_assignments r out g sched hid e :
  generate_schedule_for_all_groups cs rs timeslots profs assignments
    prof_rooms groups r = Ok out →
  (g, sched) ∈ out → (hid, e) ∈ sched →
  h_course hid = e_course e
  ∧ ∃ p,
      get_professor_for_group_course data g (e_course e) = Some p ∧ p ≠ 0
      ∧ prof_rooms !! p = Some (e_room e) ∧ e_room e ≠ 0
      ∧ is_professor_available_at_slots data p [e_slot e] = true.
Proof.
  intros (st' & -> & Hcons & _)%generate_consistent Hg He.
  pose proof (consistent_has_entry _ _ _ _ _ Hcons Hg He) as Hh.
  destruct (cs_entry _ _ Hcons _ _ _ Hh)
    as (Hc & p & (Hp & Hp0 & Hr & Hr0) & Hav & _).
  split; [done|]. by exists p.
Qed.

(** The returned schedule map has one schedule for each group id of the
    input, and no other: its keys are the group ids, each once, in the order
    of the input when the ids of the input are distinct. *)
Theorem one_schedule_per_group r out :
  generate_schedule_for_all_groups cs rs timeslots profs assignments
    prof_rooms groups r = Ok out →
  NoDup (Odict.keys out)
  ∧ (∀ g, g ∈ Odict.keys out ↔ g ∈ map Group.id groups)
  ∧ (NoDup (map Group.id groups) → Odict.keys out = map Group.id groups).
Proof.
  intros (st' & -> & Hcons & Hk)%generate_consistent.
  split; [apply Hcons|]. rewrite Hk. split.
  - apply initial_state_groups.
  - apply initial_state_distinct.
Qed.

End run_consistent.


Lemma week_slots_distinct : NoDup (map TimeSlot.id (week_slots 5)).
Proof. apply (bool_decide_unpack _). vm_compute. exact I. Qed.

Lemma group_never_double_booked_witness :
  mkHourId 1 2 1 1 = mkHourId 1 2 1 1
  ∧ mkEntry 2018 101 2 = mkEntry 2018 101 2.
Proof.
  apply (group_never_double_booked (H := tape_runtime) ex_courses []
           (week_slots 5) ex_professors ex_assignments ex_professor_rooms
           ex_groups week_slots_distinct ex_tape ex_schedules 1
           (default [] (Odict.get 1 ex_schedules))).
  - vm_compute. reflexivity.
  - left.
  - do 5 right. left.
  - do 5 right. left.
  - reflexivity.
Defined.

Lemma professor_never_double_booked_witness :
  1 = 1 ∧ mkHourId 1 1 3 0 = mkHourId 1 1 3 0
  ∧ mkEntry 3021 100 1 = mkEntry 3021 100 1.
Proof.
  apply (professor_never_double_booked (H := tape_runtime) ex_courses []
           (week_slots 5) ex_professors ex_assignments ex_professor_rooms
           ex_groups week_slots_distinct ex_tape ex_schedules
           1 (default [] (Odict.get 1 ex_schedules)) _ _
           1 (default [] (Odict.get 1 ex_schedules))).
  - vm_compute. reflexivity.
  - left.
  - do 2 right. left.
  - left.
  - do 2 right. left.
  - reflexivity.
  - reflexivity.
Defined.

Lemma room_never_double_booked_witness :
  1 = 1 ∧ mkHourId 1 2 2 0 = mkHourId 1 2 2 0
  ∧ mkEntry 3017 101 2 = mkEntry 3017 101 2.
Proof.
  apply (room_never_double_booked (H := tape_runtime) ex_courses []
           (week_slots 5) ex_professors ex_assignments ex_professor_rooms
           ex_groups week_slots_distinct ex_tape ex_schedules
           1 (default [] (Odict.get 1 ex_schedules)) _ _
           1 (default [] (Odict.get 1 ex_schedules))).
  - vm_compute. reflexivity.
  - left.
  - do 7 right. left.
  - left.
  - do 7 right. left.
  - reflexivity.
  - reflexivity.
Defined.

Lemma classes_follow_assignments_witness :
  h_course (mkHourId 1 2 1 0) = e_course (mkEntry 2017 101 2)
  ∧ ∃ p,
      get_professor_for_group_course
        (SchedulingData_init ex_courses [] (week_slots 5) ex_professors
           ex_assignments ex_professor_rooms) 1 (e_course (mkEntry 2017 101 2))
      = Some p ∧ p ≠ 0
      ∧ ex_professor_rooms !! p = Some (e_room (mkEntry 2017 101 2))
      ∧ e_room (mkEntry 2017 101 2) ≠ 0
      ∧ is_professor_available_at_slots
          (SchedulingData_init ex_courses [] (week_slots 5) ex_professors
             ex_assignments ex_professor_rooms) p
          [e_slot (mkEntry 2017 101 2)] = true.
Proof.
  apply (classes_follow_assignments (H := tape_runtime) ex_courses []
           (week_slots 5) ex_professors ex_assignments ex_professor_rooms
           ex_groups week_slots_distinct ex_tape ex_schedules 1
           (default [] (Odict.get 1 ex_schedules))).
  - vm_compute. reflexivity.
  - left.
  - do 4 right. left.
Defined.

Lemma one_schedule_per_group_witness :
  NoDup (Odict.keys ex_schedules)
  ∧ (∀ g, g ∈ Odict.keys ex_schedules ↔ g ∈ map Group.id ex_groups)
  ∧ (NoDup (map Group.id ex_groups) →
     Odict.keys ex_schedules = map Group.id ex_groups).
Proof.
  apply (one_schedule_per_group (H := tape_runtime) ex_courses []
           (week_slots 5) ex_professors ex_assignments ex_professor_rooms
           ex_groups week_slots_distinct ex_tape ex_schedules).
  vm_compute. reflexivity.
Defined.

(** ** A failed relocation writes the block back *)


Section odict_order.
Context {K V : Type} `{EqDecision K}.
Implicit Types (d : list (K * V)) (k : K) (v : V).



End odict_order.











(** The hours of a block that [get_conflicting_blocks] returns have
    distinct identifiers. *)
Lemma conflict_hours_NoDup `{Runtime} slot_ids g0 data st c :
  keys_ok st →
  c ∈ get_conflicting_blocks slot_ids g0 (all_schedules st) data →
  NoDup (map hour_id (hours c)).
Proof.
  intros Hok Hc. by destruct (conflicts_intact _ _ _ _ _ Hok Hc) as [[] _].
Qed.




